(** * Generation orchestration pipeline of the SD image API (app/server.py)

    A shallow embedding of the prompt firewall, the negative-prompt
    composer, the ComfyUI workflow builder, the submit/poll/fetch client,
    the result persister and the two generation endpoints, together with
    the properties the design document states about them.

    A [str] is modelled by the [string] of the bytes of its UTF-8
    encoding (so [str.encode()] keeps the bytes, and the operations that
    look at characters decode them), byte strings by [list byte], Python
    integers by [Z], Python floats by [Q]
    (every finite float is a rational; the code only tests them for zero
    and passes them on), dictionaries by association lists in insertion
    order, and time by integer milliseconds.

    The last part embeds the batch client (scripts/generate-persona-images.py):
    its tables, the request it sends for one image and the list of
    variations it builds; the quota arithmetic there is computed on IEEE
    754 binary64 numbers ([SpecFloat]). *)

From Stdlib Require Import ZArith List Bool Ascii String QArith Lia.
From Stdlib Require Strings.Byte.
From Stdlib Require Floats.SpecFloat.
Import ListNotations.

#[local] Set Warnings "-register-all".
#[local] Open Scope string_scope.
#[local] Open Scope Z_scope.

(* ================================================================== *)
(** ** Characters and text *)
(* ================================================================== *)

Module Text.

Definition code (c : ascii) : Z := Z.of_N (N_of_ascii c).

Definition chr (z : Z) : ascii := ascii_of_N (Z.to_N z).

(** *** Code points

    A [str] is held as the string of the bytes of its UTF-8 encoding, and
    the operations of [str] and [re] that look at characters read the
    code points off it.  A byte string that is not well-formed UTF-8
    stands for no [str] (and a [str] with a lone surrogate, which has no
    encoding, is not represented); [decode] reads each byte that begins
    no well-formed sequence as U+FFFD. *)

Definition replacement : Z := 0xFFFD.

Definition continuation (b : Z) : bool := (0x80 <=? b) && (b <=? 0xBF).

(** A Unicode scalar value: a code point that is not a surrogate. *)
Definition is_scalar (c : Z) : bool :=
  (0 <=? c) && (c <=? 0x10FFFF) && negb ((0xD800 <=? c) && (c <=? 0xDFFF)).

Definition two_bytes (b0 b1 : Z) : option Z :=
  let c := (b0 - 0xC0) * 64 + (b1 - 0x80) in
  if (0xC0 <=? b0) && (b0 <=? 0xDF) && continuation b1 && (0x80 <=? c)
  then Some c else None.

Definition three_bytes (b0 b1 b2 : Z) : option Z :=
  let c := (b0 - 0xE0) * 4096 + (b1 - 0x80) * 64 + (b2 - 0x80) in
  if (0xE0 <=? b0) && (b0 <=? 0xEF) && continuation b1 && continuation b2
     && (0x800 <=? c) && is_scalar c
  then Some c else None.

Definition four_bytes (b0 b1 b2 b3 : Z) : option Z :=
  let c := (b0 - 0xF0) * 262144 + (b1 - 0x80) * 4096 + (b2 - 0x80) * 64 + (b3 - 0x80) in
  if (0xF0 <=? b0) && (b0 <=? 0xF7) && continuation b1 && continuation b2
     && continuation b3 && (0x10000 <=? c) && is_scalar c
  then Some c else None.

(** The first code point of a string and the number of bytes it takes. *)
Definition first_point (s : string) : option (Z * nat) :=
  match s with
  | EmptyString => None
  | String c0 r0 =>
      let b0 := code c0 in
      if b0 <? 0x80 then Some (b0, 1%nat)
      else
        match r0 with
        | String c1 r1 =>
            match two_bytes b0 (code c1) with
            | Some c => Some (c, 2%nat)
            | None =>
                match r1 with
                | String c2 r2 =>
                    match three_bytes b0 (code c1) (code c2) with
                    | Some c => Some (c, 3%nat)
                    | None =>
                        match r2 with
                        | String c3 _ =>
                            match four_bytes b0 (code c1) (code c2) (code c3) with
                            | Some c => Some (c, 4%nat)
                            | None => Some (replacement, 1%nat)
                            end
                        | EmptyString => Some (replacement, 1%nat)
                        end
                    end
                | EmptyString => Some (replacement, 1%nat)
                end
            end
        | EmptyString => Some (replacement, 1%nat)
        end
  end.

Fixpoint drop (n : nat) (s : string) : string :=
  match n, s with
  | O, _ => s
  | S k, String _ r => drop k r
  | S _, EmptyString => EmptyString
  end.

(** The code points of the first [fuel] characters. *)
Fixpoint decode_from (fuel : nat) (s : string) : list Z :=
  match fuel with
  | O => []
  | S f =>
      match first_point s with
      | None => []
      | Some (c, n) => c :: decode_from f (drop n s)
      end
  end.

(** The code points of a string; it has no more characters than bytes. *)
Definition decode (s : string) : list Z := decode_from (String.length s) s.

(** The UTF-8 bytes of a code point. *)
Definition encode_point (c : Z) : string :=
  if c <? 0x80 then String (chr c) ""
  else if c <? 0x800 then
    String (chr (0xC0 + c / 64)) (String (chr (0x80 + c mod 64)) "")
  else if c <? 0x10000 then
    String (chr (0xE0 + c / 4096))
      (String (chr (0x80 + (c / 64) mod 64)) (String (chr (0x80 + c mod 64)) ""))
  else
    String (chr (0xF0 + c / 262144))
      (String (chr (0x80 + (c / 4096) mod 64))
         (String (chr (0x80 + (c / 64) mod 64)) (String (chr (0x80 + c mod 64)) ""))).

Fixpoint encode (l : list Z) : string :=
  match l with
  | [] => EmptyString
  | c :: r => encode_point c ++ encode r
  end.

(** A string that is the UTF-8 encoding of a [str]. *)
Definition well_formed (s : string) : Prop := encode (decode s) = s.

(** *** Character classes (Unicode 14.0, the tables of CPython 3.11) *)

Definition in_ranges (ranges : list (Z * Z)) (c : Z) : bool :=
  existsb (fun r => (fst r <=? c) && (c <=? snd r)) ranges.

(** [str.isspace], the characters [str.strip] removes. *)
Definition is_space (c : Z) : bool :=
  ((0x09 <=? c) && (c <=? 0x0D)) || ((0x1C <=? c) && (c <=? 0x20))
  || (c =? 0x85) || (c =? 0xA0) || (c =? 0x1680)
  || ((0x2000 <=? c) && (c <=? 0x200A))
  || (c =? 0x2028) || (c =? 0x2029) || (c =? 0x202F) || (c =? 0x205F) || (c =? 0x3000).

Definition is_upper (c : Z) : bool := (65 <=? c) && (c <=? 90).

Definition is_lower (c : Z) : bool := (97 <=? c) && (c <=? 122).

Definition is_digit (c : Z) : bool := (48 <=? c) && (c <=? 57).

Definition alnum_ranges : list (Z * Z) := [
  (170, 170); (178, 179); (181, 181); (185, 186);
  (188, 190); (192, 214); (216, 246); (248, 705);
  (710, 721); (736, 740); (748, 748); (750, 750);
  (880, 884); (886, 887); (890, 893); (895, 895);
  (902, 902); (904, 906); (908, 908); (910, 929);
  (931, 1013); (1015, 1153); (1162, 1327); (1329, 1366);
  (1369, 1369); (1376, 1416); (1488, 1514); (1519, 1522);
  (1568, 1610); (1632, 1641); (1646, 1647); (1649, 1747);
  (1749, 1749); (1765, 1766); (1774, 1788); (1791, 1791);
  (1808, 1808); (1810, 1839); (1869, 1957); (1969, 1969);
  (1984, 2026); (2036, 2037); (2042, 2042); (2048, 2069);
  (2074, 2074); (2084, 2084); (2088, 2088); (2112, 2136);
  (2144, 2154); (2160, 2183); (2185, 2190); (2208, 2249);
  (2308, 2361); (2365, 2365); (2384, 2384); (2392, 2401);
  (2406, 2415); (2417, 2432); (2437, 2444); (2447, 2448);
  (2451, 2472); (2474, 2480); (2482, 2482); (2486, 2489);
  (2493, 2493); (2510, 2510); (2524, 2525); (2527, 2529);
  (2534, 2545); (2548, 2553); (2556, 2556); (2565, 2570);
  (2575, 2576); (2579, 2600); (2602, 2608); (2610, 2611);
  (2613, 2614); (2616, 2617); (2649, 2652); (2654, 2654);
  (2662, 2671); (2674, 2676); (2693, 2701); (2703, 2705);
  (2707, 2728); (2730, 2736); (2738, 2739); (2741, 2745);
  (2749, 2749); (2768, 2768); (2784, 2785); (2790, 2799);
  (2809, 2809); (2821, 2828); (2831, 2832); (2835, 2856);
  (2858, 2864); (2866, 2867); (2869, 2873); (2877, 2877);
  (2908, 2909); (2911, 2913); (2918, 2927); (2929, 2935);
  (2947, 2947); (2949, 2954); (2958, 2960); (2962, 2965);
  (2969, 2970); (2972, 2972); (2974, 2975); (2979, 2980);
  (2984, 2986); (2990, 3001); (3024, 3024); (3046, 3058);
  (3077, 3084); (3086, 3088); (3090, 3112); (3114, 3129);
  (3133, 3133); (3160, 3162); (3165, 3165); (3168, 3169);
  (3174, 3183); (3192, 3198); (3200, 3200); (3205, 3212);
  (3214, 3216); (3218, 3240); (3242, 3251); (3253, 3257);
  (3261, 3261); (3293, 3294); (3296, 3297); (3302, 3311);
  (3313, 3314); (3332, 3340); (3342, 3344); (3346, 3386);
  (3389, 3389); (3406, 3406); (3412, 3414); (3416, 3425);
  (3430, 3448); (3450, 3455); (3461, 3478); (3482, 3505);
  (3507, 3515); (3517, 3517); (3520, 3526); (3558, 3567);
  (3585, 3632); (3634, 3635); (3648, 3654); (3664, 3673);
  (3713, 3714); (3716, 3716); (3718, 3722); (3724, 3747);
  (3749, 3749); (3751, 3760); (3762, 3763); (3773, 3773);
  (3776, 3780); (3782, 3782); (3792, 3801); (3804, 3807);
  (3840, 3840); (3872, 3891); (3904, 3911); (3913, 3948);
  (3976, 3980); (4096, 4138); (4159, 4169); (4176, 4181);
  (4186, 4189); (4193, 4193); (4197, 4198); (4206, 4208);
  (4213, 4225); (4238, 4238); (4240, 4249); (4256, 4293);
  (4295, 4295); (4301, 4301); (4304, 4346); (4348, 4680);
  (4682, 4685); (4688, 4694); (4696, 4696); (4698, 4701);
  (4704, 4744); (4746, 4749); (4752, 4784); (4786, 4789);
  (4792, 4798); (4800, 4800); (4802, 4805); (4808, 4822);
  (4824, 4880); (4882, 4885); (4888, 4954); (4969, 4988);
  (4992, 5007); (5024, 5109); (5112, 5117); (5121, 5740);
  (5743, 5759); (5761, 5786); (5792, 5866); (5870, 5880);
  (5888, 5905); (5919, 5937); (5952, 5969); (5984, 5996);
  (5998, 6000); (6016, 6067); (6103, 6103); (6108, 6108);
  (6112, 6121); (6128, 6137); (6160, 6169); (6176, 6264);
  (6272, 6276); (6279, 6312); (6314, 6314); (6320, 6389);
  (6400, 6430); (6470, 6509); (6512, 6516); (6528, 6571);
  (6576, 6601); (6608, 6618); (6656, 6678); (6688, 6740);
  (6784, 6793); (6800, 6809); (6823, 6823); (6917, 6963);
  (6981, 6988); (6992, 7001); (7043, 7072); (7086, 7141);
  (7168, 7203); (7232, 7241); (7245, 7293); (7296, 7304);
  (7312, 7354); (7357, 7359); (7401, 7404); (7406, 7411);
  (7413, 7414); (7418, 7418); (7424, 7615); (7680, 7957);
  (7960, 7965); (7968, 8005); (8008, 8013); (8016, 8023);
  (8025, 8025); (8027, 8027); (8029, 8029); (8031, 8061);
  (8064, 8116); (8118, 8124); (8126, 8126); (8130, 8132);
  (8134, 8140); (8144, 8147); (8150, 8155); (8160, 8172);
  (8178, 8180); (8182, 8188); (8304, 8305); (8308, 8313);
  (8319, 8329); (8336, 8348); (8450, 8450); (8455, 8455);
  (8458, 8467); (8469, 8469); (8473, 8477); (8484, 8484);
  (8486, 8486); (8488, 8488); (8490, 8493); (8495, 8505);
  (8508, 8511); (8517, 8521); (8526, 8526); (8528, 8585);
  (9312, 9371); (9450, 9471); (10102, 10131); (11264, 11492);
  (11499, 11502); (11506, 11507); (11517, 11517); (11520, 11557);
  (11559, 11559); (11565, 11565); (11568, 11623); (11631, 11631);
  (11648, 11670); (11680, 11686); (11688, 11694); (11696, 11702);
  (11704, 11710); (11712, 11718); (11720, 11726); (11728, 11734);
  (11736, 11742); (11823, 11823); (12293, 12295); (12321, 12329);
  (12337, 12341); (12344, 12348); (12353, 12438); (12445, 12447);
  (12449, 12538); (12540, 12543); (12549, 12591); (12593, 12686);
  (12690, 12693); (12704, 12735); (12784, 12799); (12832, 12841);
  (12872, 12879); (12881, 12895); (12928, 12937); (12977, 12991);
  (13312, 19903); (19968, 42124); (42192, 42237); (42240, 42508);
  (42512, 42539); (42560, 42606); (42623, 42653); (42656, 42735);
  (42775, 42783); (42786, 42888); (42891, 42954); (42960, 42961);
  (42963, 42963); (42965, 42969); (42994, 43009); (43011, 43013);
  (43015, 43018); (43020, 43042); (43056, 43061); (43072, 43123);
  (43138, 43187); (43216, 43225); (43250, 43255); (43259, 43259);
  (43261, 43262); (43264, 43301); (43312, 43334); (43360, 43388);
  (43396, 43442); (43471, 43481); (43488, 43492); (43494, 43518);
  (43520, 43560); (43584, 43586); (43588, 43595); (43600, 43609);
  (43616, 43638); (43642, 43642); (43646, 43695); (43697, 43697);
  (43701, 43702); (43705, 43709); (43712, 43712); (43714, 43714);
  (43739, 43741); (43744, 43754); (43762, 43764); (43777, 43782);
  (43785, 43790); (43793, 43798); (43808, 43814); (43816, 43822);
  (43824, 43866); (43868, 43881); (43888, 44002); (44016, 44025);
  (44032, 55203); (55216, 55238); (55243, 55291); (63744, 64109);
  (64112, 64217); (64256, 64262); (64275, 64279); (64285, 64285);
  (64287, 64296); (64298, 64310); (64312, 64316); (64318, 64318);
  (64320, 64321); (64323, 64324); (64326, 64433); (64467, 64829);
  (64848, 64911); (64914, 64967); (65008, 65019); (65136, 65140);
  (65142, 65276); (65296, 65305); (65313, 65338); (65345, 65370);
  (65382, 65470); (65474, 65479); (65482, 65487); (65490, 65495);
  (65498, 65500); (65536, 65547); (65549, 65574); (65576, 65594);
  (65596, 65597); (65599, 65613); (65616, 65629); (65664, 65786);
  (65799, 65843); (65856, 65912); (65930, 65931); (66176, 66204);
  (66208, 66256); (66273, 66299); (66304, 66339); (66349, 66378);
  (66384, 66421); (66432, 66461); (66464, 66499); (66504, 66511);
  (66513, 66517); (66560, 66717); (66720, 66729); (66736, 66771);
  (66776, 66811); (66816, 66855); (66864, 66915); (66928, 66938);
  (66940, 66954); (66956, 66962); (66964, 66965); (66967, 66977);
  (66979, 66993); (66995, 67001); (67003, 67004); (67072, 67382);
  (67392, 67413); (67424, 67431); (67456, 67461); (67463, 67504);
  (67506, 67514); (67584, 67589); (67592, 67592); (67594, 67637);
  (67639, 67640); (67644, 67644); (67647, 67669); (67672, 67702);
  (67705, 67742); (67751, 67759); (67808, 67826); (67828, 67829);
  (67835, 67867); (67872, 67897); (67968, 68023); (68028, 68047);
  (68050, 68096); (68112, 68115); (68117, 68119); (68121, 68149);
  (68160, 68168); (68192, 68222); (68224, 68255); (68288, 68295);
  (68297, 68324); (68331, 68335); (68352, 68405); (68416, 68437);
  (68440, 68466); (68472, 68497); (68521, 68527); (68608, 68680);
  (68736, 68786); (68800, 68850); (68858, 68899); (68912, 68921);
  (69216, 69246); (69248, 69289); (69296, 69297); (69376, 69415);
  (69424, 69445); (69457, 69460); (69488, 69505); (69552, 69579);
  (69600, 69622); (69635, 69687); (69714, 69743); (69745, 69746);
  (69749, 69749); (69763, 69807); (69840, 69864); (69872, 69881);
  (69891, 69926); (69942, 69951); (69956, 69956); (69959, 69959);
  (69968, 70002); (70006, 70006); (70019, 70066); (70081, 70084);
  (70096, 70106); (70108, 70108); (70113, 70132); (70144, 70161);
  (70163, 70187); (70272, 70278); (70280, 70280); (70282, 70285);
  (70287, 70301); (70303, 70312); (70320, 70366); (70384, 70393);
  (70405, 70412); (70415, 70416); (70419, 70440); (70442, 70448);
  (70450, 70451); (70453, 70457); (70461, 70461); (70480, 70480);
  (70493, 70497); (70656, 70708); (70727, 70730); (70736, 70745);
  (70751, 70753); (70784, 70831); (70852, 70853); (70855, 70855);
  (70864, 70873); (71040, 71086); (71128, 71131); (71168, 71215);
  (71236, 71236); (71248, 71257); (71296, 71338); (71352, 71352);
  (71360, 71369); (71424, 71450); (71472, 71483); (71488, 71494);
  (71680, 71723); (71840, 71922); (71935, 71942); (71945, 71945);
  (71948, 71955); (71957, 71958); (71960, 71983); (71999, 71999);
  (72001, 72001); (72016, 72025); (72096, 72103); (72106, 72144);
  (72161, 72161); (72163, 72163); (72192, 72192); (72203, 72242);
  (72250, 72250); (72272, 72272); (72284, 72329); (72349, 72349);
  (72368, 72440); (72704, 72712); (72714, 72750); (72768, 72768);
  (72784, 72812); (72818, 72847); (72960, 72966); (72968, 72969);
  (72971, 73008); (73030, 73030); (73040, 73049); (73056, 73061);
  (73063, 73064); (73066, 73097); (73112, 73112); (73120, 73129);
  (73440, 73458); (73648, 73648); (73664, 73684); (73728, 74649);
  (74752, 74862); (74880, 75075); (77712, 77808); (77824, 78894);
  (82944, 83526); (92160, 92728); (92736, 92766); (92768, 92777);
  (92784, 92862); (92864, 92873); (92880, 92909); (92928, 92975);
  (92992, 92995); (93008, 93017); (93019, 93025); (93027, 93047);
  (93053, 93071); (93760, 93846); (93952, 94026); (94032, 94032);
  (94099, 94111); (94176, 94177); (94179, 94179); (94208, 100343);
  (100352, 101589); (101632, 101640); (110576, 110579); (110581, 110587);
  (110589, 110590); (110592, 110882); (110928, 110930); (110948, 110951);
  (110960, 111355); (113664, 113770); (113776, 113788); (113792, 113800);
  (113808, 113817); (119520, 119539); (119648, 119672); (119808, 119892);
  (119894, 119964); (119966, 119967); (119970, 119970); (119973, 119974);
  (119977, 119980); (119982, 119993); (119995, 119995); (119997, 120003);
  (120005, 120069); (120071, 120074); (120077, 120084); (120086, 120092);
  (120094, 120121); (120123, 120126); (120128, 120132); (120134, 120134);
  (120138, 120144); (120146, 120485); (120488, 120512); (120514, 120538);
  (120540, 120570); (120572, 120596); (120598, 120628); (120630, 120654);
  (120656, 120686); (120688, 120712); (120714, 120744); (120746, 120770);
  (120772, 120779); (120782, 120831); (122624, 122654); (123136, 123180);
  (123191, 123197); (123200, 123209); (123214, 123214); (123536, 123565);
  (123584, 123627); (123632, 123641); (124896, 124902); (124904, 124907);
  (124909, 124910); (124912, 124926); (124928, 125124); (125127, 125135);
  (125184, 125251); (125259, 125259); (125264, 125273); (126065, 126123);
  (126125, 126127); (126129, 126132); (126209, 126253); (126255, 126269);
  (126464, 126467); (126469, 126495); (126497, 126498); (126500, 126500);
  (126503, 126503); (126505, 126514); (126516, 126519); (126521, 126521);
  (126523, 126523); (126530, 126530); (126535, 126535); (126537, 126537);
  (126539, 126539); (126541, 126543); (126545, 126546); (126548, 126548);
  (126551, 126551); (126553, 126553); (126555, 126555); (126557, 126557);
  (126559, 126559); (126561, 126562); (126564, 126564); (126567, 126570);
  (126572, 126578); (126580, 126583); (126585, 126588); (126590, 126590);
  (126592, 126601); (126603, 126619); (126625, 126627); (126629, 126633);
  (126635, 126651); (127232, 127244); (130032, 130041); (131072, 173791);
  (173824, 177976); (177984, 178205); (178208, 183969); (183984, 191456);
  (194560, 195101); (196608, 201546)
].

Definition lower_runs : list (Z * Z * Z * Z) := [
  (192, 214, 1, 32); (216, 222, 1, 32); (256, 302, 2, 1);
  (304, 304, 1, -199); (306, 310, 2, 1); (313, 327, 2, 1);
  (330, 374, 2, 1); (376, 376, 1, -121); (377, 381, 2, 1);
  (385, 385, 1, 210); (386, 388, 2, 1); (390, 390, 1, 206);
  (391, 391, 1, 1); (393, 394, 1, 205); (395, 395, 1, 1);
  (398, 398, 1, 79); (399, 399, 1, 202); (400, 400, 1, 203);
  (401, 401, 1, 1); (403, 403, 1, 205); (404, 404, 1, 207);
  (406, 406, 1, 211); (407, 407, 1, 209); (408, 408, 1, 1);
  (412, 412, 1, 211); (413, 413, 1, 213); (415, 415, 1, 214);
  (416, 420, 2, 1); (422, 422, 1, 218); (423, 423, 1, 1);
  (425, 425, 1, 218); (428, 428, 1, 1); (430, 430, 1, 218);
  (431, 431, 1, 1); (433, 434, 1, 217); (435, 437, 2, 1);
  (439, 439, 1, 219); (440, 440, 1, 1); (444, 444, 1, 1);
  (452, 452, 1, 2); (453, 453, 1, 1); (455, 455, 1, 2);
  (456, 456, 1, 1); (458, 458, 1, 2); (459, 475, 2, 1);
  (478, 494, 2, 1); (497, 497, 1, 2); (498, 500, 2, 1);
  (502, 502, 1, -97); (503, 503, 1, -56); (504, 542, 2, 1);
  (544, 544, 1, -130); (546, 562, 2, 1); (570, 570, 1, 10795);
  (571, 571, 1, 1); (573, 573, 1, -163); (574, 574, 1, 10792);
  (577, 577, 1, 1); (579, 579, 1, -195); (580, 580, 1, 69);
  (581, 581, 1, 71); (582, 590, 2, 1); (880, 882, 2, 1);
  (886, 886, 1, 1); (895, 895, 1, 116); (902, 902, 1, 38);
  (904, 906, 1, 37); (908, 908, 1, 64); (910, 911, 1, 63);
  (913, 929, 1, 32); (931, 939, 1, 32); (975, 975, 1, 8);
  (984, 1006, 2, 1); (1012, 1012, 1, -60); (1015, 1015, 1, 1);
  (1017, 1017, 1, -7); (1018, 1018, 1, 1); (1021, 1023, 1, -130);
  (1024, 1039, 1, 80); (1040, 1071, 1, 32); (1120, 1152, 2, 1);
  (1162, 1214, 2, 1); (1216, 1216, 1, 15); (1217, 1229, 2, 1);
  (1232, 1326, 2, 1); (1329, 1366, 1, 48); (4256, 4293, 1, 7264);
  (4295, 4295, 1, 7264); (4301, 4301, 1, 7264); (5024, 5103, 1, 38864);
  (5104, 5109, 1, 8); (7312, 7354, 1, -3008); (7357, 7359, 1, -3008);
  (7680, 7828, 2, 1); (7838, 7838, 1, -7615); (7840, 7934, 2, 1);
  (7944, 7951, 1, -8); (7960, 7965, 1, -8); (7976, 7983, 1, -8);
  (7992, 7999, 1, -8); (8008, 8013, 1, -8); (8025, 8031, 2, -8);
  (8040, 8047, 1, -8); (8072, 8079, 1, -8); (8088, 8095, 1, -8);
  (8104, 8111, 1, -8); (8120, 8121, 1, -8); (8122, 8123, 1, -74);
  (8124, 8124, 1, -9); (8136, 8139, 1, -86); (8140, 8140, 1, -9);
  (8152, 8153, 1, -8); (8154, 8155, 1, -100); (8168, 8169, 1, -8);
  (8170, 8171, 1, -112); (8172, 8172, 1, -7); (8184, 8185, 1, -128);
  (8186, 8187, 1, -126); (8188, 8188, 1, -9); (8486, 8486, 1, -7517);
  (8490, 8490, 1, -8383); (8491, 8491, 1, -8262); (8498, 8498, 1, 28);
  (8544, 8559, 1, 16); (8579, 8579, 1, 1); (9398, 9423, 1, 26);
  (11264, 11311, 1, 48); (11360, 11360, 1, 1); (11362, 11362, 1, -10743);
  (11363, 11363, 1, -3814); (11364, 11364, 1, -10727); (11367, 11371, 2, 1);
  (11373, 11373, 1, -10780); (11374, 11374, 1, -10749); (11375, 11375, 1, -10783);
  (11376, 11376, 1, -10782); (11378, 11378, 1, 1); (11381, 11381, 1, 1);
  (11390, 11391, 1, -10815); (11392, 11490, 2, 1); (11499, 11501, 2, 1);
  (11506, 11506, 1, 1); (42560, 42604, 2, 1); (42624, 42650, 2, 1);
  (42786, 42798, 2, 1); (42802, 42862, 2, 1); (42873, 42875, 2, 1);
  (42877, 42877, 1, -35332); (42878, 42886, 2, 1); (42891, 42891, 1, 1);
  (42893, 42893, 1, -42280); (42896, 42898, 2, 1); (42902, 42920, 2, 1);
  (42922, 42922, 1, -42308); (42923, 42923, 1, -42319); (42924, 42924, 1, -42315);
  (42925, 42925, 1, -42305); (42926, 42926, 1, -42308); (42928, 42928, 1, -42258);
  (42929, 42929, 1, -42282); (42930, 42930, 1, -42261); (42931, 42931, 1, 928);
  (42932, 42946, 2, 1); (42948, 42948, 1, -48); (42949, 42949, 1, -42307);
  (42950, 42950, 1, -35384); (42951, 42953, 2, 1); (42960, 42960, 1, 1);
  (42966, 42968, 2, 1); (42997, 42997, 1, 1); (65313, 65338, 1, 32);
  (66560, 66599, 1, 40); (66736, 66771, 1, 40); (66928, 66938, 1, 39);
  (66940, 66954, 1, 39); (66956, 66962, 1, 39); (66964, 66965, 1, 39);
  (68736, 68786, 1, 64); (71840, 71871, 1, 32); (93760, 93791, 1, 32);
  (125184, 125217, 1, 34)
].

Definition cased_ranges : list (Z * Z) := [
  (65, 90); (97, 122); (170, 170); (181, 181);
  (186, 186); (192, 214); (216, 246); (248, 442);
  (444, 447); (452, 659); (661, 696); (704, 705);
  (736, 740); (837, 837); (880, 883); (886, 887);
  (890, 893); (895, 895); (902, 902); (904, 906);
  (908, 908); (910, 929); (931, 1013); (1015, 1153);
  (1162, 1327); (1329, 1366); (1376, 1416); (4256, 4293);
  (4295, 4295); (4301, 4301); (4304, 4346); (4349, 4351);
  (5024, 5109); (5112, 5117); (7296, 7304); (7312, 7354);
  (7357, 7359); (7424, 7615); (7680, 7957); (7960, 7965);
  (7968, 8005); (8008, 8013); (8016, 8023); (8025, 8025);
  (8027, 8027); (8029, 8029); (8031, 8061); (8064, 8116);
  (8118, 8124); (8126, 8126); (8130, 8132); (8134, 8140);
  (8144, 8147); (8150, 8155); (8160, 8172); (8178, 8180);
  (8182, 8188); (8305, 8305); (8319, 8319); (8336, 8348);
  (8450, 8450); (8455, 8455); (8458, 8467); (8469, 8469);
  (8473, 8477); (8484, 8484); (8486, 8486); (8488, 8488);
  (8490, 8493); (8495, 8500); (8505, 8505); (8508, 8511);
  (8517, 8521); (8526, 8526); (8544, 8575); (8579, 8580);
  (9398, 9449); (11264, 11492); (11499, 11502); (11506, 11507);
  (11520, 11557); (11559, 11559); (11565, 11565); (42560, 42605);
  (42624, 42653); (42786, 42887); (42891, 42894); (42896, 42954);
  (42960, 42961); (42963, 42963); (42965, 42969); (42997, 42998);
  (43000, 43002); (43824, 43866); (43868, 43880); (43888, 43967);
  (64256, 64262); (64275, 64279); (65313, 65338); (65345, 65370);
  (66560, 66639); (66736, 66771); (66776, 66811); (66928, 66938);
  (66940, 66954); (66956, 66962); (66964, 66965); (66967, 66977);
  (66979, 66993); (66995, 67001); (67003, 67004); (67456, 67456);
  (67459, 67461); (67463, 67504); (67506, 67514); (68736, 68786);
  (68800, 68850); (71840, 71903); (93760, 93823); (119808, 119892);
  (119894, 119964); (119966, 119967); (119970, 119970); (119973, 119974);
  (119977, 119980); (119982, 119993); (119995, 119995); (119997, 120003);
  (120005, 120069); (120071, 120074); (120077, 120084); (120086, 120092);
  (120094, 120121); (120123, 120126); (120128, 120132); (120134, 120134);
  (120138, 120144); (120146, 120485); (120488, 120512); (120514, 120538);
  (120540, 120570); (120572, 120596); (120598, 120628); (120630, 120654);
  (120656, 120686); (120688, 120712); (120714, 120744); (120746, 120770);
  (120772, 120779); (122624, 122633); (122635, 122654); (125184, 125251);
  (127280, 127305); (127312, 127337); (127344, 127369)
].

Definition case_ignorable_ranges : list (Z * Z) := [
  (39, 39); (46, 46); (58, 58); (94, 94);
  (96, 96); (168, 168); (173, 173); (175, 175);
  (180, 180); (183, 184); (688, 879); (884, 885);
  (890, 890); (900, 901); (903, 903); (1155, 1161);
  (1369, 1369); (1375, 1375); (1425, 1469); (1471, 1471);
  (1473, 1474); (1476, 1477); (1479, 1479); (1524, 1524);
  (1536, 1541); (1552, 1562); (1564, 1564); (1600, 1600);
  (1611, 1631); (1648, 1648); (1750, 1757); (1759, 1768);
  (1770, 1773); (1807, 1807); (1809, 1809); (1840, 1866);
  (1958, 1968); (2027, 2037); (2042, 2042); (2045, 2045);
  (2070, 2093); (2137, 2139); (2184, 2184); (2192, 2193);
  (2200, 2207); (2249, 2306); (2362, 2362); (2364, 2364);
  (2369, 2376); (2381, 2381); (2385, 2391); (2402, 2403);
  (2417, 2417); (2433, 2433); (2492, 2492); (2497, 2500);
  (2509, 2509); (2530, 2531); (2558, 2558); (2561, 2562);
  (2620, 2620); (2625, 2626); (2631, 2632); (2635, 2637);
  (2641, 2641); (2672, 2673); (2677, 2677); (2689, 2690);
  (2748, 2748); (2753, 2757); (2759, 2760); (2765, 2765);
  (2786, 2787); (2810, 2815); (2817, 2817); (2876, 2876);
  (2879, 2879); (2881, 2884); (2893, 2893); (2901, 2902);
  (2914, 2915); (2946, 2946); (3008, 3008); (3021, 3021);
  (3072, 3072); (3076, 3076); (3132, 3132); (3134, 3136);
  (3142, 3144); (3146, 3149); (3157, 3158); (3170, 3171);
  (3201, 3201); (3260, 3260); (3263, 3263); (3270, 3270);
  (3276, 3277); (3298, 3299); (3328, 3329); (3387, 3388);
  (3393, 3396); (3405, 3405); (3426, 3427); (3457, 3457);
  (3530, 3530); (3538, 3540); (3542, 3542); (3633, 3633);
  (3636, 3642); (3654, 3662); (3761, 3761); (3764, 3772);
  (3782, 3782); (3784, 3789); (3864, 3865); (3893, 3893);
  (3895, 3895); (3897, 3897); (3953, 3966); (3968, 3972);
  (3974, 3975); (3981, 3991); (3993, 4028); (4038, 4038);
  (4141, 4144); (4146, 4151); (4153, 4154); (4157, 4158);
  (4184, 4185); (4190, 4192); (4209, 4212); (4226, 4226);
  (4229, 4230); (4237, 4237); (4253, 4253); (4348, 4348);
  (4957, 4959); (5906, 5908); (5938, 5939); (5970, 5971);
  (6002, 6003); (6068, 6069); (6071, 6077); (6086, 6086);
  (6089, 6099); (6103, 6103); (6109, 6109); (6155, 6159);
  (6211, 6211); (6277, 6278); (6313, 6313); (6432, 6434);
  (6439, 6440); (6450, 6450); (6457, 6459); (6679, 6680);
  (6683, 6683); (6742, 6742); (6744, 6750); (6752, 6752);
  (6754, 6754); (6757, 6764); (6771, 6780); (6783, 6783);
  (6823, 6823); (6832, 6862); (6912, 6915); (6964, 6964);
  (6966, 6970); (6972, 6972); (6978, 6978); (7019, 7027);
  (7040, 7041); (7074, 7077); (7080, 7081); (7083, 7085);
  (7142, 7142); (7144, 7145); (7149, 7149); (7151, 7153);
  (7212, 7219); (7222, 7223); (7288, 7293); (7376, 7378);
  (7380, 7392); (7394, 7400); (7405, 7405); (7412, 7412);
  (7416, 7417); (7468, 7530); (7544, 7544); (7579, 7679);
  (8125, 8125); (8127, 8129); (8141, 8143); (8157, 8159);
  (8173, 8175); (8189, 8190); (8203, 8207); (8216, 8217);
  (8228, 8228); (8231, 8231); (8234, 8238); (8288, 8292);
  (8294, 8303); (8305, 8305); (8319, 8319); (8336, 8348);
  (8400, 8432); (11388, 11389); (11503, 11505); (11631, 11631);
  (11647, 11647); (11744, 11775); (11823, 11823); (12293, 12293);
  (12330, 12333); (12337, 12341); (12347, 12347); (12441, 12446);
  (12540, 12542); (40981, 40981); (42232, 42237); (42508, 42508);
  (42607, 42610); (42612, 42621); (42623, 42623); (42652, 42655);
  (42736, 42737); (42752, 42785); (42864, 42864); (42888, 42890);
  (42994, 42996); (43000, 43001); (43010, 43010); (43014, 43014);
  (43019, 43019); (43045, 43046); (43052, 43052); (43204, 43205);
  (43232, 43249); (43263, 43263); (43302, 43309); (43335, 43345);
  (43392, 43394); (43443, 43443); (43446, 43449); (43452, 43453);
  (43471, 43471); (43493, 43494); (43561, 43566); (43569, 43570);
  (43573, 43574); (43587, 43587); (43596, 43596); (43632, 43632);
  (43644, 43644); (43696, 43696); (43698, 43700); (43703, 43704);
  (43710, 43711); (43713, 43713); (43741, 43741); (43756, 43757);
  (43763, 43764); (43766, 43766); (43867, 43871); (43881, 43883);
  (44005, 44005); (44008, 44008); (44013, 44013); (64286, 64286);
  (64434, 64450); (65024, 65039); (65043, 65043); (65056, 65071);
  (65106, 65106); (65109, 65109); (65279, 65279); (65287, 65287);
  (65294, 65294); (65306, 65306); (65342, 65342); (65344, 65344);
  (65392, 65392); (65438, 65439); (65507, 65507); (65529, 65531);
  (66045, 66045); (66272, 66272); (66422, 66426); (67456, 67461);
  (67463, 67504); (67506, 67514); (68097, 68099); (68101, 68102);
  (68108, 68111); (68152, 68154); (68159, 68159); (68325, 68326);
  (68900, 68903); (69291, 69292); (69446, 69456); (69506, 69509);
  (69633, 69633); (69688, 69702); (69744, 69744); (69747, 69748);
  (69759, 69761); (69811, 69814); (69817, 69818); (69821, 69821);
  (69826, 69826); (69837, 69837); (69888, 69890); (69927, 69931);
  (69933, 69940); (70003, 70003); (70016, 70017); (70070, 70078);
  (70089, 70092); (70095, 70095); (70191, 70193); (70196, 70196);
  (70198, 70199); (70206, 70206); (70367, 70367); (70371, 70378);
  (70400, 70401); (70459, 70460); (70464, 70464); (70502, 70508);
  (70512, 70516); (70712, 70719); (70722, 70724); (70726, 70726);
  (70750, 70750); (70835, 70840); (70842, 70842); (70847, 70848);
  (70850, 70851); (71090, 71093); (71100, 71101); (71103, 71104);
  (71132, 71133); (71219, 71226); (71229, 71229); (71231, 71232);
  (71339, 71339); (71341, 71341); (71344, 71349); (71351, 71351);
  (71453, 71455); (71458, 71461); (71463, 71467); (71727, 71735);
  (71737, 71738); (71995, 71996); (71998, 71998); (72003, 72003);
  (72148, 72151); (72154, 72155); (72160, 72160); (72193, 72202);
  (72243, 72248); (72251, 72254); (72263, 72263); (72273, 72278);
  (72281, 72283); (72330, 72342); (72344, 72345); (72752, 72758);
  (72760, 72765); (72767, 72767); (72850, 72871); (72874, 72880);
  (72882, 72883); (72885, 72886); (73009, 73014); (73018, 73018);
  (73020, 73021); (73023, 73029); (73031, 73031); (73104, 73105);
  (73109, 73109); (73111, 73111); (73459, 73460); (78896, 78904);
  (92912, 92916); (92976, 92982); (92992, 92995); (94031, 94031);
  (94095, 94111); (94176, 94177); (94179, 94180); (110576, 110579);
  (110581, 110587); (110589, 110590); (113821, 113822); (113824, 113827);
  (118528, 118573); (118576, 118598); (119143, 119145); (119155, 119170);
  (119173, 119179); (119210, 119213); (119362, 119364); (121344, 121398);
  (121403, 121452); (121461, 121461); (121476, 121476); (121499, 121503);
  (121505, 121519); (122880, 122886); (122888, 122904); (122907, 122913);
  (122915, 122916); (122918, 122922); (123184, 123197); (123566, 123566);
  (123628, 123631); (125136, 125142); (125252, 125259); (127995, 127999);
  (917505, 917505); (917536, 917631); (917760, 917999)
].

(** The class [\w] of [re] on a [str] pattern: [str.isalnum] or the
    underscore. *)
Definition is_word (c : Z) : bool :=
  if c <? 0x80 then is_upper c || is_lower c || is_digit c || (c =? 95)
  else in_ranges alnum_ranges c.

Definition in_run (c : Z) (run : Z * Z * Z * Z) : bool :=
  let '(lo, hi, step, _) := run in
  (lo <=? c) && (c <=? hi) && ((c - lo) mod step =? 0).

Fixpoint lookup (runs : list (Z * Z * Z * Z)) (c : Z) : Z :=
  match runs with
  | [] => c
  | run :: rest => if in_run c run then c + snd run else lookup rest c
  end.

(** The simple lower-case mapping of one code point, the one [re] folds
    case with ([_sre.unicode_tolower]). *)
Definition lower_point (c : Z) : Z :=
  if c <? 0x80 then (if is_upper c then c + 32 else c) else lookup lower_runs c.

(** The full mapping [str.lower] applies outside the final-sigma rule;
    it differs from the simple one at U+0130 only. *)
Definition lower_full (c : Z) : list Z :=
  if c =? 0x130 then [0x69; 0x307] else [lower_point c].

Definition is_cased (c : Z) : bool := in_ranges cased_ranges c.

Definition is_case_ignorable (c : Z) : bool := in_ranges case_ignorable_ranges c.

(** The first character that is not case-ignorable is cased. *)
Fixpoint cased_first (l : list Z) : bool :=
  match l with
  | [] => false
  | c :: r => if is_case_ignorable c then cased_first r else is_cased c
  end.

(** U+03A3 becomes a final sigma when a cased letter stands before it and
    none after it, case-ignorable characters skipped; [before] is the
    text before it, nearest character first. *)
Definition final_sigma (before after : list Z) : bool :=
  cased_first before && negb (cased_first after).

Fixpoint lower_from (before l : list Z) : list Z :=
  match l with
  | [] => []
  | c :: rest =>
      (if c =? 0x3A3
       then [if final_sigma before rest then 0x3C2 else 0x3C3]
       else lower_full c)
      ++ lower_from (c :: before) rest
  end.

Definition lower_points (l : list Z) : list Z := lower_from [] l.

(** [str.lower] *)
Definition lower (s : string) : string := encode (lower_points (decode s)).

Fixpoint lstrip_points (l : list Z) : list Z :=
  match l with
  | [] => []
  | c :: r => if is_space c then lstrip_points r else l
  end.

Fixpoint rstrip_points (l : list Z) : list Z :=
  match l with
  | [] => []
  | c :: r =>
      match rstrip_points r with
      | [] => if is_space c then [] else [c]
      | r' => c :: r'
      end
  end.

(** [str.lstrip], [str.rstrip] and [str.strip] without argument *)
Definition lstrip (s : string) : string := encode (lstrip_points (decode s)).

Definition rstrip (s : string) : string := encode (rstrip_points (decode s)).

Definition strip (s : string) : string :=
  encode (rstrip_points (lstrip_points (decode s))).

(** [s.endswith(suffix)]; on encodings the test on bytes is the test on
    characters. *)
Definition endswith (s suffix : string) : bool :=
  let n := String.length s in
  let m := String.length suffix in
  (m <=? n)%nat && String.eqb (substring (n - m) m s) suffix.

(** [needle in haystack] for two strings *)
Fixpoint contains (haystack needle : string) : bool :=
  if String.prefix needle haystack then true
  else match haystack with
       | EmptyString => false
       | String _ r => contains r needle
       end.

(** Truth value of a string: the empty string is false. *)
Definition truthy (s : string) : bool :=
  match s with EmptyString => false | _ => true end.

(** Line feed, the only control character of the source literals. *)
Definition LF : string := String (chr 10) EmptyString.

Definition digit_char (d : Z) : ascii := chr (48 + d).

Fixpoint digits_aux (fuel : nat) (n : Z) (acc : string) : string :=
  match fuel with
  | O => acc
  | S f =>
      let acc' := String (digit_char (n mod 10)) acc in
      if n <? 10 then acc' else digits_aux f (n / 10) acc'
  end.

(** [str(n)] for an integer *)
Definition of_Z (n : Z) : string :=
  if n <? 0 then "-" ++ digits_aux (S (Z.to_nat (Z.log2 (- n)))) (- n) ""
  else digits_aux (S (Z.to_nat (Z.log2 n))) n "".

Definition hex_char (d : Z) : ascii :=
  if d <? 10 then chr (48 + d) else chr (87 + d).

(** The [n] lowest hexadecimal digits of [v], most significant first. *)
Fixpoint hex_digits (n : nat) (v : Z) : string :=
  match n with
  | O => EmptyString
  | S k => hex_digits k (v / 16) ++ String (hex_char (v mod 16)) EmptyString
  end.

(** [s[:n]] for a string of ASCII characters (the hexadecimal digests). *)
Definition take (n : nat) (s : string) : string := substring 0 n s.

End Text.

Arguments Text.in_ranges _ _ : simpl never.
Arguments Text.lookup _ _ : simpl never.

(* ================================================================== *)
(** ** SHA-256 ([hashlib.sha256], FIPS 180-4) *)
(* ================================================================== *)

Module SHA256.

Definition w32 (x : Z) : Z := x mod 2 ^ 32.

Definition add32 (x y : Z) : Z := w32 (x + y).

Definition rotr (n x : Z) : Z :=
  w32 (Z.lor (Z.shiftr x n) (Z.shiftl x (32 - n))).

Definition shr (n x : Z) : Z := Z.shiftr x n.

Definition not32 (x : Z) : Z := Z.lxor x 0xffffffff.

Definition Ch (x y z : Z) : Z := Z.lxor (Z.land x y) (Z.land (not32 x) z).

Definition Maj (x y z : Z) : Z :=
  Z.lxor (Z.lxor (Z.land x y) (Z.land x z)) (Z.land y z).

Definition Sigma0 (x : Z) : Z := Z.lxor (Z.lxor (rotr 2 x) (rotr 13 x)) (rotr 22 x).
Definition Sigma1 (x : Z) : Z := Z.lxor (Z.lxor (rotr 6 x) (rotr 11 x)) (rotr 25 x).
Definition sigma0 (x : Z) : Z := Z.lxor (Z.lxor (rotr 7 x) (rotr 18 x)) (shr 3 x).
Definition sigma1 (x : Z) : Z := Z.lxor (Z.lxor (rotr 17 x) (rotr 19 x)) (shr 10 x).

(** The constants of FIPS 180-4 4.2.2 and 5.3.3: the first 32 bits of the
    fractional parts of the cube roots, respectively square roots, of the
    first primes. *)
Fixpoint primes_upto (fuel : nat) (n : Z) (found : list Z) : list Z :=
  match fuel with
  | O => found
  | S f =>
      if forallb (fun p => negb (n mod p =? 0)) found
      then primes_upto f (n + 1) (found ++ [n])
      else primes_upto f (n + 1) found
  end.

Definition first_primes (count : nat) : list Z := firstn count (primes_upto 310 2 []).

(** Integer cube root, bit by bit from [2 ^ bits] down. *)
Fixpoint cube_root (bits : nat) (x r : Z) : Z :=
  match bits with
  | O => r
  | S b =>
      let r' := r + 2 ^ Z.of_nat b in
      cube_root b x (if r' * r' * r' <=? x then r' else r)
  end.

Definition frac_cube_root (p : Z) : Z := w32 (cube_root 36 (p * 2 ^ 96) 0).

Definition frac_square_root (p : Z) : Z := w32 (Z.sqrt (p * 2 ^ 64)).

Definition K : list Z := Eval vm_compute in map frac_cube_root (first_primes 64).

Definition H0 : list Z := Eval vm_compute in map frac_square_root (first_primes 8).

Definition byte_val (b : Byte.byte) : Z := Z.of_N (Byte.to_N b).

(** Big-endian bytes of [v], [n] of them. *)
Fixpoint be_bytes (n : nat) (v : Z) : list Z :=
  match n with
  | O => []
  | S k => be_bytes k (v / 256) ++ [v mod 256]
  end.

(** The message followed by the bit 1, zeros up to 56 modulo 64, and
    the bit length on eight bytes. *)
Definition pad (msg : list Z) : list Z :=
  let len := Z.of_nat (List.length msg) in
  let zeros := Z.to_nat ((55 - len) mod 64) in
  msg ++ [0x80] ++ repeat 0 zeros ++ be_bytes 8 (8 * len).

Fixpoint words (fuel : nat) (bs : list Z) : list Z :=
  match fuel, bs with
  | S f, b0 :: b1 :: b2 :: b3 :: rest =>
      (((b0 * 256 + b1) * 256 + b2) * 256 + b3) :: words f rest
  | _, _ => []
  end.

Fixpoint blocks (fuel : nat) (ws : list Z) : list (list Z) :=
  match fuel, ws with
  | S f, _ :: _ => firstn 16 ws :: blocks f (skipn 16 ws)
  | _, _ => []
  end.

(** Message schedule, most recent word first. *)
Fixpoint extend (n : nat) (rev_w : list Z) : list Z :=
  match n with
  | O => rev_w
  | S k =>
      let w := add32 (add32 (sigma1 (nth 1 rev_w 0)) (nth 6 rev_w 0))
                     (add32 (sigma0 (nth 14 rev_w 0)) (nth 15 rev_w 0)) in
      extend k (w :: rev_w)
  end.

Definition schedule (block : list Z) : list Z := rev (extend 48 (rev block)).

Definition state : Type := (Z * Z * Z * Z * Z * Z * Z * Z)%type.

Definition round (s : state) (kw : Z * Z) : state :=
  let '(a, b, c, d, e, f, g, h) := s in
  let t1 := add32 (add32 (add32 h (Sigma1 e)) (add32 (Ch e f g) (fst kw))) (snd kw) in
  let t2 := add32 (Sigma0 a) (Maj a b c) in
  (add32 t1 t2, a, b, c, add32 d t1, e, f, g).

Definition compress (s : state) (block : list Z) : state :=
  let '(a, b, c, d, e, f, g, h) := fold_left round (combine K (schedule block)) s in
  let '(a0, b0, c0, d0, e0, f0, g0, h0) := s in
  (add32 a0 a, add32 b0 b, add32 c0 c, add32 d0 d,
   add32 e0 e, add32 f0 f, add32 g0 g, add32 h0 h).

Definition init : state :=
  match H0 with
  | [a; b; c; d; e; f; g; h] => (a, b, c, d, e, f, g, h)
  | _ => (0, 0, 0, 0, 0, 0, 0, 0)
  end.

Definition digest_words (msg : list Byte.byte) : list Z :=
  let bs := pad (map byte_val msg) in
  let n := List.length bs in
  let '(a, b, c, d, e, f, g, h) :=
    fold_left compress (blocks n (words n bs)) init in
  [a; b; c; d; e; f; g; h].

(** [hashlib.sha256(msg).hexdigest()] *)
Definition hexdigest (msg : list Byte.byte) : string :=
  String.concat "" (map (Text.hex_digits 8) (digest_words msg)).

End SHA256.

(* ================================================================== *)
(** ** The fragment of Python's [re] used by the prompt firewall *)
(* ================================================================== *)

Module Re.

(** Abstract syntax of the patterns: literals, the word boundary [\b],
    concatenation, alternation [|], groups and the quantifier [?].  The
    literals of the subset are ASCII characters. *)
Inductive regex : Type :=
| REps
| RChar (c : ascii)
| RWordB
| RSeq (r1 r2 : regex)
| RAlt (r1 r2 : regex)
| ROpt (r : regex).

(** How a (sub)pattern ended: at the end of the source, or at a closing
    parenthesis that has been consumed. *)
Inductive stop : Type := AtEnd | AtClose.

Definition quantified (item : regex) (s : string) : regex * string :=
  match s with
  | String "?" r => (ROpt item, r)
  | _ => (item, s)
  end.

Definition close_alt (alts : option regex) (cur : regex) : regex :=
  match alts with
  | None => cur
  | Some a => RAlt a cur
  end.

(** Recursive-descent parser.  [cur] is the concatenation read so far in
    the current branch, [alts] the branches already closed by [|]. *)
Fixpoint parse (fuel : nat) (s : string) (cur : regex) (alts : option regex)
  : option (regex * string * stop) :=
  match fuel with
  | O => None
  | S f =>
      match s with
      | EmptyString => Some (close_alt alts cur, EmptyString, AtEnd)
      | String ")" r => Some (close_alt alts cur, r, AtClose)
      | String "|" r => parse f r REps (Some (close_alt alts cur))
      | String "(" r =>
          match parse f r REps None with
          | Some (g, r', AtClose) =>
              let '(item, r'') := quantified g r' in
              parse f r'' (RSeq cur item) alts
          | _ => None
          end
      | String "\" (String "b" r) => parse f r (RSeq cur RWordB) alts
      | String "\" _ => None
      | String "?" _ | String "*" _ | String "+" _ | String "." _
      | String "^" _ | String "$" _ | String "[" _ | String "]" _
      | String "{" _ | String "}" _ => None
      | String c r =>
          if Text.code c <? 0x80 then
            let '(item, r') := quantified (RChar c) r in
            parse f r' (RSeq cur item) alts
          else None
      end
  end.

(** [re.compile]: [None] stands for [re.error], and for a pattern outside
    the subset. *)
Definition compile (pattern : string) : option regex :=
  match parse (S (String.length pattern)) pattern REps None with
  | Some (r, _, AtEnd) => Some r
  | _ => None
  end.

(** A position in the subject: the character before it and the rest, as
    code points. *)
Definition pos : Type := (option Z * list Z)%type.

Definition word_before (p : pos) : bool :=
  match fst p with Some c => Text.is_word c | None => false end.

Definition word_after (p : pos) : bool :=
  match snd p with c :: _ => Text.is_word c | [] => false end.

Definition at_boundary (p : pos) : bool := xorb (word_before p) (word_after p).

(** The characters a lower-case letter matches under [re.IGNORECASE]
    besides those that lower-case to it ([re._casefix._EXTRA_CASES], for
    the ASCII letters): dotless i for [i], long s for [s]. *)
Definition extra_cases (lo : Z) : list Z :=
  if lo =? 0x69 then [0x131] else if lo =? 0x73 then [0x17F] else [].

(** The literal [a] of the pattern against the character [b] of the
    subject.  Under [re.IGNORECASE] a letter matches the characters
    whose simple lower case is its own or one of its extra cases. *)
Definition char_eq (ic : bool) (a : ascii) (b : Z) : bool :=
  let p := Text.code a in
  if ic && (Text.is_upper p || Text.is_lower p)
  then
    let lo := Text.lower_point p in
    let c := Text.lower_point b in
    (c =? lo) || existsb (Z.eqb c) (extra_cases lo)
  else b =? p.

(** All positions at which a match of [r] that starts at [p] can end
    (the backtracking matcher explores exactly these). *)
Fixpoint ends (ic : bool) (r : regex) (p : pos) : list pos :=
  match r with
  | REps => [p]
  | RChar c =>
      match snd p with
      | d :: rest => if char_eq ic c d then [(Some d, rest)] else []
      | [] => []
      end
  | RWordB => if at_boundary p then [p] else []
  | RSeq r1 r2 => flat_map (ends ic r2) (ends ic r1 p)
  | RAlt r1 r2 => ends ic r1 p ++ ends ic r2 p
  | ROpt r1 => ends ic r1 p ++ [p]
  end.

Definition matches_at (ic : bool) (r : regex) (p : pos) : bool :=
  match ends ic r p with [] => false | _ => true end.

(** Scan of the start positions, left to right. *)
Fixpoint scan (ic : bool) (r : regex) (prev : option Z) (s : list Z) : bool :=
  matches_at ic r (prev, s) ||
  match s with
  | [] => false
  | c :: rest => scan ic r (Some c) rest
  end.

(** [re.search(pattern, text, flags)] as a truth value; [None] is
    [re.error]. *)
Definition search (pattern text : string) (ignorecase : bool) : option bool :=
  match compile pattern with
  | Some r => Some (scan ignorecase r None (Text.decode text))
  | None => None
  end.

End Re.

(* ================================================================== *)
(** ** Configuration from environment variables *)
(* ================================================================== *)

Record Config : Type := mkConfig {
  COMFYUI_URL : string;
  API_KEY : string;
  OUTPUT_DIR : string;
  DEFAULT_STEPS : Z;
  DEFAULT_CFG : Q;
  DEFAULT_WIDTH : Z;
  DEFAULT_HEIGHT : Z;
  MODEL_NAME : string;
  ENABLE_SAFETY : bool
}.

(** The values taken when no environment variable is set. *)
Definition default_config : Config := {|
  COMFYUI_URL := "http://127.0.0.1:8188";
  API_KEY := "";
  OUTPUT_DIR := "/workspace/ComfyUI/output";
  DEFAULT_STEPS := 32;
  DEFAULT_CFG := 6 # 1;
  DEFAULT_WIDTH := 1024;
  DEFAULT_HEIGHT := 1024;
  MODEL_NAME := "juggernautXL_v9.safetensors";
  ENABLE_SAFETY := true
|}.

(* ================================================================== *)
(** ** Global negative prompt and blocked patterns *)
(* ================================================================== *)

Definition GLOBAL_NEGATIVE_PROMPT : string :=
  Text.LF ++
  "celebrity, famous person, actor, actress, influencer, model," ++ Text.LF ++
  "real person, known face, instagram face, tiktok face," ++ Text.LF ++
  "beauty filter, airbrushed skin, plastic skin," ++ Text.LF ++
  "anime, illustration, painting, cgi, 3d render," ++ Text.LF ++
  "teen, teenage, young-looking, childlike, youthful face," ++ Text.LF ++
  "school uniform, student, cosplay," ++ Text.LF ++
  "distorted face, extra fingers, deformed eyes" ++ Text.LF.

(** The dictionary literal, in insertion order (the order [items()]
    iterates in). *)
Definition BLOCKED_PATTERNS : list (string * string) := [
  ("celebrities", "\b(taylor swift|scarlett johansson|emma watson|jennifer lawrence|megan fox|kim kardashian|ariana grande|selena gomez|beyonce|rihanna|angelina jolie|margot robbie|gal gadot|zendaya|billie eilish)\b");
  ("professions", "\b(actress|actor|famous model|influencer|celebrity|famous person)\b");
  ("references", "\b(looks? like|resembles?|similar to|based on|inspired by)\b");
  ("age_down", "\b(younger|teen|teenage|underage|school|student|childlike|loli|shota)\b");
  ("uniforms", "\b(school uniform|cheerleader uniform|schoolgirl|college girl uniform)\b");
  ("face_swap", "\b(face swap|deepfake|my face|her face|his face|real photo of)\b");
  ("illegal", "\b(child|minor|kid|forced|non-?consensual|rape)\b")
].

(* ================================================================== *)
(** ** Prompt safety validation *)
(* ================================================================== *)

Definition rejection_message (category : string) : string :=
  "Prompt rejected: " ++ category ++ " content not allowed".

(** The loop of [validate_prompt] over [BLOCKED_PATTERNS.items()].  A
    pattern that does not compile would raise [re.error]; the outcome
    [None] stands for it. *)
Fixpoint validate_loop (items : list (string * string)) (prompt_lower : string)
  : option (bool * string) :=
  match items with
  | [] => Some (true, "")
  | (category, pattern) :: rest =>
      match Re.search pattern prompt_lower true with
      | None => None
      | Some true => Some (false, rejection_message category)
      | Some false => validate_loop rest prompt_lower
      end
  end.

Definition validate_prompt (cfg : Config) (prompt : string) : option (bool * string) :=
  if negb (ENABLE_SAFETY cfg) then Some (true, "")
  else
    let prompt_lower := Text.lower prompt in
    validate_loop BLOCKED_PATTERNS prompt_lower.

Definition build_safe_prompt (prompt negative_prompt : string) : string * string :=
  let safe_prompt := Text.strip prompt in
  let combined_negative := Text.strip GLOBAL_NEGATIVE_PROMPT in
  let combined_negative :=
    if Text.truthy negative_prompt
    then negative_prompt ++ ", " ++ combined_negative
    else combined_negative in
  (safe_prompt, Text.strip combined_negative).

(* ================================================================== *)
(** ** JSON values and the Python operations applied to them *)
(* ================================================================== *)

(** What [json.loads] yields and [json.dumps] accepts.  A dictionary is the
    list of its items in insertion order. *)
Inductive json : Type :=
| JNull
| JBool (b : bool)
| JInt (n : Z)
| JFloat (q : Q)
| JStr (s : string)
| JArr (l : list json)
| JObj (m : list (string * json)).

(** Exceptions.  [HTTPException] is FastAPI's; every other exception class
    (httpx transport errors, [KeyError], [TypeError], [OSError], ...) is an
    [OtherException] carrying its class name and [str(e)]. *)
Inductive exn : Type :=
| HTTPException (status_code : Z) (detail : string)
| OtherException (cls : string) (msg : string).

(** [str(e)]; for [HTTPException] this is Starlette's [__str__]. *)
Definition exn_str (e : exn) : string :=
  match e with
  | HTTPException status detail => Text.of_Z status ++ ": " ++ detail
  | OtherException _ msg => msg
  end.

Definition is_http_exception (e : exn) : bool :=
  match e with HTTPException _ _ => true | OtherException _ _ => false end.

Inductive result (A : Type) : Type :=
| Ok (a : A)
| Raise (e : exn).
Arguments Ok {A} a.
Arguments Raise {A} e.

Module Py.

Fixpoint assoc {A : Type} (k : string) (m : list (string * A)) : option A :=
  match m with
  | [] => None
  | (k', v) :: rest => if String.eqb k k' then Some v else assoc k rest
  end.

Definition opt_str (o : option string) : json :=
  match o with Some s => JStr s | None => JNull end.

Definition opt_int (o : option Z) : json :=
  match o with Some n => JInt n | None => JNull end.

(** Numeric value of [bool], [int] and [float] objects. *)
Definition number (j : json) : option Q :=
  match j with
  | JBool b => Some (if b then 1 # 1 else 0 # 1)%Q
  | JInt n => Some (n # 1)%Q
  | JFloat q => Some q
  | _ => None
  end.

(** [a == b] *)
Fixpoint eq (a b : json) {struct a} : bool :=
  match a, b with
  | JNull, JNull => true
  | JStr s, JStr t => String.eqb s t
  | JArr l1, JArr l2 =>
      (fix all2 (l1 l2 : list json) {struct l1} : bool :=
         match l1, l2 with
         | [], [] => true
         | x :: xs, y :: ys => eq x y && all2 xs ys
         | _, _ => false
         end) l1 l2
  | JObj m1, JObj m2 =>
      Nat.eqb (List.length m1) (List.length m2) &&
      (fix sub (m : list (string * json)) {struct m} : bool :=
         match m with
         | [] => true
         | (k, v) :: rest =>
             match assoc k m2 with
             | Some v' => eq v v'
             | None => false
             end && sub rest
         end) m1
  | _, _ =>
      match number a, number b with
      | Some x, Some y => Qeq_bool x y
      | _, _ => false
      end
  end.

Definition type_error {A : Type} (msg : string) : result A :=
  Raise (OtherException "TypeError" msg).

Definition attribute_error {A : Type} (msg : string) : result A :=
  Raise (OtherException "AttributeError" msg).

(** [k in c] *)
Definition contains (k c : json) : result bool :=
  match c with
  | JObj m =>
      match k with
      | JStr s => Ok (match assoc s m with Some _ => true | None => false end)
      | JArr _ | JObj _ => type_error "unhashable type"
      | _ => Ok false
      end
  | JArr l => Ok (existsb (eq k) l)
  | JStr t =>
      match k with
      | JStr s => Ok (Text.contains t s)
      | _ => type_error "'in <string>' requires string as left operand"
      end
  | _ => type_error "argument is not iterable"
  end.

(** Element [i] of a list, negative indices counting from the end. *)
Definition list_index (l : list json) (i : Z) : result json :=
  let n := Z.of_nat (List.length l) in
  let i' := if i <? 0 then i + n else i in
  if (0 <=? i') && (i' <? n)
  then match nth_error l (Z.to_nat i') with
       | Some v => Ok v
       | None => Raise (OtherException "IndexError" "list index out of range")
       end
  else Raise (OtherException "IndexError" "list index out of range").

Definition one_char (l : list Z) (i : Z) : result json :=
  let n := Z.of_nat (List.length l) in
  let i' := if i <? 0 then i + n else i in
  if (0 <=? i') && (i' <? n)
  then match nth_error l (Z.to_nat i') with
       | Some c => Ok (JStr (Text.encode_point c))
       | None => Raise (OtherException "IndexError" "string index out of range")
       end
  else Raise (OtherException "IndexError" "string index out of range").

Definition key_error {A : Type} (k : json) : result A :=
  match k with
  | JStr s => Raise (OtherException "KeyError" ("'" ++ s ++ "'"))
  | _ => Raise (OtherException "KeyError" "key")
  end.

(** [c[k]] *)
Definition getitem (c k : json) : result json :=
  match c with
  | JObj m =>
      match k with
      | JStr s => match assoc s m with Some v => Ok v | None => key_error k end
      | JArr _ | JObj _ => type_error "unhashable type"
      | _ => key_error k
      end
  | JArr l =>
      match k with
      | JInt i => list_index l i
      | JBool b => list_index l (if b then 1 else 0)
      | _ => type_error "list indices must be integers or slices"
      end
  | JStr t =>
      match k with
      | JInt i => one_char (Text.decode t) i
      | JBool b => one_char (Text.decode t) (if b then 1 else 0)
      | _ => type_error "string indices must be integers"
      end
  | _ => type_error "object is not subscriptable"
  end.

(** [c.get(key, default)] with a string key; only dictionaries have the
    method. *)
Definition get (c : json) (key : string) (default : json) : result json :=
  match c with
  | JObj m => Ok (match assoc key m with Some v => v | None => default end)
  | _ => attribute_error "object has no attribute 'get'"
  end.

(** [c.items()] *)
Definition items (c : json) : result (list (string * json)) :=
  match c with
  | JObj m => Ok m
  | _ => attribute_error "object has no attribute 'items'"
  end.

(** The elements a [for] loop over [c] visits. *)
Definition iter (c : json) : result (list json) :=
  match c with
  | JArr l => Ok l
  | JObj m => Ok (map (fun kv => JStr (fst kv)) m)
  | JStr t => Ok (map (fun c => JStr (Text.encode_point c)) (Text.decode t))
  | _ => type_error "object is not iterable"
  end.

(** Truth value of an optional integer: [None] and [0] are false. *)
Definition truthy_int (o : option Z) : bool :=
  match o with Some n => negb (n =? 0) | None => false end.

(** Truth value of an optional float: [None] and zero are false. *)
Definition truthy_float (o : option Q) : bool :=
  match o with Some q => negb (Qnum q =? 0) | None => false end.

(** [o or default] *)
Definition or_int (o : option Z) (default : Z) : Z :=
  match o with
  | Some n => if n =? 0 then default else n
  | None => default
  end.

Definition or_float (o : option Q) (default : Q) : Q :=
  match o with
  | Some q => if Qnum q =? 0 then default else q
  | None => default
  end.

Definition or_str (o : option string) (default : string) : string :=
  match o with
  | Some s => if Text.truthy s then s else default
  | None => default
  end.

End Py.

(* ================================================================== *)
(** ** Request and response models *)
(* ================================================================== *)

Record GenerateRequest : Type := mkGenerateRequest {
  prompt : string;
  negative_prompt : option string;
  seed : option Z;
  steps : option Z;
  cfg_scale : option Q;
  width : option Z;
  height : option Z;
  face_reference : option string;
  face_weight : option Q;
  persona_id : option string;
  user_id : option string
}.

(** [GenerateAsyncRequest] extends [GenerateRequest]. *)
Record GenerateAsyncRequest : Type := mkGenerateAsyncRequest {
  base : GenerateRequest;
  request_id : string;
  callback_url : string
}.

Record GenerateResponse : Type := mkGenerateResponse {
  success : bool;
  image_url : option string;
  image_hash : option string;
  seed_used : option Z;
  error : option string
}.

Record AsyncQueuedResponse : Type := mkAsyncQueuedResponse {
  status : string;
  queued_request_id : string;
  message : string
}.

(* ================================================================== *)
(** ** ComfyUI workflow builder *)
(* ================================================================== *)

(** A link [[node, slot]] to an output of another node. *)
Definition link (node : string) (slot : Z) : json := JArr [JStr node; JInt slot].

Definition build_comfyui_workflow
  (prompt negative_prompt : string) (seed steps : Z) (cfg : Q)
  (width height : Z) (model_name : string) : json :=
  JObj [
    ("3", JObj [
      ("class_type", JStr "KSampler");
      ("inputs", JObj [
        ("seed", JInt seed);
        ("steps", JInt steps);
        ("cfg", JFloat cfg);
        ("sampler_name", JStr "dpmpp_2m");
        ("scheduler", JStr "karras");
        ("denoise", JFloat (1 # 1));
        ("model", link "4" 0);
        ("positive", link "6" 0);
        ("negative", link "7" 0);
        ("latent_image", link "5" 0)
      ])
    ]);
    ("4", JObj [
      ("class_type", JStr "CheckpointLoaderSimple");
      ("inputs", JObj [
        ("ckpt_name", JStr model_name)
      ])
    ]);
    ("5", JObj [
      ("class_type", JStr "EmptyLatentImage");
      ("inputs", JObj [
        ("width", JInt width);
        ("height", JInt height);
        ("batch_size", JInt 1)
      ])
    ]);
    ("6", JObj [
      ("class_type", JStr "CLIPTextEncode");
      ("inputs", JObj [
        ("text", JStr prompt);
        ("clip", link "4" 1)
      ])
    ]);
    ("7", JObj [
      ("class_type", JStr "CLIPTextEncode");
      ("inputs", JObj [
        ("text", JStr negative_prompt);
        ("clip", link "4" 1)
      ])
    ]);
    ("8", JObj [
      ("class_type", JStr "VAEDecode");
      ("inputs", JObj [
        ("samples", link "3" 0);
        ("vae", link "4" 2)
      ])
    ]);
    ("9", JObj [
      ("class_type", JStr "SaveImage");
      ("inputs", JObj [
        ("filename_prefix", JStr "xinmate");
        ("images", link "8" 0)
      ])
    ])
  ].

(* ================================================================== *)
(** ** The world outside the process *)
(* ================================================================== *)

(** An [httpx] response, through the attributes the code reads.
    [json_body = None] means that [response.json()] raises. *)
Record Response : Type := mkResponse {
  status_code : Z;
  text : string;
  content : list Byte.byte;
  json_body : option json
}.

(** The HTTP requests the service sends. *)
Inductive call : Type :=
| PostPrompt (base_url : string) (workflow : json)
    (* POST {base_url}/prompt, json={"prompt": workflow} *)
| GetHistory (base_url : string) (prompt_id : json)
    (* GET {base_url}/history/{prompt_id} *)
| GetView (base_url : string) (filename subfolder : json)
    (* GET {base_url}/view, params filename, subfolder, type=output *)
| PostJson (url : string) (payload : json).
    (* POST url, json=payload *)

(** A request and its [timeout=] argument in seconds ([None]: the
    client's default). *)
Record request : Type := mkRequest {
  req_call : call;
  req_timeout : option Q
}.

Inductive http_outcome : Type :=
| Replied (r : Response)
| Failed (cls msg : string).   (* the client raised, e.g. ConnectError *)

Inductive level : Type := INFO | ERROR.

(** A log message; [Generated entry] is the line
    [f"Generated: {json.dumps(entry)}"]. *)
Inductive log_message : Type :=
| Line (s : string)
| Generated (audit_entry : json).

(** What the process does to the world, in order; a request is recorded
    with what came back. *)
Inductive event : Type :=
| EvHttp (rq : request) (outcome : http_outcome)
| EvSleep (seconds : Z)
| EvWrite (path : string) (data : list Byte.byte)
| EvLog (lvl : level) (m : log_message).

(** The environment answers every interaction; the index is the number
    of interactions made before it. *)
Record Env : Type := mkEnv {
  urandom16 : nat -> Z;                       (* os.urandom(16), as an integer *)
  http : nat -> request -> http_outcome * N;  (* outcome and duration in ms *)
  sleep_lag : nat -> N;                       (* lateness of a wake-up in ms *)
  fs_write : nat -> string -> option string;  (* [Some msg]: OSError *)
  utcnow : nat -> string                      (* datetime.utcnow().isoformat() *)
}.

Record World : Type := mkWorld {
  w_steps : nat;          (* interactions so far *)
  w_clock : Z;            (* event-loop time in ms *)
  w_trace : list event    (* most recent first *)
}.

Definition initial_world : World := {| w_steps := 0; w_clock := 0; w_trace := [] |}.

(** The events of a world in chronological order. *)
Definition history_of (w : World) : list event := rev (w_trace w).

(** Computations: they read the environment, change the world and return
    or raise.  [None] is reserved for a loop that ran out of fuel. *)
Definition M (A : Type) : Type := Env -> World -> option (result A * World).

Definition ret {A : Type} (a : A) : M A := fun _ w => Some (Ok a, w).

Definition raise {A : Type} (e : exn) : M A := fun _ w => Some (Raise e, w).

Definition bind {A B : Type} (m : M A) (k : A -> M B) : M B :=
  fun env w =>
    match m env w with
    | Some (Ok a, w') => k a env w'
    | Some (Raise e, w') => Some (Raise e, w')
    | None => None
    end.

(** [try: m except <classes selected by catches> as e: handler e] *)
Definition try_except {A : Type} (m : M A) (catches : exn -> bool) (handler : exn -> M A) : M A :=
  fun env w =>
    match m env w with
    | Some (Raise e, w') => if catches e then handler e env w' else Some (Raise e, w')
    | other => other
    end.

Definition lift {A : Type} (r : result A) : M A :=
  match r with Ok a => ret a | Raise e => raise e end.

Notation "x <- m ;; k" := (bind m (fun x => k))
  (at level 61, m at next level, right associativity).
Notation "m ;;; k" := (bind m (fun _ => k))
  (at level 61, right associativity).

Definition tick (w : World) (dt : Z) (evs : list event) : World :=
  {| w_steps := S (w_steps w); w_clock := w_clock w + dt; w_trace := evs ++ w_trace w |}.

(** [uuid.uuid4().int]: sixteen random bytes with the variant and version
    bits forced, as [uuid.UUID(bytes=..., version=4)] does. *)
Definition uuid4_of_random (r : Z) : Z :=
  let i := r mod 2 ^ 128 in
  let i := Z.land i (Z.lnot (Z.shiftl 0xc000 48)) in
  let i := Z.lor i (Z.shiftl 0x8000 48) in
  let i := Z.land i (Z.lnot (Z.shiftl 0xf000 64)) in
  Z.lor i (Z.shiftl 4 76).

Definition uuid4 : M Z :=
  fun env w => Some (Ok (uuid4_of_random (urandom16 env (w_steps w))), tick w 0 []).

(** [uuid.hex]: thirty-two hexadecimal digits. *)
Definition uuid_hex (u : Z) : string := Text.hex_digits 32 u.

(** [await client.get(...)] / [await client.post(...)] *)
Definition send (rq : request) : M Response :=
  fun env w =>
    let '(outcome, dt) := http env (w_steps w) rq in
    let w' := tick w (Z.of_N dt) [EvHttp rq outcome] in
    match outcome with
    | Replied r => Some (Ok r, w')
    | Failed cls msg => Some (Raise (OtherException cls msg), w')
    end.

(** [response.json()] *)
Definition response_json (r : Response) : M json :=
  match json_body r with
  | Some j => ret j
  | None => raise (OtherException "JSONDecodeError" "Expecting value")
  end.

(** [await asyncio.sleep(seconds)] *)
Definition sleep (seconds : Z) : M unit :=
  fun env w =>
    Some (Ok tt, tick w (1000 * seconds + Z.of_N (sleep_lag env (w_steps w))) [EvSleep seconds]).

(** [asyncio.get_event_loop().time()], in milliseconds *)
Definition loop_time : M Z := fun _ w => Some (Ok (w_clock w), w).

(** [with open(path, "wb") as f: f.write(data)] *)
Definition write_file (path : string) (data : list Byte.byte) : M unit :=
  fun env w =>
    match fs_write env (w_steps w) path with
    | Some msg => Some (Raise (OtherException "OSError" msg), tick w 0 [])
    | None => Some (Ok tt, tick w 0 [EvWrite path data])
    end.

Definition utc_now : M string :=
  fun env w => Some (Ok (utcnow env (w_steps w)), tick w 0 []).

Definition log (lvl : level) (m : log_message) : M unit :=
  fun _ w =>
    Some (Ok tt,
          {| w_steps := w_steps w; w_clock := w_clock w;
             w_trace := EvLog lvl m :: w_trace w |}).

(* ================================================================== *)
(** ** Authentication *)
(* ================================================================== *)

(** [creds] is the bearer token of the request, if any. *)
Definition verify_api_key (cfg : Config) (creds : option string) : M bool :=
  if negb (Text.truthy (API_KEY cfg)) then ret true
  else
    match creds with
    | Some token =>
        if negb (String.eqb token (API_KEY cfg))
        then raise (HTTPException 401 "Invalid or missing API key")
        else ret true
    | None => raise (HTTPException 401 "Invalid or missing API key")
    end.

(* ================================================================== *)
(** ** ComfyUI API client *)
(* ================================================================== *)

Definition queue_prompt (cfg : Config) (workflow : json) : M json :=
  response <- send {| req_call := PostPrompt (COMFYUI_URL cfg) workflow;
                      req_timeout := Some (30 # 1) |} ;;
  if negb (status_code response =? 200)
  then raise (HTTPException 500 ("ComfyUI error: " ++ text response))
  else
    body <- response_json response ;;
    lift (Py.getitem body (JStr "prompt_id")).

Definition timeout_error (timeout : Z) : exn :=
  HTTPException 504 ("Generation timeout after " ++ Text.of_Z timeout ++ "s").

(** One status query: [Some record] when the reply is a 200 whose JSON
    contains the id, [None] when the loop goes on. *)
Definition poll_once (cfg : Config) (prompt_id : json) : M (option json) :=
  response <- send {| req_call := GetHistory (COMFYUI_URL cfg) prompt_id;
                      req_timeout := None |} ;;
  if status_code response =? 200
  then
    history <- response_json response ;;
    present <- lift (Py.contains prompt_id history) ;;
    if (present : bool)
    then
      record <- lift (Py.getitem history prompt_id) ;;
      ret (Some record)
    else ret None
  else ret None.

(** The [while True] loop, [fuel] iterations of it. *)
Fixpoint wait_loop (fuel : nat) (cfg : Config) (prompt_id : json) (timeout start_time : Z)
  : M json :=
  match fuel with
  | O => fun _ _ => None
  | S fuel' =>
      now <- loop_time ;;
      let elapsed := now - start_time in
      if elapsed >? 1000 * timeout
      then raise (timeout_error timeout)
      else
        found <- poll_once cfg prompt_id ;;
        match found with
        | Some record => ret record
        | None =>
            sleep 1 ;;;
            wait_loop fuel' cfg prompt_id timeout start_time
        end
  end.

(** Every iteration that goes on sleeps one second, so [timeout + 2]
    iterations are never exceeded (lemma [wait_for_completion_run]). *)
Definition wait_fuel (timeout : Z) : nat := S (S (Z.to_nat timeout)).

Definition wait_for_completion (cfg : Config) (prompt_id : json) (timeout : Z) : M json :=
  start_time <- loop_time ;;
  wait_loop (wait_fuel timeout) cfg prompt_id timeout start_time.

Definition default_timeout : Z := 300.

(** The inner loop of [get_generated_image] over one node's images. *)
Fixpoint fetch_images (cfg : Config) (images : list json) : M (option (json * list Byte.byte)) :=
  match images with
  | [] => ret None
  | image_info :: rest =>
      filename <- lift (Py.getitem image_info (JStr "filename")) ;;
      subfolder <- lift (Py.get image_info "subfolder" (JStr "")) ;;
      response <- send {| req_call := GetView (COMFYUI_URL cfg) filename subfolder;
                          req_timeout := None |} ;;
      if status_code response =? 200
      then ret (Some (filename, content response))
      else fetch_images cfg rest
  end.

(** The outer loop over [outputs.items()]. *)
Fixpoint scan_outputs (cfg : Config) (items : list (string * json))
  : M (option (json * list Byte.byte)) :=
  match items with
  | [] => ret None
  | (node_id, node_output) :: rest =>
      has_images <- lift (Py.contains (JStr "images") node_output) ;;
      if (has_images : bool)
      then
        images <- lift (Py.getitem node_output (JStr "images")) ;;
        elements <- lift (Py.iter images) ;;
        found <- fetch_images cfg elements ;;
        match found with
        | Some r => ret (Some r)
        | None => scan_outputs cfg rest
        end
      else scan_outputs cfg rest
  end.

Definition get_generated_image (cfg : Config) (history : json) : M (json * list Byte.byte) :=
  outputs <- lift (Py.get history "outputs" (JObj [])) ;;
  items <- lift (Py.items outputs) ;;
  found <- scan_outputs cfg items ;;
  match found with
  | Some r => ret r
  | None => raise (HTTPException 500 "No image found in output")
  end.

(* ================================================================== *)
(** ** Image post-processing *)
(* ================================================================== *)

(** [s.encode()] for a metadata value; only strings have the method. *)
Definition encode (j : json) : result (list Byte.byte) :=
  match j with
  | JStr s => Ok (list_byte_of_string s)
  | _ => Py.attribute_error "object has no attribute 'encode'"
  end.

Definition meta_get (metadata : list (string * json)) (key : string) (default : json) : json :=
  match Py.assoc key metadata with Some v => v | None => default end.

Definition content_hash (data : list Byte.byte) : string :=
  Text.take 16 (SHA256.hexdigest data).

Definition save_and_hash_image (cfg : Config) (image_data : list Byte.byte)
  (metadata : list (string * json)) : M (string * string) :=
  let image_hash := content_hash image_data in
  u <- uuid4 ;;
  let filename := image_hash ++ "_" ++ Text.take 8 (uuid_hex u) ++ ".png" in
  let filepath := OUTPUT_DIR cfg ++ "/" ++ filename in
  write_file filepath image_data ;;;
  timestamp <- utc_now ;;
  prompt_bytes <- lift (encode (meta_get metadata "prompt" (JStr ""))) ;;
  let audit_entry := JObj [
    ("image_hash", JStr image_hash);
    ("filename", JStr filename);
    ("timestamp", JStr timestamp);
    ("persona_id", meta_get metadata "persona_id" JNull);
    ("user_id", meta_get metadata "user_id" JNull);
    ("seed", meta_get metadata "seed" JNull);
    ("prompt_hash", JStr (content_hash prompt_bytes))
  ] in
  log INFO (Generated audit_entry) ;;;
  ret (filename, image_hash).

(* ================================================================== *)
(** ** API endpoints *)
(* ================================================================== *)

(** [validate_prompt] inside a handler; [re.error] cannot occur for the
    patterns of [BLOCKED_PATTERNS] (lemma [validate_prompt_total]). *)
Definition check_prompt (cfg : Config) (text : string) : M (bool * string) :=
  match validate_prompt cfg text with
  | Some verdict => ret verdict
  | None => raise (OtherException "re.error" "bad pattern")
  end.

(** [req.seed if req.seed and req.seed > 0 else int(uuid.uuid4().int % (2**32))] *)
Definition resolve_seed (req : GenerateRequest) : M Z :=
  match seed req with
  | Some s =>
      if Py.truthy_int (Some s) && (s >? 0) then ret s
      else u <- uuid4 ;; ret (u mod 2 ^ 32)
  | None => u <- uuid4 ;; ret (u mod 2 ^ 32)
  end.

Definition request_metadata (req : GenerateRequest) (seed : Z) : list (string * json) := [
  ("prompt", JStr (prompt req));
  ("seed", JInt seed);
  ("persona_id", Py.opt_str (persona_id req));
  ("user_id", Py.opt_str (user_id req))
].

Definition failure_response (e : exn) : GenerateResponse := {|
  success := false;
  image_url := None;
  image_hash := None;
  seed_used := None;
  error := Some (exn_str e)
|}.

(** The statements both handlers run inside their [try]: build the
    workflow, queue it, wait, fetch the image, save and hash it. *)
Definition run_pipeline (cfg : Config) (req : GenerateRequest)
  (safe_prompt safe_negative : string) (seed steps : Z) (cfg_value : Q) (width height : Z)
  : M (string * string) :=
  let workflow :=
    build_comfyui_workflow safe_prompt safe_negative seed steps cfg_value
      width height (MODEL_NAME cfg) in
  prompt_id <- queue_prompt cfg workflow ;;
  history <- wait_for_completion cfg prompt_id default_timeout ;;
  fetched <- get_generated_image cfg history ;;
  let image_data := snd fetched in
  save_and_hash_image cfg image_data (request_metadata req seed).

Definition success_response (filename image_hash : string) (seed : Z) : GenerateResponse := {|
  success := true;
  image_url := Some ("/images/" ++ filename);
  image_hash := Some image_hash;
  seed_used := Some seed;
  error := None
|}.

(** The [try] block of [generate_image]. *)
Definition sync_attempt (cfg : Config) (req : GenerateRequest)
  (safe_prompt safe_negative : string) (seed steps : Z) (cfg_value : Q) (width height : Z)
  : M GenerateResponse :=
  saved <- run_pipeline cfg req safe_prompt safe_negative seed steps cfg_value width height ;;
  let '(filename, image_hash) := saved in
  ret (success_response filename image_hash seed).

(** The two [except] clauses of [generate_image]. *)
Definition sync_handler (e : exn) : M GenerateResponse :=
  match e with
  | HTTPException _ _ =>
      (* except HTTPException: raise *)
      raise e
  | OtherException _ _ =>
      (* except Exception as e *)
      log ERROR (Line ("Generation failed: " ++ exn_str e)) ;;;
      ret (failure_response e)
  end.

(** POST /generate *)
Definition generate_image (cfg : Config) (req : GenerateRequest) : M GenerateResponse :=
  verdict <- check_prompt cfg (prompt req) ;;
  let '(is_valid, error) := verdict in
  if negb is_valid then raise (HTTPException 400 error)
  else
    let '(safe_prompt, safe_negative) :=
      build_safe_prompt (prompt req) (Py.or_str (negative_prompt req) "") in
    seed <- resolve_seed req ;;
    let steps := Py.or_int (steps req) (DEFAULT_STEPS cfg) in
    let cfg_value := Py.or_float (cfg_scale req) (DEFAULT_CFG cfg) in
    let width := Py.or_int (width req) (DEFAULT_WIDTH cfg) in
    let height := Py.or_int (height req) (DEFAULT_HEIGHT cfg) in
    try_except
      (sync_attempt cfg req safe_prompt safe_negative seed steps cfg_value width height)
      (fun _ => true)
      sync_handler.

Definition callback_timeout : option Q := Some (10 # 1).

Definition callback_data (req : GenerateAsyncRequest) (filename image_hash : string) (seed : Z)
  : json :=
  JObj [
    ("request_id", JStr (request_id req));
    ("status", JStr "completed");
    ("image_url", JStr ("/images/" ++ filename));
    ("image_hash", JStr image_hash);
    ("seed_used", JInt seed);
    ("user_id", Py.opt_str (user_id (base req)));
    ("persona_id", Py.opt_str (persona_id (base req)))
  ].

Definition error_data (req : GenerateAsyncRequest) (e : exn) : json :=
  JObj [
    ("request_id", JStr (request_id req));
    ("status", JStr "failed");
    ("error", JStr (exn_str e));
    ("user_id", Py.opt_str (user_id (base req)))
  ].

Definition callback (req : GenerateAsyncRequest) (payload : json) : request :=
  {| req_call := PostJson (callback_url req) payload; req_timeout := callback_timeout |}.

(** The [try] block of [process_async_generation] up to the callback:
    it yields the stored filename, the image hash and the seed. *)
Definition async_pipeline (cfg : Config) (req : GenerateAsyncRequest) : M (string * string * Z) :=
  let r := base req in
  let '(safe_prompt, safe_negative) :=
    build_safe_prompt (prompt r) (Py.or_str (negative_prompt r) "") in
  seed <- resolve_seed r ;;
  let steps := Py.or_int (steps r) (DEFAULT_STEPS cfg) in
  let cfg_value := Py.or_float (cfg_scale r) (DEFAULT_CFG cfg) in
  let width := Py.or_int (width r) (DEFAULT_WIDTH cfg) in
  let height := Py.or_int (height r) (DEFAULT_HEIGHT cfg) in
  saved <- run_pipeline cfg r safe_prompt safe_negative seed steps cfg_value width height ;;
  ret (saved, seed).

(** The success callback and the log line after it, still inside the
    [try] block. *)
Definition send_success (req : GenerateAsyncRequest) (done : string * string * Z) : M unit :=
  let '(filename, image_hash, seed) := done in
  send (callback req (callback_data req filename image_hash seed)) ;;;
  log INFO (Line ("Callback sent for " ++ request_id req)).

(** The [except Exception as e] block. *)
Definition async_handler (req : GenerateAsyncRequest) (e : exn) : M unit :=
  log ERROR (Line ("Async generation failed for " ++ request_id req ++ ": " ++ exn_str e)) ;;;
  try_except
    (send (callback req (error_data req e)) ;;; ret tt)
    (fun _ => true)
    (fun _ => ret tt).

(** Background task of the asynchronous endpoint. *)
Definition process_async_generation (cfg : Config) (req : GenerateAsyncRequest) : M unit :=
  try_except
    (done <- async_pipeline cfg req ;; send_success req done)
    (fun _ => true)
    (async_handler req).

(** POST /generate-async: the response, and the task handed to
    [background_tasks.add_task]. *)
Definition generate_image_async (cfg : Config) (req : GenerateAsyncRequest)
  : M (AsyncQueuedResponse * list GenerateAsyncRequest) :=
  verdict <- check_prompt cfg (prompt (base req)) ;;
  let '(is_valid, error) := verdict in
  if negb is_valid then raise (HTTPException 400 error)
  else
    ret ({| status := "queued";
            queued_request_id := request_id req;
            message := "Image generation started in background" |},
         [req]).

(** The framework runs the background tasks once the response is out. *)
Fixpoint run_background_tasks (cfg : Config) (tasks : list GenerateAsyncRequest) : M unit :=
  match tasks with
  | [] => ret tt
  | t :: rest => process_async_generation cfg t ;;; run_background_tasks cfg rest
  end.

Definition serve_generate_async (cfg : Config) (req : GenerateAsyncRequest)
  : M AsyncQueuedResponse :=
  answer <- generate_image_async cfg req ;;
  run_background_tasks cfg (snd answer) ;;;
  ret (fst answer).

(* ================================================================== *)
(** ** Scenarios: concrete engines and requests *)
(* ================================================================== *)

Module Scenario.

Definition reply (code : Z) (body : option json) (bytes : string) : http_outcome :=
  Replied {| status_code := code; text := bytes;
             content := list_byte_of_string bytes; json_body := body |}.

Definition finished_record : json :=
  JObj [("outputs",
         JObj [("9", JObj [("images",
           JArr [JObj [("filename", JStr "xinmate_00001_.png");
                       ("subfolder", JStr "");
                       ("type", JStr "output")]])])])].

(** An engine that accepts the job as "abc", reports it finished from
    the [ready]-th interaction on and serves the image; the callback
    receiver answers 200. *)
Definition engine_http (ready : nat) (n : nat) (rq : request) : http_outcome * N :=
  match req_call rq with
  | PostPrompt _ _ => (reply 200 (Some (JObj [("prompt_id", JStr "abc")])) "", 20%N)
  | GetHistory _ _ =>
      if (ready <=? n)%nat
      then (reply 200 (Some (JObj [("abc", finished_record)])) "", 5%N)
      else (reply 200 (Some (JObj [])) "", 5%N)
  | GetView _ _ _ => (reply 200 None "PNGDATA", 30%N)
  | PostJson _ _ => (reply 200 None "ok", 10%N)
  end.

Definition base_env (h : nat -> request -> http_outcome * N) : Env := {|
  urandom16 := fun n => 0x0123456789abcdef0123456789abcdef + Z.of_nat n;
  http := h;
  sleep_lag := fun _ => 0%N;
  fs_write := fun _ _ => None;
  utcnow := fun _ => "2024-01-01T00:00:00"
|}.

Definition good_env : Env := base_env (engine_http 4).

(** An engine that refuses every job. *)
Definition refusing_http (n : nat) (rq : request) : http_outcome * N :=
  match req_call rq with
  | PostPrompt _ _ => (reply 400 None "invalid prompt", 20%N)
  | _ => engine_http 0 n rq
  end.

Definition refusing_env : Env := base_env refusing_http.

(** An engine that reports the job finished, without any output. *)
Definition blank_http (n : nat) (rq : request) : http_outcome * N :=
  match req_call rq with
  | GetHistory _ _ =>
      (reply 200 (Some (JObj [("abc", JObj [("outputs", JObj [])])])) "", 5%N)
  | _ => engine_http 0 n rq
  end.

Definition blank_env : Env := base_env blank_http.

(** An engine that cannot be reached at all. *)
Definition dead_http (n : nat) (rq : request) : http_outcome * N :=
  match req_call rq with
  | PostJson _ _ => engine_http 0 n rq
  | _ => (Failed "ConnectError" "All connection attempts failed", 3%N)
  end.

Definition dead_env : Env := base_env dead_http.

(** A callback receiver that cannot be reached, behind an engine that
    refuses every job, respectively behind a working engine. *)
Definition deaf_receiver (engine : nat -> request -> http_outcome * N)
  (n : nat) (rq : request) : http_outcome * N :=
  match req_call rq with
  | PostJson _ _ => (Failed "ConnectError" "All connection attempts failed", 3%N)
  | _ => engine n rq
  end.

Definition refusing_deaf_env : Env := base_env (deaf_receiver refusing_http).

Definition working_deaf_env : Env := base_env (deaf_receiver (engine_http 0)).

(** The same engine, unreachable for status queries. *)
Definition down_http (n : nat) (rq : request) : http_outcome * N :=
  match req_call rq with
  | GetHistory _ _ => (Failed "ConnectError" "All connection attempts failed", 3%N)
  | _ => engine_http 0 n rq
  end.

Definition down_env : Env := base_env down_http.

Definition landscape : GenerateRequest := {|
  prompt := "a mountain landscape at sunset";
  negative_prompt := Some "";
  seed := None;
  steps := None;
  cfg_scale := None;
  width := None;
  height := None;
  face_reference := None;
  face_weight := Some (7 # 10);
  persona_id := None;
  user_id := None
|}.

(** Variations of a request in one field. *)
Definition with_persona (req : GenerateRequest) (persona : option string) : GenerateRequest := {|
  prompt := prompt req;
  negative_prompt := negative_prompt req;
  seed := seed req;
  steps := steps req;
  cfg_scale := cfg_scale req;
  width := width req;
  height := height req;
  face_reference := face_reference req;
  face_weight := face_weight req;
  persona_id := persona;
  user_id := user_id req
|}.

Definition with_negative (req : GenerateRequest) (negative : option string) : GenerateRequest := {|
  prompt := prompt req;
  negative_prompt := negative;
  seed := seed req;
  steps := steps req;
  cfg_scale := cfg_scale req;
  width := width req;
  height := height req;
  face_reference := face_reference req;
  face_weight := face_weight req;
  persona_id := persona_id req;
  user_id := user_id req
|}.

Definition with_steps (req : GenerateRequest) (n : option Z) : GenerateRequest := {|
  prompt := prompt req;
  negative_prompt := negative_prompt req;
  seed := seed req;
  steps := n;
  cfg_scale := cfg_scale req;
  width := width req;
  height := height req;
  face_reference := face_reference req;
  face_weight := face_weight req;
  persona_id := persona_id req;
  user_id := user_id req
|}.

Definition with_seed (req : GenerateRequest) (s : option Z) : GenerateRequest := {|
  prompt := prompt req;
  negative_prompt := negative_prompt req;
  seed := s;
  steps := steps req;
  cfg_scale := cfg_scale req;
  width := width req;
  height := height req;
  face_reference := face_reference req;
  face_weight := face_weight req;
  persona_id := persona_id req;
  user_id := user_id req
|}.

Definition async_landscape : GenerateAsyncRequest := {|
  base := landscape;
  request_id := "abc123";
  callback_url := "http://client.example/hook"
|}.

End Scenario.
(* ================================================================== *)
(** ** Vocabulary of the properties *)
(* ================================================================== *)

(** *** Lower-casing and the case-insensitive search *)

(** [text] contains a match of [pattern], letter case ignored. *)
Definition matches_ci (pattern text : string) : Prop :=
  Re.search pattern text true = Some true.

Definition safety_off (cfg : Config) : Config := {|
  COMFYUI_URL := COMFYUI_URL cfg;
  API_KEY := API_KEY cfg;
  OUTPUT_DIR := OUTPUT_DIR cfg;
  DEFAULT_STEPS := DEFAULT_STEPS cfg;
  DEFAULT_CFG := DEFAULT_CFG cfg;
  DEFAULT_WIDTH := DEFAULT_WIDTH cfg;
  DEFAULT_HEIGHT := DEFAULT_HEIGHT cfg;
  MODEL_NAME := MODEL_NAME cfg;
  ENABLE_SAFETY := false
|}.

(** *** Trimming and the negative-prompt composer *)

(** The mandatory negative-term block: the terms of
    [GLOBAL_NEGATIVE_PROMPT], without the line breaks around them. *)
Definition mandatory_block : string :=
  "celebrity, famous person, actor, actress, influencer, model," ++ Text.LF ++
  "real person, known face, instagram face, tiktok face," ++ Text.LF ++
  "beauty filter, airbrushed skin, plastic skin," ++ Text.LF ++
  "anime, illustration, painting, cgi, 3d render," ++ Text.LF ++
  "teen, teenage, young-looking, childlike, youthful face," ++ Text.LF ++
  "school uniform, student, cosplay," ++ Text.LF ++
  "distorted face, extra fingers, deformed eyes".

(** *** The workflow builder *)

(** Reading a graph: its node ids, a node's class and a node's inputs. *)
Definition node_ids (g : json) : list string :=
  match g with JObj m => map fst m | _ => [] end.

Definition field (key : string) (j : json) : option json :=
  match j with JObj m => Py.assoc key m | _ => None end.

Definition node_of (g : json) (node : string) : option json := field node g.

Definition class_of (g : json) (node : string) : option json :=
  match node_of g node with Some n => field "class_type" n | None => None end.

Definition input_names (g : json) (node : string) : list string :=
  match node_of g node with
  | Some n => match field "inputs" n with Some (JObj m) => map fst m | _ => [] end
  | None => []
  end.

Definition input_of (g : json) (node key : string) : option json :=
  match node_of g node with
  | Some n => match field "inputs" n with Some i => field key i | None => None end
  | None => None
  end.

(** The edges of a graph: the inputs that are links [[node, slot]]. *)
Definition is_link (j : json) : bool :=
  match j with JArr [JStr _; JInt _] => true | _ => false end.

Definition links_of_node (node : string * json) : list (string * string * json) :=
  match field "inputs" (snd node) with
  | Some (JObj m) =>
      map (fun kv => (fst node, fst kv, snd kv)) (filter (fun kv => is_link (snd kv)) m)
  | _ => []
  end.

Definition wiring (g : json) : list (string * string * json) :=
  match g with JObj m => flat_map links_of_node m | _ => [] end.

(** Replacing the value stored under one key of a dictionary. *)
Fixpoint assoc_update (key : string) (f : json -> json) (m : list (string * json))
  : list (string * json) :=
  match m with
  | [] => []
  | (k, v) :: rest =>
      if String.eqb key k then (k, f v) :: rest
      else (k, v) :: assoc_update key f rest
  end.

Definition update_at (key : string) (f : json -> json) (j : json) : json :=
  match j with JObj m => JObj (assoc_update key f m) | _ => j end.

(** The graph [g] with the input [key] of [node] set to [v], and nothing
    else touched. *)
Definition set_input (node key : string) (v : json) (g : json) : json :=
  update_at node (update_at "inputs" (update_at key (fun _ => v))) g.

(** *** Computations: totality and what they add to the trace *)

(** [m] always returns or raises, only adds events that satisfy [P] and
    never turns the clock back. *)
Definition emits {A : Type} (P : event -> Prop) (m : M A) : Prop :=
  forall env w, exists r w' added,
    m env w = Some (r, w')
    /\ w_trace w' = (added ++ w_trace w)%list
    /\ Forall P added
    /\ w_clock w <= w_clock w'.

(** *** The poll loop *)

(** The status query for a job id. *)
Definition history_query (cfg : Config) (prompt_id : json) : request :=
  {| req_call := GetHistory (COMFYUI_URL cfg) prompt_id; req_timeout := None |}.

(** What a status query can come back with.  The reply reports the job:
    status 200 and a body that contains the id. *)
Definition reports_present (prompt_id : json) (o : http_outcome) (record : json) : Prop :=
  exists r h,
    o = Replied r /\ status_code r = 200 /\ json_body r = Some h
    /\ Py.contains prompt_id h = Ok true /\ Py.getitem h prompt_id = Ok record.

(** The reply does not report the job: another status, or a 200 whose
    body does not contain the id. *)
Definition still_pending (prompt_id : json) (o : http_outcome) : Prop :=
  exists r,
    o = Replied r
    /\ (status_code r <> 200
        \/ exists h, json_body r = Some h /\ Py.contains prompt_id h = Ok false).

(** The query raised: no reply at all, a 200 whose body is not JSON, or a
    JSON body on which the membership test or the lookup raises. *)
Definition query_raises (prompt_id : json) (o : http_outcome) (e : exn) : Prop :=
  (exists cls msg, o = Failed cls msg /\ e = OtherException cls msg)
  \/ (exists r,
        o = Replied r /\ status_code r = 200
        /\ ((json_body r = None /\ e = OtherException "JSONDecodeError" "Expecting value")
            \/ (exists h, json_body r = Some h
                  /\ (Py.contains prompt_id h = Raise e
                      \/ (Py.contains prompt_id h = Ok true
                          /\ Py.getitem h prompt_id = Raise e))))).

(** The runs of the poll loop as a state machine over its trace: every
    pending query is followed by a sleep of one second; a query that
    reports the job, or raises, ends the run; so does the deadline. *)
Inductive poll_run (q : request) (prompt_id : json) (timeout : Z)
  : list event -> result json -> Prop :=
| run_completed o record :
    reports_present prompt_id o record ->
    poll_run q prompt_id timeout [EvHttp q o] (Ok record)
| run_failed o e :
    query_raises prompt_id o e ->
    poll_run q prompt_id timeout [EvHttp q o] (Raise e)
| run_timed_out :
    poll_run q prompt_id timeout [] (Raise (timeout_error timeout))
| run_polling o rest r :
    still_pending prompt_id o ->
    poll_run q prompt_id timeout rest r ->
    poll_run q prompt_id timeout (EvHttp q o :: EvSleep 1 :: rest) r.

(** *** The pipeline always ends, and talks only to the engine *)

(** Events other than a POST to a callback URL. *)
Definition engine_side (e : event) : Prop :=
  match e with
  | EvHttp rq _ => match req_call rq with PostJson _ _ => False | _ => True end
  | _ => True
  end.

(** *** The exceptions of the pipeline *)

(** [m] raises only exceptions that satisfy [Q]. *)
Definition throws {A : Type} (Q : exn -> Prop) (m : M A) : Prop :=
  forall env w e w', m env w = Some (Raise e, w') -> Q e.

(** The exceptions that leave the pipeline: HTTP 500, HTTP 504, and
    anything that is not an [HTTPException]. *)
Definition pipeline_error (e : exn) : Prop :=
  match e with
  | HTTPException s _ => s = 500 \/ s = 504
  | OtherException _ _ => True
  end.

(** *** The synchronous endpoint *)

(** The request that submits a workflow. *)
Definition submit_request (cfg : Config) (workflow : json) : request :=
  {| req_call := PostPrompt (COMFYUI_URL cfg) workflow; req_timeout := Some (30 # 1) |}.

(** The workflow the handlers build for a request, given the seed. *)
Definition effective_workflow (cfg : Config) (req : GenerateRequest) (seed : Z) : json :=
  let safe := build_safe_prompt (prompt req) (Py.or_str (negative_prompt req) "") in
  build_comfyui_workflow (fst safe) (snd safe) seed
    (Py.or_int (steps req) (DEFAULT_STEPS cfg))
    (Py.or_float (cfg_scale req) (DEFAULT_CFG cfg))
    (Py.or_int (width req) (DEFAULT_WIDTH cfg))
    (Py.or_int (height req) (DEFAULT_HEIGHT cfg))
    (MODEL_NAME cfg).

(** The [try] block of [generate_image] for a request, given the seed. *)
Definition attempt (cfg : Config) (req : GenerateRequest) (seed : Z) : M GenerateResponse :=
  let safe := build_safe_prompt (prompt req) (Py.or_str (negative_prompt req) "") in
  sync_attempt cfg req (fst safe) (snd safe) seed
    (Py.or_int (steps req) (DEFAULT_STEPS cfg))
    (Py.or_float (cfg_scale req) (DEFAULT_CFG cfg))
    (Py.or_int (width req) (DEFAULT_WIDTH cfg))
    (Py.or_int (height req) (DEFAULT_HEIGHT cfg)).

(** The world after one more log record. *)
Definition logged (lvl : level) (m : log_message) (w : World) : World :=
  {| w_steps := w_steps w; w_clock := w_clock w; w_trace := EvLog lvl m :: w_trace w |}.

(** The in-band failure carrying a message. *)
Definition in_band_failure (msg : string) : GenerateResponse :=
  {| success := false; image_url := None; image_hash := None; seed_used := None;
     error := Some msg |}.

(** A finished record none of whose output nodes carries images. *)
Definition no_images (record : json) : Prop :=
  exists items,
    Py.get record "outputs" (JObj []) = Ok (JObj items)
    /\ Forall (fun kv => Py.contains (JStr "images") (snd kv) = Ok false) items.

(** *** The asynchronous endpoint and its callback *)

(** The requests POSTed to a callback URL, among the events of a trace. *)
Definition posts (tr : list event) : list request :=
  flat_map (fun e =>
              match e with
              | EvHttp rq _ => match req_call rq with PostJson _ _ => [rq] | _ => [] end
              | _ => []
              end) tr.

(** The world after an HTTP exchange. *)
Definition exchanged (env : Env) (rq : request) (w : World) : World :=
  tick w (Z.of_N (snd (http env (w_steps w) rq))) [EvHttp rq (fst (http env (w_steps w) rq))].

(** *** Result persistence and the audit record *)

(** The random part of a stored filename: the first eight hexadecimal
    digits of the UUID drawn at world [w]. *)
Definition random_suffix (env : Env) (w : World) : string :=
  Text.take 8 (uuid_hex (uuid4_of_random (urandom16 env (w_steps w)))).

Definition stored_name (data : list Byte.byte) (suffix : string) : string :=
  content_hash data ++ "_" ++ suffix ++ ".png".

(** The audit record of [save_and_hash_image], field by field. *)
Definition audit_record (image_hash filename timestamp : string)
  (persona user seed : json) (prompt_hash : string) : json :=
  JObj [
    ("image_hash", JStr image_hash);
    ("filename", JStr filename);
    ("timestamp", JStr timestamp);
    ("persona_id", persona);
    ("user_id", user);
    ("seed", seed);
    ("prompt_hash", JStr prompt_hash)
  ].

(** The digest of a prompt as the audit record holds it. *)
Definition prompt_digest (text : string) : string :=
  content_hash (list_byte_of_string text).

(** The world after the file is written and the clock read. *)
Definition stored (cfg : Config) (data : list Byte.byte) (filename : string) (w : World)
  : World :=
  tick (tick (tick w 0 []) 0 [EvWrite (OUTPUT_DIR cfg ++ "/" ++ filename) data]) 0 [].

(** *** What a run of the pipeline leaves in the trace *)

(** After the submission: wait, fetch, save. *)
Definition after_submit (cfg : Config) (req : GenerateRequest) (seed : Z) (prompt_id : json)
  : M (string * string) :=
  history <- wait_for_completion cfg prompt_id default_timeout ;;
  fetched <- get_generated_image cfg history ;;
  save_and_hash_image cfg (snd fetched) (request_metadata req seed).

(** *** The safety verdict of the endpoints *)

(** The rejection an endpoint answers with: the detail of its HTTP 400,
    if that is how it ended. *)
Definition rejection_of {A : Type} (outcome : option (result A * World)) : option string :=
  match outcome with
  | Some (Raise (HTTPException status detail), _) =>
      if status =? 400 then Some detail else None
  | _ => None
  end.

(** The rejection the filter decides for a prompt. *)
Definition filter_rejection (cfg : Config) (text : string) : option string :=
  match validate_prompt cfg text with
  | Some (false, m) => Some m
  | _ => None
  end.

(* ================================================================== *)
(** ** Further vocabulary: text around a match *)
(* ================================================================== *)

(** The character before a position is a word character. *)
Definition word_opt (prev : option Z) : bool :=
  match prev with Some c => Text.is_word c | None => false end.

(** The last character of [l], or [prev] when [l] is empty. *)
Fixpoint last_char (prev : option Z) (l : list Z) : option Z :=
  match l with
  | [] => prev
  | c :: r => last_char (Some c) r
  end.

Definition first_char (l : list Z) : option Z :=
  match l with [] => None | c :: _ => Some c end.

(** [s] is empty or ends with a character outside [\w]. *)
Definition ends_outside_word (s : string) : Prop :=
  word_opt (last_char None (Text.decode s)) = false.

(** [s] is empty or starts with a character outside [\w]. *)
Definition starts_outside_word (s : string) : Prop :=
  word_opt (first_char (Text.decode s)) = false.

(** Two positions with the same text ahead and the same kind of character
    behind. *)
Definition same_side (p q : Re.pos) : Prop :=
  word_opt (fst p) = word_opt (fst q) /\ snd p = snd q.

(* ================================================================== *)
(** ** Further vocabulary: fetching the generated image *)
(* ================================================================== *)

(** The request for one image of a finished record. *)
Definition view_request (cfg : Config) (filename subfolder : json) : request :=
  {| req_call := GetView (COMFYUI_URL cfg) filename subfolder; req_timeout := None |}.

(** A fetch the engine answered with a status other than 200. *)
Definition refused_view (cfg : Config) (e : event) : Prop :=
  exists filename subfolder reply,
    e = EvHttp (view_request cfg filename subfolder) (Replied reply)
    /\ status_code reply <> 200.

(** What the scan of a record leaves in the trace, by its result: nothing
    but refused fetches when it finds no image; refused fetches and then
    the fetch answered with 200 when it returns that image; refused
    fetches and possibly a fetch that raised when it raises. *)
Definition scan_outcome (cfg : Config) (added : list event)
  (r : result (option (json * list Byte.byte))) : Prop :=
  match r with
  | Ok None => Forall (refused_view cfg) added
  | Ok (Some (filename, data)) =>
      exists skipped subfolder reply,
        added = (skipped ++ [EvHttp (view_request cfg filename subfolder) (Replied reply)])%list
        /\ Forall (refused_view cfg) skipped
        /\ status_code reply = 200 /\ content reply = data
  | Raise e =>
      is_http_exception e = false
      /\ exists skipped last,
           added = (skipped ++ last)%list
           /\ Forall (refused_view cfg) skipped
           /\ (last = []
               \/ exists filename subfolder cls msg,
                    last = [EvHttp (view_request cfg filename subfolder) (Failed cls msg)]
                    /\ e = OtherException cls msg)
  end.

(** A finished record as the engine documents it: output nodes, each with
    a list of images given by filename and, optionally, subfolder. *)
Definition image_entry (img : string * option string) : json :=
  match snd img with
  | Some sub =>
      JObj [("filename", JStr (fst img)); ("subfolder", JStr sub); ("type", JStr "output")]
  | None => JObj [("filename", JStr (fst img)); ("type", JStr "output")]
  end.

Definition node_entry (images : list (string * option string)) : json :=
  JObj [("images", JArr (map image_entry images))].

Definition record_of (nodes : list (string * list (string * option string))) : json :=
  JObj [("outputs", JObj (map (fun n => (fst n, node_entry (snd n))) nodes))].

(** The images of a record in the order the scan visits them. *)
Definition listed (nodes : list (string * list (string * option string)))
  : list (string * option string) :=
  flat_map snd nodes.

Definition image_request (cfg : Config) (img : string * option string) : request :=
  view_request cfg (JStr (fst img))
    (JStr (match snd img with Some sub => sub | None => "" end)).

(** The fetches of the first images of a list, with their outcomes. *)
Definition view_events (cfg : Config) (imgs : list (string * option string))
  (outcomes : list http_outcome) : list event :=
  map (fun io => EvHttp (image_request cfg (fst io)) (snd io)) (combine imgs outcomes).

(** An answer with a status other than 200. *)
Definition refused_reply (o : http_outcome) : Prop :=
  exists reply, o = Replied reply /\ status_code reply <> 200.

(** How the outcomes of the fetches, made in listing order, decide the
    result of the scan. *)
Definition listing_outcome (imgs : list (string * option string))
  (outcomes : list http_outcome) (r : result (option (json * list Byte.byte))) : Prop :=
  (List.length outcomes <= List.length imgs)%nat
  /\ match r with
     | Ok None => List.length outcomes = List.length imgs /\ Forall refused_reply outcomes
     | Ok (Some (filename, data)) =>
         exists pre reply img,
           outcomes = (pre ++ [Replied reply])%list
           /\ Forall refused_reply pre
           /\ status_code reply = 200 /\ content reply = data
           /\ nth_error imgs (List.length pre) = Some img
           /\ filename = JStr (fst img)
     | Raise e =>
         exists pre cls msg,
           outcomes = (pre ++ [Failed cls msg])%list
           /\ Forall refused_reply pre
           /\ e = OtherException cls msg
     end.

(* ================================================================== *)
(** ** Further vocabulary: counting in a trace *)
(* ================================================================== *)

Definition is_status_query (e : event) : bool :=
  match e with
  | EvHttp rq _ => match req_call rq with GetHistory _ _ => true | _ => false end
  | _ => false
  end.

Definition is_sleep (e : event) : bool :=
  match e with EvSleep _ => true | _ => false end.

(** The number of status queries, and of sleeps, among some events. *)
Definition status_queries (tr : list event) : nat := List.length (filter is_status_query tr).

Definition sleeps (tr : list event) : nat := List.length (filter is_sleep tr).

(* ================================================================== *)
(** ** Serving a stored image *)
(* ================================================================== *)

(** The bytes most recently written to [path] by the process, if any
    (the trace is most recent first). *)
Fixpoint last_write (tr : list event) (path : string) : option (list Byte.byte) :=
  match tr with
  | [] => None
  | EvWrite p data :: rest => if String.eqb p path then Some data else last_write rest path
  | _ :: rest => last_write rest path
  end.

(** The file at [path]: what the process wrote there last, else what
    [disk], the output directory as it was found at start, holds.  Files
    are taken not to be removed or changed by anyone else. *)
Definition file_at (disk : string -> option (list Byte.byte)) (w : World) (path : string)
  : option (list Byte.byte) :=
  match last_write (w_trace w) path with
  | Some data => Some data
  | None => disk path
  end.

(** [FileResponse(filepath, media_type=...)] with the bytes it sends. *)
Record FileResponse : Type := mkFileResponse {
  file_path : string;
  media_type : string;
  file_body : list Byte.byte
}.

(** GET /images/{filename} *)
Definition get_image (cfg : Config) (disk : string -> option (list Byte.byte))
  (filename : string) : M FileResponse :=
  fun _ w =>
    let filepath := OUTPUT_DIR cfg ++ "/" ++ filename in
    match file_at disk w filepath with
    | None => Some (Raise (HTTPException 404 "Image not found"), w)
    | Some data =>
        Some (Ok {| file_path := filepath; media_type := "image/png"; file_body := data |}, w)
    end.


(* ================================================================== *)
(** * The batch client: [scripts/generate-persona-images.py] *)
(* ================================================================== *)

Module Batch.

Import SpecFloat.

(** ** Python numbers *)

(** Python's [float] is IEEE 754 binary64. *)
Definition prec : Z := 53.
Definition emax : Z := 1024.

Definition overflow_error {A : Type} (msg : string) : result A :=
  Raise (OtherException "OverflowError" msg).

(** The conversion of an [int] operand to [float]: rounded to nearest,
    ties to even. *)
Definition float_of_int (n : Z) : result spec_float :=
  match binary_normalize prec emax n 0 false with
  | S754_infinity _ => overflow_error "int too large to convert to float"
  | x => Ok x
  end.

(** [a / b] on two [int]s: the correctly rounded quotient. *)
Definition true_div (a b : Z) : result spec_float :=
  if b =? 0 then Raise (OtherException "ZeroDivisionError" "division by zero")
  else if a =? 0 then Ok (S754_zero (b <? 0))
  else
    let '(q, e, l) := SFdiv_core_binary prec emax (Z.abs a) 0 (Z.abs b) 0 in
    match binary_round_aux prec emax (xorb (a <? 0) (b <? 0)) q e l with
    | S754_infinity _ => overflow_error "integer division result too large for a float"
    | x => Ok x
    end.

(** [x * n] with [x] a [float] and [n] an [int]. *)
Definition mul_int (x : spec_float) (n : Z) : result spec_float :=
  match float_of_int n with
  | Ok y => Ok (SFmul prec emax x y)
  | Raise e => Raise e
  end.

(** [int(x)]: truncation towards zero. *)
Definition int_of_float (x : spec_float) : result Z :=
  match x with
  | S754_zero _ => Ok 0
  | S754_finite s m e =>
      let a := match e with
               | Zneg p => Z.shiftr (Zpos m) (Zpos p)
               | _ => Z.shiftl (Zpos m) e
               end in
      Ok (if s then - a else a)
  | S754_infinity _ => overflow_error "cannot convert float infinity to integer"
  | S754_nan => Raise (OtherException "ValueError" "cannot convert float NaN to integer")
  end.

(** Truth value of a JSON value. *)
Definition truthy (j : json) : bool :=
  match j with
  | JNull => false
  | JBool b => b
  | JInt n => negb (n =? 0)
  | JFloat q => negb (Qnum q =? 0)
  | JStr s => Text.truthy s
  | JArr l => match l with [] => false | _ => true end
  | JObj m => match m with [] => false | _ => true end
  end.

Definition and_then {A B : Type} (r : result A) (k : A -> result B) : result B :=
  match r with Ok a => k a | Raise e => Raise e end.

(** ** The tables *)

(** A persona dictionary, through the keys every entry of [PERSONAS] has. *)
Record Persona : Type := mkPersona {
  name : string;
  gender : string;
  base_prompt : string;
  negative_prompt : string;
  style_keywords : list string;
  fashion_style : string;
  seed_base : Z
}.

Record ScenarioData : Type := mkScenarioData {
  prompt_add : string;
  weight : Z
}.

Definition PERSONAS : list (string * Persona) := [
  ("scarlett",
   {| name := "Scarlett";
      gender := "female";
      base_prompt :=
        "beautiful woman, 25 years old, athletic fit body, long wavy red hair, striking green eyes, full lips, high cheekbones, beauty mark on cheek, confident expression, fair skin";
      negative_prompt :=
        "ugly, deformed, bad anatomy, blurry, low quality, masculine features, old age";
      style_keywords := ["seductive"; "confident"; "fitness"; "glamorous"];
      fashion_style := "sexy";
      seed_base := 100000 |});
  ("emma",
   {| name := "Emma";
      gender := "female";
      base_prompt :=
        "beautiful asian woman, 22 years old, petite body, long straight black hair, cute round face, big brown eyes, dimples, soft features, adorable smile, fair skin, youthful";
      negative_prompt :=
        "ugly, deformed, bad anatomy, blurry, low quality, mature, harsh features, old age";
      style_keywords := ["cute"; "innocent"; "anime-inspired"; "soft"];
      fashion_style := "cute";
      seed_base := 200000 |});
  ("victoria",
   {| name := "Victoria";
      gender := "female";
      base_prompt :=
        "beautiful woman, 32 years old, tall elegant body, black hair in sleek bob, piercing blue eyes, sharp jawline, high cheekbones, commanding presence, sophisticated, powerful CEO aesthetic, fair skin, intense gaze";
      negative_prompt :=
        "ugly, deformed, bad anatomy, blurry, low quality, submissive pose, casual clothes";
      style_keywords := ["dominant"; "powerful"; "corporate"; "elegant"];
      fashion_style := "elegant";
      seed_base := 300000 |});
  ("lily",
   {| name := "Lily";
      gender := "female";
      base_prompt :=
        "beautiful woman, 24 years old, natural beauty, wavy brown hair, warm hazel eyes, freckles, dimples, warm genuine smile, girl next door, medium skin tone, approachable";
      negative_prompt :=
        "ugly, deformed, bad anatomy, blurry, low quality, heavy makeup, overly glamorous";
      style_keywords := ["natural"; "warm"; "cozy"; "genuine"];
      fashion_style := "casual";
      seed_base := 400000 |});
  ("isabella",
   {| name := "Isabella";
      gender := "female";
      base_prompt :=
        "beautiful latina woman, 26 years old, curvy dancer body, long curly dark brown hair, warm brown eyes, full lips, tan skin, passionate expression, Colombian beauty, sensual pose";
      negative_prompt :=
        "ugly, deformed, bad anatomy, blurry, low quality, pale skin, reserved expression";
      style_keywords := ["passionate"; "dancer"; "Latin"; "fiery"];
      fashion_style := "sexy";
      seed_base := 500000 |});
  ("maya",
   {| name := "Maya";
      gender := "female";
      base_prompt :=
        "beautiful african american woman, 24 years old, curvy body, long black braided hair, warm brown eyes, bright smile, trendy fashion, friendly expression, dark skin";
      negative_prompt :=
        "ugly, deformed, bad anatomy, blurry, low quality, serious expression";
      style_keywords := ["trendy"; "friendly"; "vibrant"; "stylish"];
      fashion_style := "trendy";
      seed_base := 600000 |});
  ("kira",
   {| name := "Kira";
      gender := "female";
      base_prompt :=
        "beautiful succubus woman, supernatural beauty, curvy body, very long black wavy hair, glowing purple eyes, small demon horns, demon tail, pale skin, seductive expression, dark fantasy aesthetic";
      negative_prompt :=
        "ugly, deformed, bad anatomy, blurry, low quality, angel, innocent, modest clothing";
      style_keywords := ["demon"; "fantasy"; "supernatural"; "seductive"];
      fashion_style := "fantasy";
      seed_base := 700000 |});
  ("marcus",
   {| name := "Marcus";
      gender := "male";
      base_prompt :=
        "handsome man, 28 years old, athletic muscular body, short black hair with fade, warm brown eyes, strong jawline, tan skin, protective confident expression, firefighter physique, broad shoulders";
      negative_prompt :=
        "ugly, deformed, bad anatomy, blurry, low quality, feminine features, weak appearance";
      style_keywords := ["protective"; "muscular"; "firefighter"; "strong"];
      fashion_style := "casual";
      seed_base := 800000 |});
  ("ryan",
   {| name := "Ryan";
      gender := "male";
      base_prompt :=
        "handsome man, 27 years old, lean athletic body, messy dark brown hair, intense blue eyes, stubble, tattoos on arms, bad boy aesthetic, leather jacket, smirk, dangerous charm";
      negative_prompt :=
        "ugly, deformed, bad anatomy, blurry, low quality, clean cut, innocent looking, soft features";
      style_keywords := ["bad boy"; "musician"; "tattoos"; "edgy"];
      fashion_style := "edgy";
      seed_base := 900000 |});
  ("alexander",
   {| name := "Alexander";
      gender := "male";
      base_prompt :=
        "handsome man, 31 years old, tall slim build, styled brown hair, warm green eyes, chiseled features, distinguished gentleman aesthetic, tailored suit, warm sophisticated smile, fair skin";
      negative_prompt :=
        "ugly, deformed, bad anatomy, blurry, low quality, casual clothes, rough appearance";
      style_keywords := ["gentleman"; "sophisticated"; "romantic"; "elegant"];
      fashion_style := "elegant";
      seed_base := 1000000 |});
  ("ethan",
   {| name := "Ethan";
      gender := "male";
      base_prompt :=
        "handsome man, 25 years old, average build, messy dirty blonde hair, warm brown eyes, boyish charm, friendly warm smile, casual hoodie style, approachable, light skin";
      negative_prompt :=
        "ugly, deformed, bad anatomy, blurry, low quality, formal wear, serious expression";
      style_keywords := ["friendly"; "casual"; "gamer"; "boy next door"];
      fashion_style := "casual";
      seed_base := 1100000 |});
  ("damien",
   {| name := "Damien";
      gender := "male";
      base_prompt :=
        "handsome man, 30 years old, tall athletic build, short black hair slicked back, intense grey eyes, sharp jawline, CEO aesthetic, expensive suit, commanding presence, intimidating but attractive, fair skin";
      negative_prompt :=
        "ugly, deformed, bad anatomy, blurry, low quality, casual clothes, soft expression, friendly";
      style_keywords := ["dominant"; "CEO"; "powerful"; "intense"];
      fashion_style := "elegant";
      seed_base := 1200000 |});
  ("lucian",
   {| name := "Lucian";
      gender := "male";
      base_prompt :=
        "handsome vampire man, ageless ethereal beauty, tall slim build, long silver hair, red eyes, pale skin, sharp features, fangs, gothic elegant clothing, dark romantic aesthetic, dangerous allure";
      negative_prompt :=
        "ugly, deformed, bad anatomy, blurry, low quality, modern clothes, warm skin tone, friendly expression";
      style_keywords := ["vampire"; "gothic"; "dark romance"; "immortal"];
      fashion_style := "fantasy";
      seed_base := 1300000 |})
].

Definition SCENARIOS : list (string * ScenarioData) := [
  ("morning",
   {| prompt_add := "morning sunlight, cozy bedroom, just woke up, natural lighting";
      weight := 10 |});
  ("coffee",
   {| prompt_add := "holding coffee cup, cafe setting, warm ambiance, relaxed";
      weight := 8 |});
  ("casual_home",
   {| prompt_add := "at home, comfortable setting, relaxed pose, cozy";
      weight := 10 |});
  ("selfie",
   {| prompt_add := "selfie angle, looking at camera, smartphone photo style, close up";
      weight := 15 |});
  ("bedroom_romantic",
   {| prompt_add := "bedroom setting, romantic lighting, intimate atmosphere, soft lighting";
      weight := 10 |});
  ("evening_dress",
   {| prompt_add := "elegant evening wear, dressed up, romantic dinner setting, candlelight";
      weight := 8 |});
  ("flirty",
   {| prompt_add := "flirty expression, playful pose, suggestive but tasteful";
      weight := 10 |});
  ("workout",
   {| prompt_add := "gym clothes, fitness setting, active pose, athletic";
      weight := 5 |});
  ("beach",
   {| prompt_add := "beach setting, summer vibes, swimwear, sunny day";
      weight := 5 |});
  ("night_out",
   {| prompt_add := "night club lighting, party outfit, vibrant atmosphere";
      weight := 5 |});
  ("relaxed_evening",
   {| prompt_add := "evening at home, comfortable clothes, soft lighting, relaxed";
      weight := 8 |});
  ("professional",
   {| prompt_add := "professional setting, office background, business attire";
      weight := 3 |});
  ("date_night",
   {| prompt_add := "restaurant setting, date night outfit, romantic ambiance";
      weight := 5 |})
].

Definition OUTFITS : list (string * list string) := [
  ("sexy",
   ["wearing tight dress";
    "wearing lingerie";
    "wearing crop top and shorts";
    "wearing bodycon dress";
    "wearing silk robe";
    "wearing off-shoulder top";
    "wearing mini skirt";
    "wearing form-fitting dress"]);
  ("cute",
   ["wearing oversized sweater";
    "wearing cute pajamas";
    "wearing sundress";
    "wearing casual dress";
    "wearing hoodie";
    "wearing school-style outfit";
    "wearing pastel colors";
    "wearing cute loungewear"]);
  ("elegant",
   ["wearing tailored suit";
    "wearing elegant blouse";
    "wearing business dress";
    "wearing designer clothes";
    "wearing silk shirt";
    "wearing formal attire";
    "wearing high fashion";
    "wearing sophisticated outfit"]);
  ("casual",
   ["wearing jeans and t-shirt";
    "wearing casual dress";
    "wearing comfortable clothes";
    "wearing hoodie and jeans";
    "wearing sweater";
    "wearing casual summer outfit";
    "wearing relaxed fit clothes";
    "wearing weekend casual"]);
  ("trendy",
   ["wearing streetwear";
    "wearing trendy outfit";
    "wearing fashionable clothes";
    "wearing designer streetwear";
    "wearing modern fashion";
    "wearing stylish outfit";
    "wearing Instagram fashion";
    "wearing influencer style"]);
  ("edgy",
   ["wearing leather jacket";
    "wearing band t-shirt";
    "wearing ripped jeans";
    "wearing all black outfit";
    "wearing punk style";
    "wearing rock aesthetic";
    "wearing dark clothes";
    "wearing biker style"]);
  ("fantasy",
   ["wearing dark elegant robes";
    "wearing gothic outfit";
    "wearing fantasy costume";
    "wearing dark lingerie";
    "wearing mystical clothing";
    "wearing supernatural attire";
    "wearing dark romantic outfit";
    "wearing otherworldly fashion"])
].

Definition EXPRESSIONS : list string :=
  ["smiling warmly";
   "seductive look";
   "playful expression";
   "confident smile";
   "soft gentle expression";
   "intense gaze";
   "laughing naturally";
   "flirty smile";
   "mysterious look";
   "loving expression"].

(** ** [generate_image] *)

(** The prompt [generate_image] builds, in its two steps. *)
Definition full_prompt (persona : Persona) (scenario_data : ScenarioData)
  (outfit expression : string) : string :=
  let full_prompt :=
    base_prompt persona ++ ", " ++ outfit ++ ", " ++ expression ++ ", "
    ++ prompt_add scenario_data in
  let style_str := String.concat ", " (style_keywords persona) in
  full_prompt ++ ", " ++ style_str ++ ", high quality, professional photo, detailed".

Definition payload (persona_id : string) (persona : Persona) (scenario_data : ScenarioData)
  (outfit expression : string) (image_number : Z) : json :=
  let seed := seed_base persona + image_number in
  JObj [
    ("prompt", JStr (full_prompt persona scenario_data outfit expression));
    ("negative_prompt", JStr (negative_prompt persona));
    ("seed", JInt seed);
    ("steps", JInt 25);
    ("cfg_scale", JFloat (7 # 1));
    ("width", JInt 1024);
    ("height", JInt 1024);
    ("persona_id", JStr persona_id);
    ("user_id", JStr "batch_generator")
  ].

(** [client.post(f"{SD_API_URL}/generate", json=payload, timeout=120.0)] *)
Definition generate_request (sd_api_url : string) (payload : json) : request :=
  {| req_call := PostJson (sd_api_url ++ "/generate") payload;
     req_timeout := Some (120 # 1)%Q |}.

Definition generate_image (sd_api_url : string) (persona_id : string) (persona : Persona)
  (scenario : string) (scenario_data : ScenarioData) (outfit expression : string)
  (image_number : Z) : M json :=
  let payload := payload persona_id persona scenario_data outfit expression image_number in
  let seed := seed_base persona + image_number in
  try_except
    (response <- send (generate_request sd_api_url payload) ;;
     result <- response_json response ;;
     success <- lift (Py.get result "success" JNull) ;;
     if truthy success then
       image_url <- lift (Py.get result "image_url" JNull) ;;
       image_hash <- lift (Py.get result "image_hash" JNull) ;;
       ret (JObj [
         ("success", JBool true);
         ("persona_id", JStr persona_id);
         ("image_number", JInt image_number);
         ("scenario", JStr scenario);
         ("seed", JInt seed);
         ("image_url", image_url);
         ("image_hash", image_hash)
       ])
     else
       error <- lift (Py.get result "error" (JStr "Unknown error")) ;;
       ret (JObj [
         ("success", JBool false);
         ("persona_id", JStr persona_id);
         ("image_number", JInt image_number);
         ("error", error)
       ]))
    (fun _ => true)   (* except Exception as e *)
    (fun e =>
       ret (JObj [
         ("success", JBool false);
         ("persona_id", JStr persona_id);
         ("image_number", JInt image_number);
         ("error", JStr (exn_str e))
       ])).

(** ** [build_image_variations] *)

Record Variation : Type := mkVariation {
  persona_id : string;
  persona : Persona;
  scenario : string;
  scenario_data : ScenarioData;
  outfit : string;
  expression : string;
  image_number : Z
}.

(** [l[i % len(l)]] *)
Definition pick (l : list string) (i : Z) : result string :=
  let n := Z.of_nat (List.length l) in
  if n =? 0 then Raise (OtherException "ZeroDivisionError" "integer modulo by zero")
  else match nth_error l (Z.to_nat (i mod n)) with
       | Some s => Ok s
       | None => Raise (OtherException "IndexError" "list index out of range")
       end.

(** [OUTFITS.get(fashion_style, OUTFITS["casual"])]; the default is
    looked up first. *)
Definition outfits_for (fashion_style : string) : result (list string) :=
  match Py.assoc "casual" OUTFITS with
  | None => Raise (OtherException "KeyError" "'casual'")
  | Some default =>
      Ok (match Py.assoc fashion_style OUTFITS with Some l => l | None => default end)
  end.

(** [sum(s["weight"] for s in SCENARIOS.values())] *)
Definition total_weight : Z :=
  fold_left (fun acc item => acc + weight (snd item)) SCENARIOS 0.

(** [int((scenario_data["weight"] / total_weight) * count)] *)
Definition scenario_count (weight total_weight count : Z) : result Z :=
  and_then (true_div weight total_weight) (fun share =>
  and_then (mul_int share count) int_of_float).

(** The dictionary appended for image [image_num]. *)
Definition variation_at (persona_id : string) (persona : Persona) (outfits : list string)
  (scenario : string) (scenario_data : ScenarioData) (image_num : Z) : result Variation :=
  and_then (pick outfits image_num) (fun outfit =>
  and_then (pick EXPRESSIONS image_num) (fun expression =>
  Ok {| persona_id := persona_id;
        persona := persona;
        scenario := scenario;
        scenario_data := scenario_data;
        outfit := outfit;
        expression := expression;
        image_number := image_num |})).

(** The loop state: [image_num] and [variations]. *)
Definition loop_state : Type := (Z * list Variation)%type.

(** [for i in range(scenario_count)], with [n] iterations left. *)
Fixpoint scenario_loop (persona_id : string) (persona : Persona) (outfits : list string)
  (count : Z) (scenario : string) (scenario_data : ScenarioData) (n : nat)
  (st : loop_state) : result loop_state :=
  match n with
  | O => Ok st
  | S n' =>
      let '(image_num, variations) := st in
      if count <=? image_num then Ok st   (* break *)
      else
        and_then (variation_at persona_id persona outfits scenario scenario_data image_num)
          (fun v =>
             scenario_loop persona_id persona outfits count scenario scenario_data n'
               (image_num + 1, (variations ++ [v])%list))
  end.

(** [for scenario_name, scenario_data in SCENARIOS.items()] *)
Fixpoint scenarios_loop (persona_id : string) (persona : Persona) (outfits : list string)
  (count total_weight : Z) (items : list (string * ScenarioData)) (st : loop_state)
  : result loop_state :=
  match items with
  | [] => Ok st
  | (scenario_name, scenario_data) :: rest =>
      and_then (scenario_count (weight scenario_data) total_weight count) (fun quota =>
      and_then (scenario_loop persona_id persona outfits count scenario_name scenario_data
                  (Z.to_nat quota) st) (fun st' =>
      scenarios_loop persona_id persona outfits count total_weight rest st'))
  end.

(** [while image_num < count]; [None] when the fuel runs out. *)
Fixpoint fill_loop (persona_id : string) (persona : Persona) (outfits : list string)
  (count : Z) (fuel : nat) (st : loop_state) : option (result (list Variation)) :=
  match fuel with
  | O => None
  | S fuel' =>
      let '(image_num, variations) := st in
      if image_num <? count then
        match Py.assoc "selfie" SCENARIOS with
        | None => Some (Raise (OtherException "KeyError" "'selfie'"))
        | Some selfie =>
            match variation_at persona_id persona outfits "selfie" selfie image_num with
            | Ok v => fill_loop persona_id persona outfits count fuel'
                        (image_num + 1, (variations ++ [v])%list)
            | Raise e => Some (Raise e)
            end
        end
      else Some (Ok variations)
  end.

Definition fill_fuel (count : Z) : nat := S (Z.to_nat count).

Definition build_image_variations (persona_id : string) (persona : Persona) (count : Z)
  : option (result (list Variation)) :=
  match outfits_for (fashion_style persona) with
  | Raise e => Some (Raise e)
  | Ok outfits =>
      match scenarios_loop persona_id persona outfits count total_weight SCENARIOS (0, []) with
      | Raise e => Some (Raise e)
      | Ok st => fill_loop persona_id persona outfits count (fill_fuel count) st
      end
  end.

End Batch.

(* ================================================================== *)
(** ** Further vocabulary: the batch client *)
(* ================================================================== *)

(** What [build_image_variations] puts at position [i] of its list, for
    the outfit list [outfits]. *)
Definition variation_spec (pid : string) (p : Batch.Persona) (outfits : list string)
  (i : nat) (v : Batch.Variation) : Prop :=
  Batch.persona_id v = pid
  /\ Batch.persona v = p
  /\ Batch.image_number v = Z.of_nat i
  /\ nth_error outfits (i mod List.length outfits) = Some (Batch.outfit v)
  /\ nth_error Batch.EXPRESSIONS (i mod List.length Batch.EXPRESSIONS)
     = Some (Batch.expression v)
  /\ In (Batch.scenario v, Batch.scenario_data v) Batch.SCENARIOS.

(** The loop invariant of [build_image_variations]: [image_num] is the
    length of [variations], never beyond [count], and every entry is in
    its place. *)
Definition numbered (pid : string) (p : Batch.Persona) (outfits : list string) (count : Z)
  (st : Batch.loop_state) : Prop :=
  fst st = Z.of_nat (List.length (snd st))
  /\ Z.of_nat (List.length (snd st)) <= Z.max 0 count
  /\ forall i v, nth_error (snd st) i = Some v -> variation_spec pid p outfits i v.

(** The pieces [generate_image] joins with [", "] into its prompt. *)
Definition prompt_parts (p : Batch.Persona) (sd : Batch.ScenarioData)
  (outfit expression : string) : list string :=
  Batch.base_prompt p :: outfit :: expression :: Batch.prompt_add sd
    :: Batch.style_keywords p.

(** [s] is empty or starts with [", "]; [s] is empty or ends with [", "]. *)
Definition opens_with_separator (s : string) : Prop :=
  s = "" \/ exists r, s = ", " ++ r.

Definition closes_with_separator (s : string) : Prop :=
  s = "" \/ exists r, s = r ++ ", ".

(** The reply to the request the batch client makes in world [w] has a
    JSON object as body, with a true ["success"] entry. *)
Definition reports_success (env : Env) (w : World) (rq : request) : Prop :=
  exists r body flag,
    fst (http env (w_steps w) rq) = Replied r
    /\ json_body r = Some (JObj body)
    /\ Py.assoc "success" body = Some flag
    /\ Batch.truthy flag = true.

Definition no_persona : Batch.Persona := Batch.mkPersona "" "" "" "" [] "" 0.

(** [PERSONAS[id]] and [SCENARIOS[id]], for the entries that exist. *)
Definition persona_named (id : string) : Batch.Persona :=
  match Py.assoc id Batch.PERSONAS with Some p => p | None => no_persona end.

Definition scenario_named (id : string) : Batch.ScenarioData :=
  match Py.assoc id Batch.SCENARIOS with Some d => d | None => Batch.mkScenarioData "" 0 end.

(** A service request that carries the prompt of a batch payload. *)
Definition request_of_prompt (text : string) : GenerateRequest :=
  {| prompt := text; negative_prompt := None; seed := None; steps := None;
     cfg_scale := None; width := None; height := None;
     face_reference := None; face_weight := None;
     persona_id := None; user_id := None |}.

(** The dictionary [generate_image] of the batch client returns for a
    failed image. *)
Definition failed_image (pid : string) (n : Z) (error : json) : json :=
  JObj [
    ("success", JBool false);
    ("persona_id", JStr pid);
    ("image_number", JInt n);
    ("error", error)
  ].

(** A service that answers every request with status [status] and the
    JSON object [body]. *)
Definition answering (status : Z) (body : list (string * json)) : Env :=
  {| urandom16 := fun _ => 0;
     http := fun _ _ =>
               (Replied {| status_code := status; text := ""; content := [];
                           json_body := Some (JObj body) |}, 25%N);
     sleep_lag := fun _ => 0%N;
     fs_write := fun _ _ => None;
     utcnow := fun _ => "2024-01-01T00:00:00" |}.

(* ================================================================== *)
(** ** Further vocabulary: code points, case and the search *)
(* ================================================================== *)

(** The points of a run of the lower-case table. *)
Definition run_points (run : Z * Z * Z * Z) : list Z :=
  let '(lo, hi, step, _) := run in
  map (fun k => lo + Z.of_nat k * step) (seq 0 (S (Z.to_nat ((hi - lo) / step)))).

(** Every code point the simple lower-case mapping moves. *)
Definition moved_points : list Z :=
  map Z.of_nat (seq 65 26) ++ flat_map run_points Text.lower_runs.

(** What the simple lower case keeps of a character: its class for
    [\w], being its own lower case, being a scalar value, and, when it
    lands in ASCII, landing on a letter. *)
Definition lower_keeps (c : Z) : bool :=
  let l := Text.lower_point c in
  Bool.eqb (Text.is_word l) (Text.is_word c)
  && (Text.lower_point l =? l)
  && implb (Text.is_scalar c) (Text.is_scalar l)
  && ((0x80 <=? l) || Text.is_lower l || (l =? c)).

(** Two characters the search cannot tell apart when it ignores case and
    the pattern has ASCII literals only. *)
Definition similar (c d : Z) : Prop :=
  Text.is_word c = Text.is_word d
  /\ forall a, Text.code a < 0x80 -> Re.char_eq true a c = Re.char_eq true a d.

Definition similar_pos (p q : Re.pos) : Prop :=
  word_opt (fst p) = word_opt (fst q) /\ Forall2 similar (snd p) (snd q).

(** The literals of a pattern are ASCII characters. *)
Fixpoint ascii_regex (r : Re.regex) : bool :=
  match r with
  | Re.REps | Re.RWordB => true
  | Re.RChar c => Text.code c <? 0x80
  | Re.RSeq r1 r2 | Re.RAlt r1 r2 => ascii_regex r1 && ascii_regex r2
  | Re.ROpt r1 => ascii_regex r1
  end.

(** [Text.lower_from] for a text that goes on with [after]. *)
Fixpoint lower_within (before l after : list Z) : list Z :=
  match l with
  | [] => []
  | c :: rest =>
      (if c =? 0x3A3
       then [if Text.final_sigma before (rest ++ after) then 0x3C2 else 0x3C3]
       else Text.lower_full c)
      ++ lower_within (c :: before) rest after
  end.

(** The text holds no capital I with dot above (U+0130), the one
    character whose lower case is two characters. *)
Definition free_of_dotted_capital (text : string) : Prop :=
  ~ In 0x130 (Text.decode text).
(* ================================================================== *)
(** * Properties *)
(* ================================================================== *)

Example validate_taylor :
  validate_prompt default_config "a photo of Taylor Swift at the beach"
  = Some (false, "Prompt rejected: celebrities content not allowed").
Proof. vm_compute. reflexivity. Qed.

Example validate_landscape :
  validate_prompt default_config "a mountain landscape at sunset" = Some (true, "").
Proof. vm_compute. reflexivity. Qed.

Example validate_school_uniform :
  validate_prompt default_config "a school uniform"
  = Some (false, "Prompt rejected: age_down content not allowed").
Proof. vm_compute. reflexivity. Qed.

Example validate_word_boundary :
  validate_prompt default_config "a kidney bean still life" = Some (true, "").
Proof. vm_compute. reflexivity. Qed.

Example sha256_constants :
  nth 0 SHA256.K 0 = 0x428a2f98 /\ nth 63 SHA256.K 0 = 0xc67178f2
  /\ List.length SHA256.K = 64%nat
  /\ nth 0 SHA256.H0 0 = 0x6a09e667 /\ nth 7 SHA256.H0 0 = 0x5be0cd19.
Proof. vm_compute. auto. Qed.

Example sha256_abc :
  SHA256.hexdigest (list_byte_of_string "abc")
  = "ba7816bf8f01cfea414140de5dae2223b00361a396177a9cb410ff61f20015ad".
Proof. vm_compute. reflexivity. Qed.

Example sha256_empty :
  SHA256.hexdigest []
  = "e3b0c44298fc1c149afbf4c8996fb92427ae41e4649b934ca495991b7852b855".
Proof. vm_compute. reflexivity. Qed.

Example sha256_two_blocks :
  SHA256.hexdigest (list_byte_of_string
    "abcdbcdecdefdefgefghfghighijhijkijkljklmklmnlmnomnopnopq")
  = "248d6a61d20638b8e5c026930c3e6039a33ce45964ff2167f6ecedd419db06c1".
Proof. vm_compute. reflexivity. Qed.

Example verify_api_key_cases :
  let keyed := {| COMFYUI_URL := ""; API_KEY := "secret"; OUTPUT_DIR := "";
                  DEFAULT_STEPS := 32; DEFAULT_CFG := 6 # 1; DEFAULT_WIDTH := 1024;
                  DEFAULT_HEIGHT := 1024; MODEL_NAME := ""; ENABLE_SAFETY := true |} in
  verify_api_key default_config None Scenario.good_env initial_world
  = Some (Ok true, initial_world)
  /\ verify_api_key keyed (Some "secret") Scenario.good_env initial_world
     = Some (Ok true, initial_world)
  /\ verify_api_key keyed (Some "guess") Scenario.good_env initial_world
     = Some (Raise (HTTPException 401 "Invalid or missing API key"), initial_world)
  /\ verify_api_key keyed None Scenario.good_env initial_world
     = Some (Raise (HTTPException 401 "Invalid or missing API key"), initial_world).
Proof. cbv zeta. repeat split; reflexivity. Qed.

Example of_Z_300 : Text.of_Z 300 = "300" /\ Text.of_Z 0 = "0" /\ Text.of_Z (-17) = "-17".
Proof. vm_compute. auto. Qed.

(* ------------------------------------------------------------------ *)
(** ** Bytes and code points *)
(* ------------------------------------------------------------------ *)

Lemma code_range (c : ascii) : 0 <= Text.code c < 256.
Proof.
  unfold Text.code. pose proof (N_ascii_bounded c). lia.
Qed.

Lemma code_chr (b : Z) : 0 <= b < 256 -> Text.code (Text.chr b) = b.
Proof.
  intros H. unfold Text.code, Text.chr.
  rewrite N_ascii_embedding by lia. lia.
Qed.

Lemma chr_code (c : ascii) : Text.chr (Text.code c) = c.
Proof.
  unfold Text.code, Text.chr. rewrite N2Z.id. apply ascii_N_embedding.
Qed.

Lemma two_bytes_continuation (b0 b1 : Z) :
  Text.continuation b1 = false -> Text.two_bytes b0 b1 = None.
Proof.
  intros H. unfold Text.two_bytes. rewrite H.
  rewrite andb_false_r. reflexivity.
Qed.

Lemma three_bytes_continuation (b0 b1 b2 : Z) :
  Text.continuation b1 = false \/ Text.continuation b2 = false ->
  Text.three_bytes b0 b1 b2 = None.
Proof.
  intros [H|H]; unfold Text.three_bytes; rewrite H;
    rewrite ?andb_false_r, ?andb_false_l; reflexivity.
Qed.

Lemma four_bytes_continuation (b0 b1 b2 b3 : Z) :
  Text.continuation b1 = false \/ Text.continuation b2 = false
  \/ Text.continuation b3 = false ->
  Text.four_bytes b0 b1 b2 b3 = None.
Proof.
  intros [H|[H|H]]; unfold Text.four_bytes; rewrite H;
    rewrite ?andb_false_r, ?andb_false_l; reflexivity.
Qed.

Lemma ascii_not_continuation (b : Z) : b < 0x80 -> Text.continuation b = false.
Proof. intros H. unfold Text.continuation. lia. Qed.

Lemma two_bytes_scalar (b0 b1 c : Z) :
  0 <= b1 < 256 -> Text.two_bytes b0 b1 = Some c -> Text.is_scalar c = true.
Proof.
  unfold Text.two_bytes, Text.continuation, Text.is_scalar. intros Hb.
  destruct (_ && _ && _ && _) eqn:E; [|discriminate].
  intros H. injection H as <-. lia.
Qed.

Lemma three_bytes_scalar (b0 b1 b2 c : Z) :
  Text.three_bytes b0 b1 b2 = Some c -> Text.is_scalar c = true.
Proof.
  unfold Text.three_bytes.
  destruct (_ && _ && _ && _ && _ && Text.is_scalar _) eqn:E; [|discriminate].
  intros H. injection H as <-.
  apply andb_true_iff in E. apply E.
Qed.

Lemma four_bytes_scalar (b0 b1 b2 b3 c : Z) :
  Text.four_bytes b0 b1 b2 b3 = Some c -> Text.is_scalar c = true.
Proof.
  unfold Text.four_bytes.
  destruct (_ && _ && _ && _ && _ && _ && Text.is_scalar _) eqn:E; [|discriminate].
  intros H. injection H as <-.
  apply andb_true_iff in E. apply E.
Qed.

Lemma first_point_spec (s : string) (c : Z) (n : nat) :
  Text.first_point s = Some (c, n) ->
  (1 <= n <= String.length s)%nat /\ Text.is_scalar c = true.
Proof.
  destruct s as [|c0 r0]; [discriminate|]. unfold Text.first_point.
  pose proof (code_range c0) as H0.
  destruct (Text.code c0 <? 0x80) eqn:E0.
  { intros H. injection H as <- <-. simpl. split; [lia|].
    unfold Text.is_scalar. lia. }
  assert (Hrep : forall m, (1 <= 1 <= String.length (String c0 m))%nat
                           /\ Text.is_scalar Text.replacement = true).
  { intros m. simpl. split; [lia | reflexivity]. }
  destruct r0 as [|c1 r1]; [intros H; injection H as <- <-; apply Hrep|].
  destruct (Text.two_bytes _ _) as [x|] eqn:E2.
  { intros H. injection H as <- <-. simpl. split; [lia|].
    exact (two_bytes_scalar _ _ _ (code_range c1) E2). }
  destruct r1 as [|c2 r2]; [intros H; injection H as <- <-; apply Hrep|].
  destruct (Text.three_bytes _ _ _) as [x|] eqn:E3.
  { intros H. injection H as <- <-. simpl. split; [lia|].
    exact (three_bytes_scalar _ _ _ _ E3). }
  destruct r2 as [|c3 r3]; [intros H; injection H as <- <-; apply Hrep|].
  destruct (Text.four_bytes _ _ _ _) as [x|] eqn:E4.
  { intros H. injection H as <- <-. simpl. split; [lia|].
    exact (four_bytes_scalar _ _ _ _ _ E4). }
  intros H. injection H as <- <-. apply Hrep.
Qed.

Lemma first_point_none (s : string) : Text.first_point s = None -> s = "".
Proof.
  destruct s as [|c0 r0]; [reflexivity|]. unfold Text.first_point.
  destruct (Text.code c0 <? 0x80); [discriminate|].
  destruct r0 as [|c1 r1]; [discriminate|].
  destruct (Text.two_bytes _ _); [discriminate|].
  destruct r1 as [|c2 r2]; [discriminate|].
  destruct (Text.three_bytes _ _ _); [discriminate|].
  destruct r2 as [|c3 r3]; [discriminate|].
  destruct (Text.four_bytes _ _ _ _); discriminate.
Qed.

Lemma drop_length (n : nat) (s : string) :
  String.length (Text.drop n s) = (String.length s - n)%nat.
Proof.
  revert s. induction n as [|n IH]; intros s; simpl; [lia|].
  destruct s as [|c r]; simpl; [reflexivity | apply IH].
Qed.

Lemma drop_append (n : nat) (a b : string) :
  (n <= String.length a)%nat -> Text.drop n (a ++ b) = (Text.drop n a ++ b)%string.
Proof.
  revert a. induction n as [|n IH]; intros a H; simpl; [reflexivity|].
  destruct a as [|c r]; simpl in *; [lia|]. apply IH. lia.
Qed.

Lemma decode_from_enough (f g : nat) :
  forall s,
    (String.length s <= f)%nat -> (String.length s <= g)%nat ->
    Text.decode_from f s = Text.decode_from g s.
Proof.
  revert g. induction f as [|f IH]; intros g s Hf Hg.
  - destruct s; simpl in Hf; [|lia]. destruct g; reflexivity.
  - destruct g as [|g].
    + destruct s; simpl in Hg; [|lia]. reflexivity.
    + simpl. destruct (Text.first_point s) as [[c n]|] eqn:E; [|reflexivity].
      destruct (first_point_spec s c n E) as [Hn _].
      f_equal. apply IH; rewrite drop_length; lia.
Qed.

(** The equation of [decode]. *)
Lemma decode_unfold (s : string) :
  Text.decode s
  = match Text.first_point s with
    | None => []
    | Some (c, n) => c :: Text.decode (Text.drop n s)
    end.
Proof.
  unfold Text.decode. destruct s as [|c0 r0]; [reflexivity|].
  cbn [String.length Text.decode_from].
  destruct (Text.first_point (String c0 r0)) as [[c n]|] eqn:E; [|reflexivity].
  destruct (first_point_spec _ c n E) as [Hn _]. cbn [String.length] in Hn.
  f_equal. apply decode_from_enough; rewrite ?drop_length; cbn [String.length]; lia.
Qed.

Lemma decode_empty : Text.decode "" = [].
Proof. reflexivity. Qed.

Lemma decode_cons_ascii (c : ascii) (r : string) :
  Text.code c < 0x80 -> Text.decode (String c r) = Text.code c :: Text.decode r.
Proof.
  intros H. rewrite decode_unfold. unfold Text.first_point.
  destruct (Z.ltb_spec (Text.code c) 0x80); [reflexivity | lia].
Qed.

Lemma decode_scalar (s : string) :
  Forall (fun c => Text.is_scalar c = true) (Text.decode s).
Proof.
  remember (String.length s) as k eqn:Hk.
  revert s Hk. induction k as [k IH] using lt_wf_ind. intros s Hk.
  rewrite decode_unfold.
  destruct (Text.first_point s) as [[c n]|] eqn:E; [|constructor].
  destruct (first_point_spec s c n E) as [Hn Hc].
  constructor; [exact Hc|].
  apply (IH (String.length (Text.drop n s))); [|reflexivity].
  rewrite drop_length. lia.
Qed.

(** A character is read the same whatever follows an ASCII byte. *)
Lemma first_point_append (a : string) (c : ascii) (b : string) :
  a <> "" -> Text.code c < 0x80 ->
  Text.first_point (a ++ String c b) = Text.first_point a.
Proof.
  intros Ha Hc. pose proof (ascii_not_continuation _ Hc) as Hn.
  destruct a as [|c0 a0]; [contradiction|]. cbn [append]. unfold Text.first_point.
  destruct (Text.code c0 <? 0x80); [reflexivity|].
  destruct a0 as [|c1 a1]; cbn [append].
  { rewrite two_bytes_continuation by exact Hn.
    destruct b as [|c2 r2]; [reflexivity|].
    rewrite three_bytes_continuation by (left; exact Hn).
    destruct r2 as [|c3 r3]; [reflexivity|].
    rewrite four_bytes_continuation by (left; exact Hn). reflexivity. }
  destruct (Text.two_bytes _ _); [reflexivity|].
  destruct a1 as [|c2 a2]; cbn [append].
  { rewrite three_bytes_continuation by (right; exact Hn).
    destruct b as [|c3 r3]; [reflexivity|].
    rewrite four_bytes_continuation by (right; left; exact Hn). reflexivity. }
  destruct (Text.three_bytes _ _ _); [reflexivity|].
  destruct a2 as [|c3 a3]; cbn [append].
  { rewrite four_bytes_continuation by (right; right; exact Hn). reflexivity. }
  reflexivity.
Qed.

Lemma decode_append_ascii (a : string) (c : ascii) (b : string) :
  Text.code c < 0x80 ->
  Text.decode (a ++ String c b) = (Text.decode a ++ Text.decode (String c b))%list.
Proof.
  intros Hc. remember (String.length a) as k eqn:Hk.
  revert a Hk. induction k as [k IH] using lt_wf_ind. intros a Hk.
  destruct a as [|c0 a0]; [reflexivity|].
  rewrite (decode_unfold (String c0 a0 ++ String c b)), (decode_unfold (String c0 a0)).
  rewrite first_point_append by (discriminate || exact Hc).
  destruct (Text.first_point (String c0 a0)) as [[x n]|] eqn:E.
  - destruct (first_point_spec _ x n E) as [Hn _].
    rewrite drop_append by lia. cbn [app]. f_equal.
    apply (IH (String.length (Text.drop n (String c0 a0)))); [|reflexivity].
    rewrite drop_length. lia.
  - apply first_point_none in E. discriminate.
Qed.

Lemma two_bytes_none_lead (b0 b1 : Z) :
  True /\ (0xE0 <= b0 -> Text.two_bytes b0 b1 = None).
Proof.
  split; [exact I|]. intros H. unfold Text.two_bytes.
  replace (_ && _ && _ && _) with false by lia. reflexivity.
Qed.

Lemma three_bytes_none_lead (b0 b1 b2 : Z) :
  True /\ (0xF0 <= b0 -> Text.three_bytes b0 b1 b2 = None).
Proof.
  split; [exact I|]. intros H. unfold Text.three_bytes.
  replace (_ && _ && _ && _ && _ && _) with false by lia. reflexivity.
Qed.

Lemma encode_append (l1 l2 : list Z) :
  Text.encode (l1 ++ l2) = (Text.encode l1 ++ Text.encode l2)%string.
Proof.
  induction l1 as [|c l1 IH]; [reflexivity|].
  cbn [app Text.encode]. rewrite IH.
  generalize (Text.encode_point c) as x. intros x.
  induction x as [|y x IHx]; simpl; [reflexivity | rewrite IHx; reflexivity].
Qed.

Ltac div_lia := Z.to_euclidean_division_equations; lia.

Lemma first_point_encode_point (c : Z) (r : string) :
  Text.is_scalar c = true ->
  Text.first_point (Text.encode_point c ++ r)
  = Some (c, String.length (Text.encode_point c)).
Proof.
  intros Hc. unfold Text.encode_point.
  assert (Hr : 0 <= c <= 0x10FFFF /\ ~ (0xD800 <= c <= 0xDFFF))
    by (unfold Text.is_scalar in Hc; lia).
  destruct (Z.ltb_spec c 0x80) as [H1|H1].
  { cbn [append Text.first_point]. rewrite code_chr by lia.
    destruct (Z.ltb_spec c 0x80); [reflexivity | lia]. }
  destruct (Z.ltb_spec c 0x800) as [H2|H2].
  { set (b0 := 0xC0 + c / 64). set (b1 := 0x80 + c mod 64).
    assert (Hb : 0xC2 <= b0 <= 0xDF /\ 0x80 <= b1 <= 0xBF
                 /\ (b0 - 0xC0) * 64 + (b1 - 0x80) = c) by (subst b0 b1; div_lia).
    cbn [append Text.first_point String.length]. rewrite !code_chr by lia.
    destruct (Z.ltb_spec b0 0x80); [lia|].
    unfold Text.two_bytes, Text.continuation.
    replace ((b0 - 0xC0) * 64 + (b1 - 0x80)) with c by lia.
    replace (_ && _ && _ && _) with true by lia. reflexivity. }
  destruct (Z.ltb_spec c 0x10000) as [H3|H3].
  { set (b0 := 0xE0 + c / 4096). set (b1 := 0x80 + (c / 64) mod 64).
    set (b2 := 0x80 + c mod 64).
    assert (Hb : 0xE0 <= b0 <= 0xEF /\ 0x80 <= b1 <= 0xBF /\ 0x80 <= b2 <= 0xBF
                 /\ (b0 - 0xE0) * 4096 + (b1 - 0x80) * 64 + (b2 - 0x80) = c)
      by (subst b0 b1 b2; div_lia).
    cbn [append Text.first_point String.length]. rewrite !code_chr by lia.
    destruct (Z.ltb_spec b0 0x80); [lia|].
    rewrite (proj2 (two_bytes_none_lead _ _)) by lia.
    unfold Text.three_bytes, Text.continuation.
    replace ((b0 - 0xE0) * 4096 + (b1 - 0x80) * 64 + (b2 - 0x80)) with c by lia.
    rewrite Hc.
    replace (_ && _ && _ && _ && _) with true by lia. reflexivity. }
  set (b0 := 0xF0 + c / 262144). set (b1 := 0x80 + (c / 4096) mod 64).
  set (b2 := 0x80 + (c / 64) mod 64). set (b3 := 0x80 + c mod 64).
  assert (Hb : 0xF0 <= b0 <= 0xF4 /\ 0x80 <= b1 <= 0xBF /\ 0x80 <= b2 <= 0xBF
               /\ 0x80 <= b3 <= 0xBF
               /\ (b0 - 0xF0) * 262144 + (b1 - 0x80) * 4096 + (b2 - 0x80) * 64
                  + (b3 - 0x80) = c)
    by (subst b0 b1 b2 b3; div_lia).
  cbn [append Text.first_point String.length]. rewrite !code_chr by lia.
  destruct (Z.ltb_spec b0 0x80); [lia|].
  rewrite (proj2 (two_bytes_none_lead _ _)) by lia.
  rewrite (proj2 (three_bytes_none_lead _ _ _)) by lia.
  unfold Text.four_bytes, Text.continuation.
  replace ((b0 - 0xF0) * 262144 + (b1 - 0x80) * 4096 + (b2 - 0x80) * 64 + (b3 - 0x80))
    with c by lia.
  rewrite Hc.
  replace (_ && _ && _ && _ && _ && _) with true by lia. reflexivity.
Qed.

Lemma drop_whole (a b : string) : Text.drop (String.length a) (a ++ b) = b.
Proof. induction a as [|c a IH]; [reflexivity | exact IH]. Qed.

Lemma decode_encode_point (c : Z) (r : string) :
  Text.is_scalar c = true ->
  Text.decode (Text.encode_point c ++ r) = c :: Text.decode r.
Proof.
  intros Hc. rewrite decode_unfold, (first_point_encode_point c r Hc), drop_whole.
  reflexivity.
Qed.

Lemma append_assoc (a b c : string) : ((a ++ b) ++ c = a ++ (b ++ c))%string.
Proof. induction a as [|x a IH]; simpl; [reflexivity | rewrite IH; reflexivity]. Qed.

Lemma decode_encode_append (l : list Z) (r : string) :
  Forall (fun c => Text.is_scalar c = true) l ->
  Text.decode (Text.encode l ++ r) = (l ++ Text.decode r)%list.
Proof.
  induction 1 as [|c l Hc _ IH]; [reflexivity|].
  cbn [Text.encode app]. rewrite append_assoc, (decode_encode_point c _ Hc), IH.
  reflexivity.
Qed.

Lemma append_empty_r (a : string) : (a ++ "")%string = a.
Proof. induction a as [|c a IH]; simpl; [reflexivity | rewrite IH; reflexivity]. Qed.

Lemma decode_encode (l : list Z) :
  Forall (fun c => Text.is_scalar c = true) l -> Text.decode (Text.encode l) = l.
Proof.
  intros H. rewrite <- (append_empty_r (Text.encode l)), (decode_encode_append l "" H).
  apply app_nil_r.
Qed.

(** The characters of a well-formed text are read off it whatever
    follows. *)
Lemma decode_append (a b : string) :
  Text.well_formed a ->
  Text.decode (a ++ b) = (Text.decode a ++ Text.decode b)%list.
Proof.
  unfold Text.well_formed. intros H. rewrite <- H at 1.
  apply decode_encode_append, decode_scalar.
Qed.

(* ------------------------------------------------------------------ *)
(** ** The lower-case table *)
(* ------------------------------------------------------------------ *)

Lemma in_run_points (c : Z) (run : Z * Z * Z * Z) :
  (0 <? snd (fst run)) = true -> Text.in_run c run = true -> In c (run_points run).
Proof.
  destruct run as [[[lo hi] step] d]. cbn [fst snd]. unfold Text.in_run, run_points.
  intros Hstep H.
  assert (Hc : lo <= c <= hi /\ (c - lo) mod step = 0 /\ 0 < step) by lia.
  destruct Hc as (Hb & Hm & Hs).
  apply in_map_iff. exists (Z.to_nat ((c - lo) / step)). split.
  - rewrite Z2Nat.id by (apply Z.div_pos; lia).
    pose proof (Z.div_mod (c - lo) step). lia.
  - apply in_seq. split; [lia|].
    assert ((c - lo) / step <= (hi - lo) / step) by (apply Z.div_le_mono; lia).
    assert (0 <= (c - lo) / step) by (apply Z.div_pos; lia).
    lia.
Qed.

Lemma lower_runs_steps :
  forallb (fun run => 0 <? snd (fst run)) Text.lower_runs = true.
Proof. vm_compute. reflexivity. Qed.

Lemma lookup_moved (runs : list (Z * Z * Z * Z)) (c : Z) :
  forallb (fun run => 0 <? snd (fst run)) runs = true ->
  Text.lookup runs c <> c -> In c (flat_map run_points runs).
Proof.
  induction runs as [|run runs IH]; intros Hs H; [contradiction H; reflexivity|].
  cbn [forallb] in Hs. apply andb_true_iff in Hs. destruct Hs as [Hs1 Hs2].
  cbn [flat_map]. apply in_or_app.
  unfold Text.lookup in H. fold Text.lookup in H.
  destruct (Text.in_run c run) eqn:E.
  - left. exact (in_run_points c run Hs1 E).
  - right. exact (IH Hs2 H).
Qed.

Lemma lower_point_moved (c : Z) : Text.lower_point c <> c -> In c moved_points.
Proof.
  unfold Text.lower_point, moved_points. intros H. apply in_or_app.
  destruct (c <? 0x80).
  - left. unfold Text.is_upper in H.
    destruct ((65 <=? c) && (c <=? 90)) eqn:E; [|contradiction H; reflexivity].
    apply in_map_iff. exists (Z.to_nat c). split; [lia|].
    apply in_seq. lia.
  - right. exact (lookup_moved _ c lower_runs_steps H).
Qed.

Lemma moved_points_keep : forallb lower_keeps moved_points = true.
Proof. vm_compute. reflexivity. Qed.

(** The simple lower case keeps the class of every character. *)
Lemma lower_keeps_all (c : Z) : lower_keeps c = true.
Proof.
  destruct (Z.eq_dec (Text.lower_point c) c) as [E|N].
  - unfold lower_keeps. cbv zeta. rewrite !E.
    rewrite Bool.eqb_reflx, Z.eqb_refl, orb_true_r.
    destruct (Text.is_scalar c); reflexivity.
  - exact (proj1 (forallb_forall _ _) moved_points_keep c (lower_point_moved c N)).
Qed.

Lemma lower_point_facts (c : Z) :
  Text.is_word (Text.lower_point c) = Text.is_word c
  /\ Text.lower_point (Text.lower_point c) = Text.lower_point c
  /\ (Text.is_scalar c = true -> Text.is_scalar (Text.lower_point c) = true)
  /\ (Text.lower_point c < 0x80 ->
      Text.is_lower (Text.lower_point c) = true \/ Text.lower_point c = c).
Proof.
  pose proof (lower_keeps_all c) as H. unfold lower_keeps in H. cbv zeta in H.
  repeat (apply andb_true_iff in H; destruct H as [H ?]).
  split; [apply Bool.eqb_prop; assumption|].
  split; [lia|].
  split.
  - intros Hs. rewrite Hs in *. assumption.
  - intros Hl.
    match goal with
    | Hk : (_ || _ || _) = true |- _ =>
        apply orb_true_iff in Hk; destruct Hk as [Hk | Hk];
        [apply orb_true_iff in Hk; destruct Hk as [Hk | Hk]; [lia | left; exact Hk]
        | right; lia]
    end.
Qed.

(* ------------------------------------------------------------------ *)
(** ** Characters the search cannot tell apart *)
(* ------------------------------------------------------------------ *)

Lemma lower_point_ascii (p : Z) :
  p < 0x80 -> Text.lower_point p = if Text.is_upper p then p + 32 else p.
Proof. intros H. unfold Text.lower_point. destruct (Z.ltb_spec p 0x80); [reflexivity | lia]. Qed.

Lemma char_eq_lower (a : ascii) (c : Z) :
  Text.code a < 0x80 ->
  Re.char_eq true a (Text.lower_point c) = Re.char_eq true a c.
Proof.
  intros Ha. unfold Re.char_eq. cbv zeta. cbn [andb].
  destruct (lower_point_facts c) as (_ & Hidem & _ & Hland).
  destruct (Text.is_upper (Text.code a) || Text.is_lower (Text.code a)) eqn:El.
  - rewrite Hidem. reflexivity.
  - apply orb_false_iff in El. destruct El as [Eu Elo].
    destruct (Z.eqb_spec (Text.lower_point c) (Text.code a)) as [E|N];
      destruct (Z.eqb_spec c (Text.code a)) as [E'|N']; try reflexivity.
    + exfalso. destruct (Hland ltac:(lia)) as [H|H]; [|lia].
      rewrite E in H. congruence.
    + exfalso. apply N. rewrite E', (lower_point_ascii _ Ha), Eu. reflexivity.
Qed.

Lemma similar_refl (c : Z) : similar c c.
Proof. split; [reflexivity | intros; reflexivity]. Qed.

Lemma similar_sym (c d : Z) : similar c d -> similar d c.
Proof. intros [H1 H2]. split; [auto | intros a Ha; symmetry; auto]. Qed.

Lemma similar_trans (c d e : Z) : similar c d -> similar d e -> similar c e.
Proof.
  intros [H1 H2] [H3 H4]. split; [congruence|].
  intros a Ha. rewrite (H2 a Ha). auto.
Qed.

Lemma similar_lower_point (c : Z) : similar (Text.lower_point c) c.
Proof.
  split; [apply lower_point_facts | intros a Ha; apply char_eq_lower; exact Ha].
Qed.

(** A character whose lower case is outside ASCII and is neither the
    dotless i nor the long s matches no ASCII literal. *)
Lemma char_eq_far (a : ascii) (c : Z) :
  Text.code a < 0x80 ->
  0x80 <= c -> 0x80 <= Text.lower_point c ->
  Text.lower_point c <> 0x131 -> Text.lower_point c <> 0x17F ->
  Re.char_eq true a c = false.
Proof.
  intros Ha Hc Hl H1 H2. unfold Re.char_eq. cbv zeta. cbn [andb].
  pose proof (code_range a) as Hr.
  destruct (Text.is_upper (Text.code a) || Text.is_lower (Text.code a)); [|lia].
  rewrite (lower_point_ascii _ Ha).
  set (lo := if Text.is_upper (Text.code a) then Text.code a + 32 else Text.code a).
  assert (Hlo : lo < 0x80 + 32) by (subst lo; destruct (Text.is_upper _); lia).
  assert (Hlo' : lo < 0x80).
  { subst lo. unfold Text.is_upper in *.
    destruct ((65 <=? Text.code a) && (Text.code a <=? 90)) eqn:E; lia. }
  apply orb_false_iff. split; [lia|].
  unfold Re.extra_cases.
  destruct (lo =? 0x69); [cbn [existsb]; lia|].
  destruct (lo =? 0x73); [cbn [existsb]; lia | reflexivity].
Qed.

Lemma similar_sigma (final : bool) :
  similar (if final then 0x3C2 else 0x3C3) 0x3A3.
Proof.
  split.
  - destruct final; vm_compute; reflexivity.
  - intros a Ha. rewrite (char_eq_far a 0x3A3 Ha); [|lia|vm_compute; discriminate..].
    destruct final; apply char_eq_far; try exact Ha; try lia; vm_compute; discriminate.
Qed.

Lemma word_after_similar (s s' : list Z) (prev prev' : option Z) :
  Forall2 similar s s' -> Re.word_after (prev, s) = Re.word_after (prev', s').
Proof.
  intros H. unfold Re.word_after. cbn [snd].
  destruct H as [|c d l l' [Hw _] _]; [reflexivity | exact Hw].
Qed.

Lemma at_boundary_similar (p q : Re.pos) :
  similar_pos p q -> Re.at_boundary p = Re.at_boundary q.
Proof.
  destruct p as [pp ps], q as [qp qs]. intros [Hw Hs]. cbn [fst snd] in *.
  unfold Re.at_boundary. f_equal.
  - exact Hw.
  - apply word_after_similar. exact Hs.
Qed.

(** The search of two texts that are alike character by character goes
    the same way. *)
Lemma ends_similar (r : Re.regex) :
  ascii_regex r = true ->
  forall p q, similar_pos p q -> Forall2 similar_pos (Re.ends true r p) (Re.ends true r q).
Proof.
  induction r as [| c | | r1 IH1 r2 IH2 | r1 IH1 r2 IH2 | r1 IH1];
    intros Hr p q Hpq; cbn [Re.ends]; cbn [ascii_regex] in Hr.
  - constructor; [exact Hpq | constructor].
  - destruct p as [pp ps], q as [qp qs]. destruct Hpq as [_ Hs]. cbn [fst snd] in *.
    destruct Hs as [|d d' rest rest' Hd Hrest]; [constructor|].
    rewrite (proj2 Hd c) by lia.
    destruct (Re.char_eq true c d'); constructor; [|constructor].
    split; [exact (proj1 Hd) | exact Hrest].
  - rewrite (at_boundary_similar p q Hpq).
    destruct (Re.at_boundary q); constructor; [exact Hpq | constructor].
  - apply andb_true_iff in Hr. destruct Hr as [Hr1 Hr2].
    specialize (IH1 Hr1 p q Hpq).
    induction IH1 as [|x y l l' Hxy _ IHl]; cbn [flat_map]; [constructor|].
    apply Forall2_app; [apply IH2; assumption | exact IHl].
  - apply andb_true_iff in Hr. destruct Hr as [Hr1 Hr2].
    apply Forall2_app; [apply IH1 | apply IH2]; assumption.
  - apply Forall2_app; [apply IH1; assumption|].
    constructor; [exact Hpq | constructor].
Qed.

Lemma matches_at_similar (r : Re.regex) (p q : Re.pos) :
  ascii_regex r = true -> similar_pos p q ->
  Re.matches_at true r p = Re.matches_at true r q.
Proof.
  intros Hr H. unfold Re.matches_at.
  destruct (ends_similar r Hr p q H); reflexivity.
Qed.

Lemma scan_similar (r : Re.regex) (s s' : list Z) :
  ascii_regex r = true ->
  Forall2 similar s s' ->
  forall prev prev',
    word_opt prev = word_opt prev' ->
    Re.scan true r prev s = Re.scan true r prev' s'.
Proof.
  intros Hr H. induction H as [|c d l l' Hcd Hl IH]; intros prev prev' Hp; cbn [Re.scan].
  - rewrite (matches_at_similar r (prev, []) (prev', []) Hr); [reflexivity|].
    split; [exact Hp | constructor].
  - rewrite (matches_at_similar r (prev, c :: l) (prev', d :: l') Hr);
      [|split; [exact Hp | constructor; assumption]].
    f_equal. apply IH. exact (proj1 Hcd).
Qed.

Lemma Forall2_similar_refl (l : list Z) : Forall2 similar l l.
Proof. induction l; constructor; [apply similar_refl | assumption]. Qed.

(* ------------------------------------------------------------------ *)
(** ** Lower-casing a text, and a part of a text *)
(* ------------------------------------------------------------------ *)

Lemma lower_from_within (l before : list Z) :
  Text.lower_from before l = lower_within before l [].
Proof.
  revert before. induction l as [|c l IH]; intros before; [reflexivity|].
  cbn [Text.lower_from lower_within]. rewrite app_nil_r, IH. reflexivity.
Qed.

Lemma lower_within_app (l1 l2 after : list Z) :
  forall before,
    lower_within before (l1 ++ l2) after
    = (lower_within before l1 (l2 ++ after)
       ++ lower_within (rev l1 ++ before) l2 after)%list.
Proof.
  induction l1 as [|c l1 IH]; intros before; [reflexivity|].
  cbn [app lower_within rev]. rewrite IH, <- !app_assoc. cbn [app]. reflexivity.
Qed.

(** The lower case of a part does not depend on the text around it, up
    to the two forms of the small sigma. *)
Lemma lower_within_similar (l : list Z) :
  forall b a b' a',
    Forall2 similar (lower_within b l a) (lower_within b' l a').
Proof.
  induction l as [|c l IH]; intros b a b' a'; cbn [lower_within]; [constructor|].
  apply Forall2_app; [|apply IH].
  destruct (c =? 0x3A3).
  - constructor; [|constructor].
    apply (similar_trans _ 0x3A3); [apply similar_sigma | apply similar_sym, similar_sigma].
  - apply Forall2_similar_refl.
Qed.

(** Without U+0130 the lower case is alike the text itself, character
    by character. *)
Lemma lower_within_alike (l : list Z) :
  ~ In 0x130 l ->
  forall b a, Forall2 similar (lower_within b l a) l.
Proof.
  induction l as [|c l IH]; intros Hfree b a; cbn [lower_within]; [constructor|].
  change (c :: l) with ([c] ++ l)%list.
  apply Forall2_app; [|apply IH; intros H; apply Hfree; right; exact H].
  destruct (Z.eqb_spec c 0x3A3) as [->|N].
  - constructor; [apply similar_sigma | constructor].
  - unfold Text.lower_full.
    destruct (Z.eqb_spec c 0x130) as [->|N']; [exfalso; apply Hfree; left; reflexivity|].
    constructor; [apply similar_lower_point | constructor].
Qed.

Lemma lower_full_scalar (c : Z) :
  Text.is_scalar c = true -> Forall (fun x => Text.is_scalar x = true) (Text.lower_full c).
Proof.
  intros H. unfold Text.lower_full. destruct (c =? 0x130).
  - repeat constructor.
  - constructor; [apply lower_point_facts; exact H | constructor].
Qed.

Lemma lower_within_scalar (l : list Z) :
  Forall (fun x => Text.is_scalar x = true) l ->
  forall b a, Forall (fun x => Text.is_scalar x = true) (lower_within b l a).
Proof.
  induction 1 as [|c l Hc _ IH]; intros b a; cbn [lower_within]; [constructor|].
  apply Forall_app. split; [|apply IH].
  destruct (c =? 0x3A3); [|apply lower_full_scalar; exact Hc].
  destruct (Text.final_sigma _ _); repeat constructor.
Qed.

(** The characters of the lower-cased text. *)
Lemma decode_lower (s : string) :
  Text.decode (Text.lower s) = Text.lower_points (Text.decode s).
Proof.
  unfold Text.lower, Text.lower_points. apply decode_encode.
  rewrite lower_from_within. apply lower_within_scalar, decode_scalar.
Qed.

(* ------------------------------------------------------------------ *)
(** ** The search and the text around a match *)
(* ------------------------------------------------------------------ *)

(** A match stays a match when text that starts outside a word is added
    after the subject. *)
Lemma ends_suffix (ic : bool) (t : list Z) (r : Re.regex) :
  word_opt (first_char t) = false ->
  forall p s q,
    In q (Re.ends ic r (p, s)) ->
    In (fst q, (snd q ++ t)%list) (Re.ends ic r (p, (s ++ t)%list)).
Proof.
  intros Ht. induction r as [| c | | r1 IH1 r2 IH2 | r1 IH1 r2 IH2 | r1 IH1];
    intros p s q Hin; cbn [Re.ends] in *.
  - destruct Hin as [<- | []]. left. reflexivity.
  - cbn [snd] in *. destruct s as [|d s]; cbn [app] in *; [contradiction|].
    destruct (Re.char_eq ic c d); [|contradiction].
    destruct Hin as [<- | []]. left. reflexivity.
  - assert (Hb : Re.at_boundary (p, (s ++ t)%list) = Re.at_boundary (p, s)).
    { unfold Re.at_boundary, Re.word_before, Re.word_after. cbn [fst snd]. f_equal.
      destruct s as [|d s]; cbn [app]; [|reflexivity].
      destruct t; [reflexivity | exact Ht]. }
    rewrite Hb. destruct (Re.at_boundary (p, s)); [|contradiction].
    destruct Hin as [<- | []]. left. reflexivity.
  - apply in_flat_map in Hin. destruct Hin as ([p1 s1] & Hin1 & Hin2).
    apply in_flat_map. exists (p1, (s1 ++ t)%list). split.
    + exact (IH1 p s (p1, s1) Hin1).
    + exact (IH2 p1 s1 q Hin2).
  - apply in_app_or in Hin. apply in_or_app.
    destruct Hin as [Hin | Hin]; [left; apply IH1 | right; apply IH2]; exact Hin.
  - apply in_app_or in Hin. apply in_or_app.
    destruct Hin as [Hin | [<- | []]]; [left; apply IH1; exact Hin | right; left; reflexivity].
Qed.

Lemma matches_at_suffix (ic : bool) (t : list Z) (r : Re.regex) (p : option Z)
  (s : list Z) :
  word_opt (first_char t) = false ->
  Re.matches_at ic r (p, s) = true -> Re.matches_at ic r (p, (s ++ t)%list) = true.
Proof.
  intros Ht. unfold Re.matches_at.
  destruct (Re.ends ic r (p, s)) as [|q l] eqn:E; [discriminate|]. intros _.
  pose proof (ends_suffix ic t r Ht p s q) as H. rewrite E in H.
  specialize (H (or_introl eq_refl)).
  destruct (Re.ends ic r (p, (s ++ t)%list)); [destruct H | reflexivity].
Qed.

Lemma scan_suffix (ic : bool) (t : list Z) (r : Re.regex) (s : list Z) :
  word_opt (first_char t) = false ->
  forall prev, Re.scan ic r prev s = true -> Re.scan ic r prev (s ++ t) = true.
Proof.
  intros Ht. induction s as [|c s IH]; intros prev H.
  - cbn [Re.scan] in H. rewrite orb_false_r in H.
    apply (matches_at_suffix ic t r prev [] Ht) in H. cbn [app] in *.
    destruct t as [|d t]; cbn [Re.scan]; rewrite H; reflexivity.
  - cbn [Re.scan] in H. cbn [app Re.scan]. apply orb_true_iff in H. apply orb_true_iff.
    destruct H as [H | H].
    + left. exact (matches_at_suffix ic t r prev (c :: s) Ht H).
    + right. exact (IH (Some c) H).
Qed.

(** What a pattern can match from a position depends on the character
    behind it only through its class. *)
Lemma ends_same_side (ic : bool) (r : Re.regex) :
  forall p q, same_side p q -> Forall2 same_side (Re.ends ic r p) (Re.ends ic r q).
Proof.
  induction r as [| c | | r1 IH1 r2 IH2 | r1 IH1 r2 IH2 | r1 IH1];
    intros p q Hpq; cbn [Re.ends].
  - constructor; [exact Hpq | constructor].
  - destruct Hpq as [_ Hs]. rewrite Hs.
    destruct (snd q) as [|d rest]; [constructor|].
    destruct (Re.char_eq ic c d); constructor; [|constructor].
    split; reflexivity.
  - assert (Hb : Re.at_boundary p = Re.at_boundary q).
    { destruct p as [pp ps], q as [qp qs]. destruct Hpq as [Hw Hs]. cbn [fst snd] in Hw, Hs.
      unfold Re.at_boundary, Re.word_before, Re.word_after. cbn [fst snd].
      unfold word_opt in Hw. rewrite Hs. f_equal. exact Hw. }
    rewrite Hb. destruct (Re.at_boundary q); constructor; [exact Hpq | constructor].
  - specialize (IH1 p q Hpq).
    induction IH1 as [|x y l l' Hxy _ IHl]; cbn [flat_map]; [constructor|].
    apply Forall2_app; [apply IH2; exact Hxy | exact IHl].
  - apply Forall2_app; [apply IH1 | apply IH2]; exact Hpq.
  - apply Forall2_app; [apply IH1; exact Hpq|].
    constructor; [exact Hpq | constructor].
Qed.

Lemma matches_at_same_side (ic : bool) (r : Re.regex) (p q : Re.pos) :
  same_side p q -> Re.matches_at ic r p = Re.matches_at ic r q.
Proof.
  intros H. unfold Re.matches_at.
  destruct (ends_same_side ic r p q H); reflexivity.
Qed.

Lemma scan_same_side (ic : bool) (r : Re.regex) (s : list Z) (prev prev' : option Z) :
  word_opt prev = word_opt prev' -> Re.scan ic r prev s = Re.scan ic r prev' s.
Proof.
  intros H. destruct s as [|c s]; cbn [Re.scan].
  - rewrite (matches_at_same_side ic r (prev, []) (prev', []));
      [reflexivity | split; [exact H | reflexivity]].
  - rewrite (matches_at_same_side ic r (prev, c :: s) (prev', c :: s));
      [reflexivity | split; [exact H | reflexivity]].
Qed.

(** A match stays a match when text that ends outside a word is put
    before the subject. *)
Lemma scan_prefix (ic : bool) (r : Re.regex) (s : list Z) (pre : list Z) :
  forall prev,
    word_opt (last_char prev pre) = false ->
    Re.scan ic r None s = true -> Re.scan ic r prev (pre ++ s) = true.
Proof.
  induction pre as [|c pre IH]; intros prev Hlast H; cbn [app last_char] in *.
  - rewrite (scan_same_side ic r s prev None); [exact H | exact Hlast].
  - cbn [Re.scan]. apply orb_true_iff. right. exact (IH (Some c) Hlast H).
Qed.

Lemma scan_padded (r : Re.regex) (pre text post : list Z) :
  word_opt (last_char None pre) = false ->
  word_opt (first_char post) = false ->
  Re.scan true r None text = true ->
  Re.scan true r None (pre ++ text ++ post) = true.
Proof.
  intros Hpre Hpost H.
  apply scan_prefix; [exact Hpre|].
  apply scan_suffix; [exact Hpost | exact H].
Qed.

Lemma last_char_app (prev : option Z) (a b : list Z) :
  last_char prev (a ++ b) = last_char (last_char prev a) b.
Proof.
  revert prev. induction a as [|c a IH]; intros prev; cbn [app last_char];
    [reflexivity | apply IH].
Qed.

(** A character outside [\w] has one lower-case character, outside
    [\w] too. *)
Lemma lower_outside_word (c : Z) (b a : list Z) :
  Text.is_word c = false ->
  exists d, lower_within b [c] a = [d] /\ Text.is_word d = false.
Proof.
  intros H. cbn [lower_within]. rewrite app_nil_r.
  destruct (Z.eqb_spec c 0x3A3) as [->|_]; [vm_compute in H; discriminate|].
  unfold Text.lower_full.
  destruct (Z.eqb_spec c 0x130) as [->|_]; [vm_compute in H; discriminate|].
  exists (Text.lower_point c). split; [reflexivity|].
  rewrite (proj1 (lower_point_facts c)). exact H.
Qed.

Lemma lower_within_cons (c : Z) (l b a : list Z) :
  lower_within b (c :: l) a
  = (lower_within b [c] (l ++ a) ++ lower_within (c :: b) l a)%list.
Proof. exact (lower_within_app [c] l a b). Qed.

Lemma last_char_lower_within (l : list Z) :
  forall b a prev prev',
    (word_opt prev = false -> word_opt prev' = false) ->
    word_opt (last_char prev l) = false ->
    word_opt (last_char prev' (lower_within b l a)) = false.
Proof.
  induction l as [|c l IH]; intros b a prev prev' Hp H.
  - cbn [lower_within last_char] in *. auto.
  - rewrite lower_within_cons, last_char_app. cbn [last_char] in H.
    apply (IH _ _ (Some c)); [|exact H].
    intros Hc. cbn [word_opt] in Hc.
    destruct (lower_outside_word c b (l ++ a) Hc) as (d & -> & Hd).
    exact Hd.
Qed.

Lemma first_char_lower_within (l b a : list Z) :
  word_opt (first_char l) = false ->
  word_opt (first_char (lower_within b l a)) = false.
Proof.
  destruct l as [|c l]; [auto|]. cbn [first_char word_opt]. intros Hc.
  rewrite lower_within_cons.
  destruct (lower_outside_word c b (l ++ a) Hc) as (d & -> & Hd).
  exact Hd.
Qed.

(** A match in the lower case of a text is found again in the lower case
    of a longer text, when the added text ends, and starts, outside a
    word. *)
Lemma lower_padded (r : Re.regex) (pre text post : list Z) :
  ascii_regex r = true ->
  word_opt (last_char None pre) = false ->
  word_opt (first_char post) = false ->
  Re.scan true r None (Text.lower_points text) = true ->
  Re.scan true r None (Text.lower_points (pre ++ text ++ post)) = true.
Proof.
  intros Hr Hpre Hpost H. unfold Text.lower_points in *.
  rewrite lower_from_within in *.
  rewrite lower_within_app, lower_within_app.
  set (A := lower_within [] pre ((text ++ post) ++ [])).
  set (B := lower_within (rev text ++ rev pre ++ []) post []).
  rewrite (scan_similar r
             (A ++ lower_within (rev pre ++ []) text (post ++ []) ++ B)
             (A ++ lower_within [] text [] ++ B) Hr) with (prev' := None).
  - apply scan_padded; [| |exact H].
    + exact (last_char_lower_within pre _ _ None None (fun x => x) Hpre).
    + apply first_char_lower_within. exact Hpost.
  - apply Forall2_app; [apply Forall2_similar_refl|].
    apply Forall2_app; [apply lower_within_similar | apply Forall2_similar_refl].
  - reflexivity.
Qed.

(* ------------------------------------------------------------------ *)
(** ** The filter: the loop over the patterns *)
(* ------------------------------------------------------------------ *)

Lemma patterns_compile (category pattern : string) :
  In (category, pattern) BLOCKED_PATTERNS -> exists r, Re.compile pattern = Some r.
Proof.
  intros H. unfold BLOCKED_PATTERNS in H. simpl in H.
  repeat (destruct H as [H|H]; [inversion H; subst; eexists; vm_compute; reflexivity|]).
  contradiction.
Qed.

Lemma patterns_ascii (category pattern : string) (r : Re.regex) :
  In (category, pattern) BLOCKED_PATTERNS ->
  Re.compile pattern = Some r -> ascii_regex r = true.
Proof.
  intros H. unfold BLOCKED_PATTERNS in H. simpl in H.
  repeat (destruct H as [H|H];
          [inversion H; subst; intros Hc; vm_compute in Hc; injection Hc as <-;
           vm_compute; reflexivity|]).
  contradiction.
Qed.

(** Searching the lower case of a text without U+0130 with
    [re.IGNORECASE] finds what the search of the text itself finds. *)
Lemma search_lower (category pattern text : string) :
  In (category, pattern) BLOCKED_PATTERNS ->
  free_of_dotted_capital text ->
  Re.search pattern (Text.lower text) true = Re.search pattern text true.
Proof.
  intros Hin Hfree. unfold Re.search.
  destruct (Re.compile pattern) as [r|] eqn:Hc; [|reflexivity].
  f_equal. rewrite decode_lower. unfold Text.lower_points. rewrite lower_from_within.
  apply scan_similar; [exact (patterns_ascii _ _ r Hin Hc) | | reflexivity].
  apply lower_within_alike. exact Hfree.
Qed.

Lemma no_match_search (category pattern text : string) :
  In (category, pattern) BLOCKED_PATTERNS ->
  ~ matches_ci pattern text ->
  Re.search pattern text true = Some false.
Proof.
  intros Hin Hno. destruct (patterns_compile _ _ Hin) as [r Hr].
  unfold matches_ci, Re.search in *. rewrite Hr in *.
  destruct (Re.scan true r None (Text.decode text));
    [exfalso; apply Hno; reflexivity | reflexivity].
Qed.

Lemma validate_loop_first (before after : list (string * string))
  (category pattern text : string) :
  (forall c p, In (c, p) before -> Re.search p text true = Some false) ->
  Re.search pattern text true = Some true ->
  validate_loop (before ++ (category, pattern) :: after)%list text
  = Some (false, rejection_message category).
Proof.
  induction before as [|[c p] before IH]; intros Hbefore Hhit; simpl.
  - rewrite Hhit. reflexivity.
  - rewrite (Hbefore c p (or_introl eq_refl)).
    apply IH; [|exact Hhit].
    intros c' p' Hin. apply (Hbefore c' p'). right. exact Hin.
Qed.

Lemma validate_loop_none (items : list (string * string)) (text : string) :
  (forall c p, In (c, p) items -> Re.search p text true = Some false) ->
  validate_loop items text = Some (true, "").
Proof.
  induction items as [|[c p] items IH]; intros Hall; simpl; [reflexivity|].
  rewrite (Hall c p (or_introl eq_refl)).
  apply IH. intros c' p' Hin. apply (Hall c' p'). right. exact Hin.
Qed.

Lemma validate_loop_total (items : list (string * string)) (text : string) :
  (forall c p, In (c, p) items -> exists r, Re.compile p = Some r) ->
  exists verdict, validate_loop items text = Some verdict.
Proof.
  induction items as [|[c p] items IH]; intros Hall; simpl; [eauto|].
  destruct (Hall c p (or_introl eq_refl)) as [r Hr].
  unfold Re.search. rewrite Hr.
  destruct (Re.scan true r None (Text.decode text)); [eauto|].
  apply IH. intros c' p' Hin. apply (Hall c' p'). right. exact Hin.
Qed.

(** [validate_prompt] never fails on a bad pattern. *)
Lemma validate_prompt_total (cfg : Config) (text : string) :
  exists verdict, validate_prompt cfg text = Some verdict.
Proof.
  unfold validate_prompt. destruct (negb (ENABLE_SAFETY cfg)); [eauto|].
  apply validate_loop_total. exact patterns_compile.
Qed.

(** C3 (as amended). With the safety filter enabled, the text is
    lower-cased with [str.lower] and the patterns are tried on the
    result: when it matches the pattern of some category and none of the
    patterns declared before it, the text is rejected with the message
    naming that category (the first matching category in declaration
    order wins), and when it matches no pattern the text is allowed.
    For a text without the character U+0130 this is the same as trying
    the patterns on the text itself, letter case ignored; a text with
    U+0130 can be classified otherwise, as "a CH[U+0130]LD playing",
    which matches the pattern of the category illegal, letter case
    ignored, and is allowed.  With the filter disabled every text is
    allowed. *)
Theorem classify_first_match (cfg : Config) (text : string) :
  (ENABLE_SAFETY cfg = true ->
   forall (before after : list (string * string)) (category pattern : string),
     BLOCKED_PATTERNS = (before ++ (category, pattern) :: after)%list ->
     matches_ci pattern (Text.lower text) ->
     (forall c p, In (c, p) before -> ~ matches_ci p (Text.lower text)) ->
     validate_prompt cfg text
     = Some (false, "Prompt rejected: " ++ category ++ " content not allowed"))
  /\ (ENABLE_SAFETY cfg = true ->
      (forall c p, In (c, p) BLOCKED_PATTERNS -> ~ matches_ci p (Text.lower text)) ->
      validate_prompt cfg text = Some (true, ""))
  /\ (ENABLE_SAFETY cfg = false -> validate_prompt cfg text = Some (true, ""))
  /\ (free_of_dotted_capital text ->
      forall c p,
        In (c, p) BLOCKED_PATTERNS ->
        (matches_ci p (Text.lower text) <-> matches_ci p text))
  /\ (ENABLE_SAFETY cfg = true ->
      let dotted := "a CH" ++ Text.encode [0x130] ++ "LD playing" in
      matches_ci "\b(child|minor|kid|forced|non-?consensual|rape)\b" dotted
      /\ validate_prompt cfg dotted = Some (true, "")).
Proof.
  unfold validate_prompt. split; [|split; [|split; [|split]]].
  - intros Hon before after category pattern Hsplit Hhit Hbefore.
    rewrite Hon. simpl negb. cbv iota. rewrite Hsplit.
    apply validate_loop_first.
    + intros c p Hin.
      apply (no_match_search c); [|exact (Hbefore c p Hin)].
      rewrite Hsplit. apply in_or_app. left. exact Hin.
    + exact Hhit.
  - intros Hon Hnone. rewrite Hon. simpl negb. cbv iota.
    apply validate_loop_none.
    intros c p Hin.
    apply (no_match_search c); [exact Hin | exact (Hnone c p Hin)].
  - intros Hoff. rewrite Hoff. reflexivity.
  - intros Hfree c p Hin. unfold matches_ci.
    rewrite (search_lower c p text Hin Hfree). reflexivity.
  - intros Hon. rewrite Hon. cbv zeta. split; vm_compute; reflexivity.
Qed.

Lemma classify_first_match_witness :
  validate_prompt default_config "a photo of Taylor Swift at the beach"
  = Some (false, "Prompt rejected: celebrities content not allowed")
  /\ validate_prompt default_config "Girl in a School Uniform"
     = Some (false, "Prompt rejected: age_down content not allowed")
  /\ validate_prompt default_config "a mountain landscape at sunset" = Some (true, "")
  /\ validate_prompt (safety_off default_config) "a photo of taylor swift" = Some (true, "")
  /\ (matches_ci "\b(child|minor|kid|forced|non-?consensual|rape)\b"
        (Text.lower "two KIDS and a Kid")
      <-> matches_ci "\b(child|minor|kid|forced|non-?consensual|rape)\b"
            "two KIDS and a Kid").
Proof.
  split; [|split; [|split; [|split]]].
  - apply (proj1 (classify_first_match default_config _) eq_refl
             [] _ "celebrities" _ eq_refl).
    + vm_compute. reflexivity.
    + intros c p [].
  - apply (proj1 (classify_first_match default_config _) eq_refl
             (firstn 3 BLOCKED_PATTERNS) _ "age_down" _ eq_refl).
    + vm_compute. reflexivity.
    + intros c p Hin. simpl in Hin.
      repeat (destruct Hin as [Hin|Hin];
              [inversion Hin; subst; vm_compute; discriminate|]).
      contradiction.
  - apply (proj1 (proj2 (classify_first_match default_config _)) eq_refl).
    intros c p Hin. unfold BLOCKED_PATTERNS in Hin. simpl in Hin.
    repeat (destruct Hin as [Hin|Hin];
            [inversion Hin; subst; vm_compute; discriminate|]).
    contradiction.
  - apply (proj1 (proj2 (proj2 (classify_first_match (safety_off default_config) _)))
             eq_refl).
  - apply (proj1 (proj2 (proj2 (proj2 (classify_first_match default_config
                                         "two KIDS and a Kid")))))
      with (c := "illegal").
    + unfold free_of_dotted_capital. vm_compute. intuition discriminate.
    + do 6 right. left. reflexivity.
Defined.

(** C3, the claim as first stated fails on U+0130, whose lower case is
    the two characters [i] and U+0307: "a CH[U+0130]LD playing" matches
    the pattern of the category illegal, letter case ignored, and is
    allowed, since its lower case no longer holds the word; and
    "x[U+0130]teen" matches no pattern and is rejected, since in its
    lower case the combining dot ends the word before "teen". *)
Lemma dotted_capital_changes_the_verdict :
  let hidden := "a CH" ++ Text.encode [0x130] ++ "LD playing" in
  let exposed := "x" ++ Text.encode [0x130] ++ "teen" in
  In ("illegal", "\b(child|minor|kid|forced|non-?consensual|rape)\b") BLOCKED_PATTERNS
  /\ matches_ci "\b(child|minor|kid|forced|non-?consensual|rape)\b" hidden
  /\ validate_prompt default_config hidden = Some (true, "")
  /\ (forall c p, In (c, p) BLOCKED_PATTERNS -> ~ matches_ci p exposed)
  /\ validate_prompt default_config exposed
     = Some (false, "Prompt rejected: age_down content not allowed").
Proof.
  cbv zeta. split; [do 6 right; left; reflexivity|].
  split; [vm_compute; reflexivity|].
  split; [vm_compute; reflexivity|].
  split; [|vm_compute; reflexivity].
  intros c p Hin. unfold BLOCKED_PATTERNS in Hin. simpl in Hin.
  repeat (destruct Hin as [Hin|Hin];
          [inversion Hin; subst; vm_compute; discriminate|]).
  contradiction.
Qed.

(* ------------------------------------------------------------------ *)
(** ** Trimming and the negative-prompt composer *)
(* ------------------------------------------------------------------ *)

Lemma append_length (a b : string) :
  String.length (a ++ b) = (String.length a + String.length b)%nat.
Proof. induction a as [|x a IH]; simpl; [reflexivity | rewrite IH; reflexivity]. Qed.

Lemma rstrip_points_append (a b : list Z) :
  b <> [] -> Text.rstrip_points b = b -> Text.rstrip_points (a ++ b) = (a ++ b)%list.
Proof.
  intros Hne Hb. induction a as [|x a IH]; cbn [app Text.rstrip_points]; [exact Hb|].
  rewrite IH. destruct (a ++ b)%list eqn:E; [|reflexivity].
  destruct a; cbn [app] in E; [contradiction | discriminate].
Qed.

Lemma lstrip_points_append (a b : list Z) :
  Text.lstrip_points b = b ->
  Text.lstrip_points (a ++ b) = (Text.lstrip_points a ++ b)%list.
Proof.
  intros Hb. induction a as [|x a IH]; cbn [app Text.lstrip_points]; [exact Hb|].
  destruct (Text.is_space x); [exact IH | reflexivity].
Qed.

Lemma substring_append (a b : string) :
  substring (String.length a) (String.length b) (a ++ b) = b.
Proof.
  induction a as [|x a IH]; simpl; [|exact IH].
  induction b as [|y b IHb]; simpl; [reflexivity|].
  rewrite IHb. reflexivity.
Qed.

Lemma endswith_append (a b : string) : Text.endswith (a ++ b) b = true.
Proof.
  unfold Text.endswith. rewrite append_length.
  replace (String.length a + String.length b - String.length b)%nat
    with (String.length a) by lia.
  rewrite substring_append, String.eqb_refl.
  rewrite andb_true_r. apply Nat.leb_le. lia.
Qed.

Lemma prefix_refl (b : string) : String.prefix b b = true.
Proof.
  induction b as [|y b IH]; simpl; [reflexivity|].
  destruct (ascii_dec y y) as [_|N]; [exact IH | contradiction].
Qed.

Lemma contains_append (a b : string) : Text.contains (a ++ b) b = true.
Proof.
  induction a as [|x a IH].
  - destruct b as [|y b]; [reflexivity|].
    change (Text.contains ("" ++ String y b) (String y b))
      with (if String.prefix (String y b) (String y b) then true
            else Text.contains b (String y b)).
    rewrite prefix_refl. reflexivity.
  - change (Text.contains (String x a ++ b) b)
      with (if String.prefix b (String x (a ++ b)) then true else Text.contains (a ++ b) b).
    rewrite IH. destruct (String.prefix b _); reflexivity.
Qed.

(** The constant of the source, trimmed, is the mandatory block. *)
Lemma mandatory_block_value : Text.strip GLOBAL_NEGATIVE_PROMPT = mandatory_block.
Proof. vm_compute. reflexivity. Qed.

Lemma separator_block_trimmed :
  Text.lstrip_points (Text.decode (", " ++ mandatory_block))
  = Text.decode (", " ++ mandatory_block)
  /\ Text.rstrip_points (Text.decode (", " ++ mandatory_block))
     = Text.decode (", " ++ mandatory_block)
  /\ Text.encode (Text.decode (", " ++ mandatory_block)) = (", " ++ mandatory_block)%string
  /\ Text.strip mandatory_block = mandatory_block.
Proof. vm_compute. auto. Qed.

(** Trimming a text that goes on with the separator and the block trims
    its left end only. *)
Lemma strip_before_block (negative : string) :
  Text.strip (negative ++ ", " ++ mandatory_block)
  = (Text.lstrip negative ++ ", " ++ mandatory_block)%string.
Proof.
  destruct separator_block_trimmed as (Hl & Hr & He & _).
  unfold Text.strip, Text.lstrip.
  change (negative ++ ", " ++ mandatory_block)%string
    with (negative ++ String "," (" " ++ mandatory_block))%string.
  rewrite decode_append_ascii by (vm_compute; reflexivity).
  change (String "," (" " ++ mandatory_block)) with (", " ++ mandatory_block)%string.
  rewrite (lstrip_points_append _ _ Hl).
  rewrite rstrip_points_append; [| |exact Hr].
  - rewrite encode_append, He. reflexivity.
  - vm_compute. discriminate.
Qed.

(** What the composer returns, in closed form. *)
Lemma combined_negative_value (prompt negative : string) :
  snd (build_safe_prompt prompt negative)
  = match negative with
    | EmptyString => mandatory_block
    | _ => (Text.lstrip negative ++ ", " ++ mandatory_block)%string
    end.
Proof.
  unfold build_safe_prompt. cbv zeta. unfold snd.
  rewrite mandatory_block_value.
  destruct negative as [|c negative]; [apply separator_block_trimmed|].
  cbn [Text.truthy]. apply strip_before_block.
Qed.

(** C4. For every user-supplied negative prompt, the empty one included,
    the composed negative prompt ends with the mandatory block verbatim
    (the seven lines of terms of [GLOBAL_NEGATIVE_PROMPT], written out
    below) and so contains it; for a non-empty user negative it is the
    user terms (leading whitespace trimmed), a comma and a space, then the
    mandatory block, and it is the trimmed concatenation; for the empty
    one it is the mandatory block alone. *)
Theorem compose_ends_with_mandatory_block (prompt negative : string) :
  let block :=
    ("celebrity, famous person, actor, actress, influencer, model," ++ Text.LF ++
     "real person, known face, instagram face, tiktok face," ++ Text.LF ++
     "beauty filter, airbrushed skin, plastic skin," ++ Text.LF ++
     "anime, illustration, painting, cgi, 3d render," ++ Text.LF ++
     "teen, teenage, young-looking, childlike, youthful face," ++ Text.LF ++
     "school uniform, student, cosplay," ++ Text.LF ++
     "distorted face, extra fingers, deformed eyes")%string in
  let combined := snd (build_safe_prompt prompt negative) in
  Text.endswith combined block = true
  /\ (exists user_part, combined = (user_part ++ block)%string)
  /\ Text.contains combined block = true
  /\ (negative <> "" ->
      combined = (Text.lstrip negative ++ ", " ++ block)%string
      /\ combined = Text.strip (negative ++ ", " ++ block))
  /\ (negative = "" -> combined = block).
Proof.
  cbv zeta. fold mandatory_block. rewrite combined_negative_value.
  destruct negative as [|c negative].
  - split; [apply (endswith_append "")|].
    split; [exists ""; reflexivity|].
    split; [apply (contains_append "")|].
    split; [intros H; contradiction H; reflexivity | reflexivity].
  - rewrite <- append_assoc.
    split; [apply endswith_append|].
    split; [eexists; reflexivity|].
    split; [apply contains_append|].
    split; [|discriminate].
    intros _. rewrite append_assoc. split; [reflexivity|].
    symmetry. apply strip_before_block.
Qed.

Lemma compose_ends_with_mandatory_block_witness :
  snd (build_safe_prompt "a cat" "  blurry, low quality")
  = ("blurry, low quality, " ++ mandatory_block)%string
  /\ snd (build_safe_prompt "a cat" (Text.encode [0xA0] ++ "blurry"))
     = ("blurry, " ++ mandatory_block)%string
  /\ snd (build_safe_prompt "a cat" "") = mandatory_block.
Proof.
  split; [|split].
  - apply (proj1 (proj2 (proj2 (proj2
             (compose_ends_with_mandatory_block "a cat" "  blurry, low quality"))))).
    discriminate.
  - apply (proj1 (proj2 (proj2 (proj2
             (compose_ends_with_mandatory_block "a cat"
                (Text.encode [0xA0] ++ "blurry")))))).
    vm_compute. discriminate.
  - apply (proj2 (proj2 (proj2 (proj2 (compose_ends_with_mandatory_block "a cat" ""))))).
    reflexivity.
Defined.

(* ------------------------------------------------------------------ *)
(** ** The workflow builder *)
(* ------------------------------------------------------------------ *)

Lemma assoc_update_keys (key : string) (f : json -> json) (m : list (string * json)) :
  map fst (assoc_update key f m) = map fst m.
Proof.
  induction m as [|[k v] m IH]; simpl; [reflexivity|].
  destruct (String.eqb key k); simpl; [reflexivity | rewrite IH; reflexivity].
Qed.

Lemma assoc_update_other (key key' : string) (f : json -> json) (m : list (string * json)) :
  key' <> key -> Py.assoc key' (assoc_update key f m) = Py.assoc key' m.
Proof.
  intros Hne. induction m as [|[k v] m IH]; simpl; [reflexivity|].
  destruct (String.eqb key k) eqn:E; simpl.
  - apply String.eqb_eq in E. subst k.
    destruct (String.eqb key' key) eqn:E'; [|reflexivity].
    apply String.eqb_eq in E'. contradiction.
  - destruct (String.eqb key' k); [reflexivity | exact IH].
Qed.

Lemma assoc_update_same (key : string) (f : json -> json) (m : list (string * json)) :
  Py.assoc key (assoc_update key f m) = option_map f (Py.assoc key m).
Proof.
  induction m as [|[k v] m IH]; simpl; [reflexivity|].
  destruct (String.eqb key k) eqn:E; simpl; rewrite E; [reflexivity | exact IH].
Qed.

Lemma field_update_other (key key' : string) (f : json -> json) (j : json) :
  key' <> key -> field key' (update_at key f j) = field key' j.
Proof.
  intros Hne. destruct j; simpl; try reflexivity.
  apply assoc_update_other. exact Hne.
Qed.

Lemma field_update_same (key : string) (f : json -> json) (j : json) :
  field key (update_at key f j) = option_map f (field key j).
Proof. destruct j; simpl; try reflexivity. apply assoc_update_same. Qed.

(** Frame properties of [set_input], for every graph. *)
Lemma set_input_node_ids (node key : string) (v g : json) :
  node_ids (set_input node key v g) = node_ids g.
Proof. destruct g; simpl; try reflexivity. apply assoc_update_keys. Qed.

Lemma set_input_other_node (node key node' : string) (v g : json) :
  node' <> node -> node_of (set_input node key v g) node' = node_of g node'.
Proof. intros Hne. unfold node_of, set_input. apply field_update_other. exact Hne. Qed.

Lemma set_input_class (node key node' : string) (v g : json) :
  class_of (set_input node key v g) node' = class_of g node'.
Proof.
  unfold class_of, node_of, set_input.
  destruct (string_dec node' node) as [->|Hne].
  - rewrite field_update_same. destruct (field node g) as [n|]; simpl; [|reflexivity].
    apply field_update_other. discriminate.
  - rewrite field_update_other by exact Hne. reflexivity.
Qed.

Lemma set_input_other_input (node key node' key' : string) (v g : json) :
  (node', key') <> (node, key) ->
  input_of (set_input node key v g) node' key' = input_of g node' key'.
Proof.
  intros Hne. unfold input_of, node_of, set_input.
  destruct (string_dec node' node) as [->|Hn].
  - rewrite field_update_same. destruct (field node g) as [n|]; simpl; [|reflexivity].
    rewrite field_update_same. destruct (field "inputs" n) as [i|]; simpl; [|reflexivity].
    apply field_update_other. intros ->. apply Hne. reflexivity.
  - rewrite field_update_other by exact Hn. reflexivity.
Qed.

Lemma set_input_input_names (node key node' : string) (v g : json) :
  input_names (set_input node key v g) node' = input_names g node'.
Proof.
  unfold input_names, node_of, set_input.
  destruct (string_dec node' node) as [->|Hn].
  - rewrite field_update_same. destruct (field node g) as [n|]; simpl; [|reflexivity].
    rewrite field_update_same. destruct (field "inputs" n) as [[]|]; simpl; try reflexivity.
    rewrite assoc_update_keys. reflexivity.
  - rewrite field_update_other by exact Hn. reflexivity.
Qed.

(** Changing the seed or the prompt argument is one [set_input]. *)
Lemma build_seed_is_set_input (p n : string) (seed1 seed2 steps : Z) (cfg : Q)
  (width height : Z) (model : string) :
  build_comfyui_workflow p n seed2 steps cfg width height model
  = set_input "3" "seed" (JInt seed2)
      (build_comfyui_workflow p n seed1 steps cfg width height model).
Proof. reflexivity. Qed.

Lemma build_prompt_is_set_input (p1 p2 n : string) (seed steps : Z) (cfg : Q)
  (width height : Z) (model : string) :
  build_comfyui_workflow p2 n seed steps cfg width height model
  = set_input "6" "text" (JStr p2)
      (build_comfyui_workflow p1 n seed steps cfg width height model).
Proof. reflexivity. Qed.

(** C8. The builder is a function of its arguments: equal arguments give
    equal graphs.  Two graphs built from arguments that differ only in the
    seed have the same node ids, the same class and the same input names
    at every node, and the same value at every input except the input
    "seed" of the sampler node "3", which holds the respective seed (the
    node ids and the links between nodes do not depend on the arguments
    at all); the
    same holds for arguments differing only in the prompt, with the input
    "text" of the positive encoder node "6". *)
Theorem build_frame (p p' n : string) (seed seed' steps : Z) (cfg : Q)
  (width height : Z) (model : string) :
  let build := fun p s => build_comfyui_workflow p n s steps cfg width height model in
  (forall p2 s2, p2 = p -> s2 = seed -> build p2 s2 = build p seed)
  /\ node_ids (build p seed) = ["3"; "4"; "5"; "6"; "7"; "8"; "9"]
  /\ wiring (build p seed)
     = [("3", "model", link "4" 0); ("3", "positive", link "6" 0);
        ("3", "negative", link "7" 0); ("3", "latent_image", link "5" 0);
        ("6", "clip", link "4" 1); ("7", "clip", link "4" 1);
        ("8", "samples", link "3" 0); ("8", "vae", link "4" 2);
        ("9", "images", link "8" 0)]
  /\ (build p seed' = set_input "3" "seed" (JInt seed') (build p seed)
      /\ node_ids (build p seed') = node_ids (build p seed)
      /\ input_of (build p seed') "3" "seed" = Some (JInt seed')
      /\ forall node key,
           class_of (build p seed') node = class_of (build p seed) node
           /\ input_names (build p seed') node = input_names (build p seed) node
           /\ ((node, key) <> ("3", "seed") ->
               input_of (build p seed') node key = input_of (build p seed) node key))
  /\ (build p' seed = set_input "6" "text" (JStr p') (build p seed)
      /\ node_ids (build p' seed) = node_ids (build p seed)
      /\ input_of (build p' seed) "6" "text" = Some (JStr p')
      /\ forall node key,
           class_of (build p' seed) node = class_of (build p seed) node
           /\ input_names (build p' seed) node = input_names (build p seed) node
           /\ ((node, key) <> ("6", "text") ->
               input_of (build p' seed) node key = input_of (build p seed) node key)).
Proof.
  cbv zeta. split; [intros p2 s2 -> ->; reflexivity|].
  split; [reflexivity|].
  split; [reflexivity|].
  split.
  - rewrite (build_seed_is_set_input p n seed seed').
    split; [reflexivity|]. split; [apply set_input_node_ids|].
    split; [reflexivity|]. intros node key.
    split; [apply set_input_class|].
    split; [apply set_input_input_names | apply set_input_other_input].
  - rewrite (build_prompt_is_set_input p p' n).
    split; [reflexivity|]. split; [apply set_input_node_ids|].
    split; [reflexivity|]. intros node key.
    split; [apply set_input_class|].
    split; [apply set_input_input_names | apply set_input_other_input].
Qed.

Lemma build_frame_witness :
  input_of (build_comfyui_workflow "a cat" "blurry" 7 32 (6 # 1) 1024 1024 "m") "3" "steps"
  = input_of (build_comfyui_workflow "a cat" "blurry" 42 32 (6 # 1) 1024 1024 "m") "3" "steps"
  /\ input_of (build_comfyui_workflow "a dog" "blurry" 42 32 (6 # 1) 1024 1024 "m") "7" "text"
     = input_of (build_comfyui_workflow "a cat" "blurry" 42 32 (6 # 1) 1024 1024 "m") "7" "text"
  /\ build_comfyui_workflow "a cat" "blurry" 42 32 (6 # 1) 1024 1024 "m"
     = build_comfyui_workflow "a cat" "blurry" 42 32 (6 # 1) 1024 1024 "m".
Proof.
  pose proof (build_frame "a cat" "a dog" "blurry" 42 7 32 (6 # 1) 1024 1024 "m") as H.
  cbv zeta in H. destruct H as [Hsame [_ [_ [[_ [_ [_ Hseed]]] [_ [_ [_ Hprompt]]]]]]].
  split; [|split].
  - apply (proj2 (proj2 (Hseed "3" "steps"))). discriminate.
  - apply (proj2 (proj2 (Hprompt "7" "text"))). discriminate.
  - apply Hsame; reflexivity.
Defined.

(* ------------------------------------------------------------------ *)
(** ** Computations: totality and what they add to the trace *)
(* ------------------------------------------------------------------ *)

Section Emits.

Context {A B : Type} (P : event -> Prop).

Lemma emits_ret (a : A) : emits P (ret a).
Proof. intros env w. exists (Ok a), w, []. repeat split; auto; lia. Qed.

Lemma emits_raise (e : exn) : emits P (@raise A e).
Proof. intros env w. exists (Raise e), w, []. repeat split; auto; lia. Qed.

Lemma emits_lift (r : result A) : emits P (lift r).
Proof. destruct r; [apply emits_ret | apply emits_raise]. Qed.

Lemma emits_bind (m : M A) (k : A -> M B) :
  emits P m -> (forall a, emits P (k a)) -> emits P (bind m k).
Proof.
  intros Hm Hk env w. unfold bind.
  destruct (Hm env w) as (r & w1 & added1 & -> & Ht1 & HP1 & Hc1).
  destruct r as [a|e].
  - destruct (Hk a env w1) as (r & w2 & added2 & -> & Ht2 & HP2 & Hc2).
    exists r, w2, (added2 ++ added1)%list. split; [reflexivity|].
    split; [rewrite Ht2, Ht1, app_assoc; reflexivity|].
    split; [apply Forall_app; split; assumption | lia].
  - exists (Raise e), w1, added1. auto.
Qed.

Lemma emits_try (m : M A) (catches : exn -> bool) (handler : exn -> M A) :
  emits P m -> (forall e, emits P (handler e)) -> emits P (try_except m catches handler).
Proof.
  intros Hm Hh env w. unfold try_except.
  destruct (Hm env w) as (r & w1 & added1 & -> & Ht1 & HP1 & Hc1).
  destruct r as [a|e].
  - exists (Ok a), w1, added1. auto.
  - destruct (catches e).
    + destruct (Hh e env w1) as (r & w2 & added2 & -> & Ht2 & HP2 & Hc2).
      exists r, w2, (added2 ++ added1)%list. split; [reflexivity|].
      split; [rewrite Ht2, Ht1, app_assoc; reflexivity|].
      split; [apply Forall_app; split; assumption | lia].
    + exists (Raise e), w1, added1. auto.
Qed.

End Emits.

Lemma emits_weaken {A : Type} (P Q : event -> Prop) (m : M A) :
  (forall e, P e -> Q e) -> emits P m -> emits Q m.
Proof.
  intros HPQ Hm env w.
  destruct (Hm env w) as (r & w' & added & Hrun & Ht & HP & Hc).
  exists r, w', added. repeat split; auto.
  eapply Forall_impl; [exact HPQ | exact HP].
Qed.

Lemma emits_send (P : event -> Prop) (rq : request) :
  (forall o, P (EvHttp rq o)) -> emits P (send rq).
Proof.
  intros HP env w. unfold send.
  destruct (http env (w_steps w) rq) as [o dt] eqn:E.
  destruct o as [r|cls msg]; eexists _, _, [EvHttp rq _];
    (split; [reflexivity|]); simpl; (split; [reflexivity|]);
    (split; [constructor; [apply HP | constructor] | lia]).
Qed.

Lemma emits_response_json (P : event -> Prop) (r : Response) : emits P (response_json r).
Proof. unfold response_json. destruct (json_body r); [apply emits_ret | apply emits_raise]. Qed.

Lemma emits_sleep (P : event -> Prop) (seconds : Z) :
  0 <= seconds -> P (EvSleep seconds) -> emits P (sleep seconds).
Proof.
  intros Hs HP env w. eexists _, _, [EvSleep seconds].
  split; [reflexivity|]. cbn [tick w_trace w_clock]. split; [reflexivity|].
  split; [constructor; [exact HP | constructor] | lia].
Qed.

Lemma emits_loop_time (P : event -> Prop) : emits P loop_time.
Proof. intros env w. exists (Ok (w_clock w)), w, []. repeat split; auto; lia. Qed.

Lemma emits_uuid4 (P : event -> Prop) : emits P uuid4.
Proof.
  intros env w. eexists _, _, []. split; [reflexivity|].
  simpl. repeat split; auto; lia.
Qed.

Lemma emits_utc_now (P : event -> Prop) : emits P utc_now.
Proof.
  intros env w. eexists _, _, []. split; [reflexivity|].
  simpl. repeat split; auto; lia.
Qed.

Lemma emits_write_file (P : event -> Prop) (path : string) (data : list Byte.byte) :
  P (EvWrite path data) -> emits P (write_file path data).
Proof.
  intros HP env w. unfold write_file.
  destruct (fs_write env (w_steps w) path) as [msg|].
  - eexists _, _, []. split; [reflexivity|]. simpl. repeat split; auto; lia.
  - eexists _, _, [EvWrite path data]. split; [reflexivity|]. simpl.
    split; [reflexivity|]. split; [constructor; [exact HP | constructor] | lia].
Qed.

Lemma emits_log (P : event -> Prop) (lvl : level) (m : log_message) :
  P (EvLog lvl m) -> emits P (log lvl m).
Proof.
  intros HP env w. eexists _, _, [EvLog lvl m]. split; [reflexivity|]. simpl.
  split; [reflexivity|]. split; [constructor; [exact HP | constructor] | lia].
Qed.

(** Inversion of a bind that returned. *)
Lemma bind_ok {A B : Type} (m : M A) (k : A -> M B) env w b w' :
  bind m k env w = Some (Ok b, w') ->
  exists a w1, m env w = Some (Ok a, w1) /\ k a env w1 = Some (Ok b, w').
Proof.
  unfold bind. destruct (m env w) as [[[a|e] w1]|]; intros H; try discriminate.
  exists a, w1. auto.
Qed.

Lemma history_of_app (w w' : World) (added : list event) :
  w_trace w' = (added ++ w_trace w)%list ->
  history_of w' = (history_of w ++ rev added)%list.
Proof. intros H. unfold history_of. rewrite H, rev_app_distr. reflexivity. Qed.

(* ------------------------------------------------------------------ *)
(** ** The poll loop *)
(* ------------------------------------------------------------------ *)

Lemma not_http_query_raises (prompt_id : json) (o : http_outcome) (e : exn) :
  query_raises prompt_id o e -> is_http_exception e = false.
Proof.
  intros [(cls & msg & _ & ->) | (r & _ & _ & [[_ ->] | (h & _ & H)])]; try reflexivity.
  assert (Hc : forall b, Py.contains prompt_id h = Raise b -> is_http_exception b = false).
  { intros b. unfold Py.contains, Py.type_error.
    destruct h, prompt_id; intros E; inversion E; reflexivity. }
  assert (Hg : forall b, Py.getitem h prompt_id = Raise b -> is_http_exception b = false).
  { intros b. unfold Py.getitem, Py.type_error, Py.key_error, Py.list_index, Py.one_char.
    destruct h, prompt_id; intros E;
      repeat match type of E with
             | context [match ?x with _ => _ end] => destruct x
             | context [if ?x then _ else _] => destruct x
             end; inversion E; reflexivity. }
  destruct H as [H | [_ H]]; [apply Hc | apply Hg]; exact H.
Qed.

(** One status query, case by case. *)
Lemma poll_once_cases (cfg : Config) (prompt_id : json) (env : Env) (w : World) :
  let q := history_query cfg prompt_id in
  let o := fst (http env (w_steps w) q) in
  let dt := snd (http env (w_steps w) q) in
  exists r,
    poll_once cfg prompt_id env w = Some (r, tick w (Z.of_N dt) [EvHttp q o])
    /\ match r with
       | Ok (Some record) => reports_present prompt_id o record
       | Ok None => still_pending prompt_id o
       | Raise e => query_raises prompt_id o e
       end.
Proof.
  cbv zeta. unfold poll_once, bind, send. fold (history_query cfg prompt_id).
  destruct (http env (w_steps w) (history_query cfg prompt_id)) as [o dt]. simpl fst. simpl snd.
  destruct o as [r|cls msg].
  2:{ eexists. split; [reflexivity|]. left. eauto. }
  destruct (status_code r =? 200) eqn:Es.
  2:{ eexists. split; [reflexivity|]. exists r. split; [reflexivity|].
      left. apply Z.eqb_neq. exact Es. }
  apply Z.eqb_eq in Es. unfold response_json.
  destruct (json_body r) as [h|] eqn:Eb.
  2:{ eexists. split; [reflexivity|]. right. exists r. auto. }
  unfold ret, lift.
  destruct (Py.contains prompt_id h) as [[|]|e] eqn:Ec.
  - destruct (Py.getitem h prompt_id) as [record|e] eqn:Eg.
    + eexists. split; [reflexivity|]. exists r, h. auto.
    + eexists. split; [reflexivity|]. right. exists r.
      split; [reflexivity|]. split; [exact Es|]. right. exists h. auto.
  - eexists. split; [reflexivity|]. exists r. split; [reflexivity|]. right. eauto.
  - eexists. split; [reflexivity|]. right. exists r.
    split; [reflexivity|]. split; [exact Es|]. right. exists h. auto.
Qed.

Lemma wait_loop_run (cfg : Config) (prompt_id : json) (timeout start : Z) (env : Env) :
  forall fuel w,
    (0 < fuel)%nat ->
    1000 * timeout - (w_clock w - start) < 1000 * (Z.of_nat fuel - 1) ->
    exists r w' added,
      wait_loop fuel cfg prompt_id timeout start env w = Some (r, w')
      /\ history_of w' = (history_of w ++ added)%list
      /\ poll_run (history_query cfg prompt_id) prompt_id timeout added r
      /\ w_clock w <= w_clock w'
      /\ (r = Raise (timeout_error timeout) -> w_clock w' - start > 1000 * timeout).
Proof.
  induction fuel as [|fuel IH]; intros w Hpos Hfuel; [lia|].
  - cbn [wait_loop]. unfold bind at 1. unfold loop_time at 1.
    destruct (Z.gtb_spec (w_clock w - start) (1000 * timeout)) as [Hlate|Hearly].
    + exists (Raise (timeout_error timeout)), w, [].
      split; [reflexivity|]. split; [rewrite app_nil_r; reflexivity|].
      split; [constructor|]. split; [lia|]. intros _. lia.
    + unfold bind at 1.
      destruct (poll_once_cases cfg prompt_id env w) as (r & Hrun & Hr).
      cbv zeta in Hrun, Hr. rewrite Hrun.
      set (q := history_query cfg prompt_id) in *.
      set (o := fst (http env (w_steps w) q)) in *.
      set (w1 := tick w _ [EvHttp q o]) in *.
      assert (Hh1 : history_of w1 = (history_of w ++ [EvHttp q o])%list).
      { unfold history_of, w1. simpl. reflexivity. }
      assert (Hc1 : w_clock w <= w_clock w1).
      { unfold w1. cbn [tick w_clock]. lia. }
      destruct r as [[record|]|e].
      * exists (Ok record), w1, [EvHttp q o].
        split; [reflexivity|]. split; [exact Hh1|].
        split; [constructor; exact Hr|]. split; [exact Hc1 | discriminate].
      * unfold bind at 1. unfold sleep at 1.
        set (w2 := tick w1 _ [EvSleep 1]).
        assert (Hc2 : w_clock w1 + 1000 <= w_clock w2).
        { unfold w2. cbn [tick w_clock]. lia. }
        destruct (IH w2) as (r & w' & added & Hloop & Hh & Hp & Hc & Ht); [lia | lia |].
        exists r, w', (EvHttp q o :: EvSleep 1 :: added)%list.
        split; [exact Hloop|].
        split.
        { assert (Hh2 : history_of w2 = (history_of w1 ++ [EvSleep 1])%list)
            by (unfold history_of, w2; simpl; reflexivity).
          rewrite Hh, Hh2, Hh1, <- !app_assoc. reflexivity. }
        split; [constructor; assumption|]. split; [lia | exact Ht].
      * exists (Raise e), w1, [EvHttp q o].
        split; [reflexivity|]. split; [exact Hh1|].
        split; [apply run_failed; exact Hr|]. split; [exact Hc1|].
        intros E. inversion E; subst e.
        apply not_http_query_raises in Hr. discriminate.
Qed.

Lemma wait_for_completion_run (cfg : Config) (prompt_id : json) (timeout : Z)
  (env : Env) (w : World) :
  exists r w' added,
    wait_for_completion cfg prompt_id timeout env w = Some (r, w')
    /\ history_of w' = (history_of w ++ added)%list
    /\ poll_run (history_query cfg prompt_id) prompt_id timeout added r
    /\ w_clock w <= w_clock w'
    /\ (r = Raise (timeout_error timeout) -> w_clock w' - w_clock w > 1000 * timeout).
Proof.
  unfold wait_for_completion, bind, loop_time.
  apply wait_loop_run; unfold wait_fuel; lia.
Qed.

(** The three kinds of reply exclude one another. *)
Lemma present_not_pending (prompt_id : json) (o : http_outcome) (record : json) :
  reports_present prompt_id o record -> still_pending prompt_id o -> False.
Proof.
  intros (r & h & -> & Hs & Hb & Hc & _) (r' & E & [Hn | (h' & Hb' & Hc')]);
    inversion E; subst r'; congruence.
Qed.

Lemma present_not_raises (prompt_id : json) (o : http_outcome) (record : json) (e : exn) :
  reports_present prompt_id o record -> query_raises prompt_id o e -> False.
Proof.
  intros (r & h & -> & Hs & Hb & Hc & Hg)
    [(cls & msg & E & _) | (r' & E & _ & [[Hb' _] | (h' & Hb' & [Hc' | [_ Hg']])])];
    inversion E; subst; congruence.
Qed.

Lemma pending_not_raises (prompt_id : json) (o : http_outcome) (e : exn) :
  still_pending prompt_id o -> query_raises prompt_id o e -> False.
Proof.
  intros (r & -> & Hp)
    [(cls & msg & E & _) | (r' & E & Hs & [[Hb' _] | (h' & Hb' & [Hc' | [Hc' _]])])];
    inversion E; subst; destruct Hp as [Hn | (h & Hb & Hc)]; congruence.
Qed.

Lemma present_functional (prompt_id : json) (o : http_outcome) (r1 r2 : json) :
  reports_present prompt_id o r1 -> reports_present prompt_id o r2 -> r1 = r2.
Proof.
  intros (r & h & -> & _ & Hb & _ & Hg) (r' & h' & E & _ & Hb' & _ & Hg').
  inversion E; subst; congruence.
Qed.

Lemma raises_functional (prompt_id : json) (o : http_outcome) (e1 e2 : exn) :
  query_raises prompt_id o e1 -> query_raises prompt_id o e2 -> e1 = e2.
Proof.
  intros [(c1 & m1 & -> & ->) | (r & -> & Hs & H1)]
         [(c2 & m2 & E & ->) | (r' & E & _ & H2)]; inversion E; subst; [reflexivity|].
  destruct H1 as [[Hb ->] | (h & Hb & H1)], H2 as [[Hb' ->] | (h' & Hb' & H2)];
    try congruence.
  assert (h' = h) by congruence. subst h'.
  destruct H1 as [H1 | [Hc H1]], H2 as [H2 | [Hc' H2]]; congruence.
Qed.

Section PollRun.

Variables (q : request) (prompt_id : json) (timeout : Z).

Lemma poll_run_head (added : list event) (r : result json) :
  poll_run q prompt_id timeout added r ->
  (added = [] /\ r = Raise (timeout_error timeout))
  \/ exists o post, added = EvHttp q o :: post.
Proof. intros H. destruct H; eauto. Qed.

Lemma poll_run_http (added : list event) (r : result json) :
  poll_run q prompt_id timeout added r ->
  forall s d, r = Raise (HTTPException s d) -> r = Raise (timeout_error timeout).
Proof.
  induction 1 as [o record Hp | o e Hr | | o rest r Hp Hrun IH]; intros s d E.
  - discriminate.
  - inversion E; subst e. apply not_http_query_raises in Hr. discriminate.
  - reflexivity.
  - exact (IH s d E).
Qed.

(** Every event of a run is a status query or a sleep of one second,
    and a sleep is followed by the next query or by the deadline. *)
Lemma poll_run_events (added : list event) (r : result json) :
  poll_run q prompt_id timeout added r ->
  forall pre ev post, added = (pre ++ ev :: post)%list ->
    (exists o, ev = EvHttp q o)
    \/ (ev = EvSleep 1
        /\ ((post = [] /\ r = Raise (timeout_error timeout))
            \/ exists o post', post = EvHttp q o :: post')).
Proof.
  induction 1 as [o record Hp | o e Hr | | o rest r Hp Hrun IH]; intros pre ev post E.
  - destruct pre as [|x [|y pre]]; inversion E; subst; eauto.
  - destruct pre as [|x [|y pre]]; inversion E; subst; eauto.
  - destruct pre; discriminate.
  - destruct pre as [|x [|y pre]].
    + inversion E; subst. eauto.
    + inversion E; subst. right. split; [reflexivity|].
      destruct (poll_run_head _ _ Hrun) as [[-> ->] | (o' & post' & ->)]; eauto.
    + inversion E; subst. eapply IH. reflexivity.
Qed.

(** What follows a status query in a run. *)
Lemma poll_run_after_query (added : list event) (r : result json) :
  poll_run q prompt_id timeout added r ->
  forall pre o post, added = (pre ++ EvHttp q o :: post)%list ->
    (forall record, reports_present prompt_id o record -> post = [] /\ r = Ok record)
    /\ (still_pending prompt_id o -> exists post', post = EvSleep 1 :: post')
    /\ (forall e, query_raises prompt_id o e -> post = [] /\ r = Raise e).
Proof.
  induction 1 as [o0 record Hp | o0 e Hr | | o0 rest r Hp Hrun IH]; intros pre o post E.
  - destruct pre as [|x [|y pre]]; inversion E; subst.
    split; [|split].
    + intros record' Hp'. rewrite (present_functional _ _ _ _ Hp Hp'). auto.
    + intros Hpend. destruct (present_not_pending _ _ _ Hp Hpend).
    + intros e He. destruct (present_not_raises _ _ _ _ Hp He).
  - destruct pre as [|x [|y pre]]; inversion E; subst.
    split; [|split].
    + intros record Hp. destruct (present_not_raises _ _ _ _ Hp Hr).
    + intros Hpend. destruct (pending_not_raises _ _ _ Hpend Hr).
    + intros e' He'. rewrite (raises_functional _ _ _ _ Hr He'). auto.
  - destruct pre; discriminate.
  - destruct pre as [|x [|y pre]].
    + inversion E; subst. split; [|split].
      * intros record Hp'. destruct (present_not_pending _ _ _ Hp' Hp).
      * intros _. eauto.
      * intros e He. destruct (pending_not_raises _ _ _ Hp He).
    + inversion E.
    + inversion E; subst. eapply IH. reflexivity.
Qed.

End PollRun.

(** The replies the engine protocol provides for, classified. *)
Lemma other_status_pending (prompt_id : json) (r : Response) :
  status_code r <> 200 -> still_pending prompt_id (Replied r).
Proof. intros H. exists r. auto. Qed.

Lemma absent_id_pending (id : string) (r : Response) (m : list (string * json)) :
  status_code r = 200 -> json_body r = Some (JObj m) -> Py.assoc id m = None ->
  still_pending (JStr id) (Replied r).
Proof.
  intros Hs Hb Ha. exists r. split; [reflexivity|]. right.
  exists (JObj m). split; [exact Hb|]. simpl. rewrite Ha. reflexivity.
Qed.

Lemma present_id_reports (id : string) (r : Response) (m : list (string * json))
  (record : json) :
  status_code r = 200 -> json_body r = Some (JObj m) -> Py.assoc id m = Some record ->
  reports_present (JStr id) (Replied r) record.
Proof.
  intros Hs Hb Ha. exists r, (JObj m). simpl. rewrite Ha. auto.
Qed.

Lemma failed_query_raises (prompt_id : json) (cls msg : string) :
  query_raises prompt_id (Failed cls msg) (OtherException cls msg).
Proof. left. eauto. Qed.

(** C5 (as amended). [wait_for_completion] always terminates.  Its trace
    consists of status queries for the job id and sleeps of exactly one
    second: every sleep is followed by the next query or, at the end, by
    the timeout.  A timeout (the only HTTP error it raises, status 504) is
    raised only once more than [timeout] seconds have elapsed.  After a
    query whose reply reports the id (status 200, id in the body) nothing
    more happens and the record is returned; after a query whose reply
    does not (another status, or a 200 body without the id) the loop
    sleeps one second and goes on.  A query that raises (no reply, a body
    that is not JSON) is not taken as pending: it ends the loop with that
    exception. *)
Theorem poll_loop_behaviour (cfg : Config) (prompt_id : json) (timeout : Z)
  (env : Env) (w : World) :
  let q := history_query cfg prompt_id in
  exists r w' added,
    wait_for_completion cfg prompt_id timeout env w = Some (r, w')
    /\ history_of w' = (history_of w ++ added)%list
    /\ (forall pre ev post, added = (pre ++ ev :: post)%list ->
          (exists o, ev = EvHttp q o)
          \/ (ev = EvSleep 1
              /\ ((post = [] /\ r = Raise (timeout_error timeout))
                  \/ exists o post', post = EvHttp q o :: post')))
    /\ (forall s d, r = Raise (HTTPException s d) ->
          s = 504 /\ r = Raise (timeout_error timeout)
          /\ w_clock w' - w_clock w > 1000 * timeout)
    /\ (forall pre o post, added = (pre ++ EvHttp q o :: post)%list ->
          (forall record, reports_present prompt_id o record -> post = [] /\ r = Ok record)
          /\ (still_pending prompt_id o -> exists post', post = EvSleep 1 :: post')
          /\ (forall e, query_raises prompt_id o e -> post = [] /\ r = Raise e))
    /\ (forall reply, status_code reply <> 200 -> still_pending prompt_id (Replied reply))
    /\ (forall id reply m,
          prompt_id = JStr id -> status_code reply = 200 ->
          json_body reply = Some (JObj m) ->
          match Py.assoc id m with
          | Some record => reports_present prompt_id (Replied reply) record
          | None => still_pending prompt_id (Replied reply)
          end)
    /\ (forall cls msg, query_raises prompt_id (Failed cls msg) (OtherException cls msg)).
Proof.
  cbv zeta.
  destruct (wait_for_completion_run cfg prompt_id timeout env w)
    as (r & w' & added & Hrun & Hh & Hp & Hc & Ht).
  exists r, w', added.
  split; [exact Hrun|]. split; [exact Hh|].
  split; [exact (poll_run_events _ _ _ _ _ Hp)|].
  split.
  { intros s d E. pose proof (poll_run_http _ _ _ _ _ Hp s d E) as E'.
    split; [|split; [exact E' | exact (Ht E')]].
    rewrite E in E'. inversion E'. reflexivity. }
  split; [exact (poll_run_after_query _ _ _ _ _ Hp)|].
  split; [exact (other_status_pending prompt_id)|].
  split; [|exact (failed_query_raises prompt_id)].
  intros id reply m -> Hs Hb.
  destruct (Py.assoc id m) as [record|] eqn:Ea.
  - exact (present_id_reports id reply m record Hs Hb Ea).
  - exact (absent_id_pending id reply m Hs Hb Ea).
Qed.

Lemma poll_loop_behaviour_witness :
  exists w',
    wait_for_completion default_config (JStr "abc") 300 Scenario.good_env initial_world
    = Some (Ok Scenario.finished_record, w').
Proof.
  destruct (poll_loop_behaviour default_config (JStr "abc") 300
              Scenario.good_env initial_world)
    as (r & w' & added & Hrun & Hh & _ & _ & Hafter & _ & Hid & _).
  cbv zeta in Hafter.
  exists w'. rewrite Hrun. f_equal. f_equal.
  assert (Hw : w_trace w' = rev added).
  { unfold history_of in Hh. simpl in Hh. rewrite <- Hh. symmetry. apply rev_involutive. }
  vm_compute in Hrun. injection Hrun as _ Hw'.
  rewrite <- Hw' in Hw. cbn [w_trace] in Hw.
  apply (f_equal (@rev event)) in Hw. rewrite rev_involutive in Hw. simpl in Hw.
  set (ready := Scenario.reply 200 (Some (JObj [("abc", Scenario.finished_record)])) "").
  set (empty := Scenario.reply 200 (Some (JObj [])) "").
  set (q := history_query default_config (JStr "abc")).
  assert (Hadded : added = ([EvHttp q empty; EvSleep 1; EvHttp q empty; EvSleep 1]
                            ++ EvHttp q ready :: [])%list).
  { rewrite <- Hw. reflexivity. }
  destruct (Hafter _ _ _ Hadded) as [Hpresent _].
  apply Hpresent.
  exact (Hid "abc"
           {| status_code := 200; text := ""; content := [];
              json_body := Some (JObj [("abc", Scenario.finished_record)]) |}
           [("abc", Scenario.finished_record)] eq_refl eq_refl eq_refl).
Defined.

(** The status query of an unreachable engine is not taken as pending:
    the loop ends at once, after 3 ms instead of 300 s, with the
    transport error. *)
Lemma poll_aborts_when_query_raises :
  let q := history_query default_config (JStr "abc") in
  let unreachable := Failed "ConnectError" "All connection attempts failed" in
  exists w',
    wait_for_completion default_config (JStr "abc") 300 Scenario.down_env initial_world
    = Some (Raise (OtherException "ConnectError" "All connection attempts failed"), w')
    /\ history_of w' = [EvHttp q unreachable]
    /\ w_clock w' = 3
    /\ ~ (exists rest, history_of w' = EvHttp q unreachable :: EvSleep 1 :: rest).
Proof.
  cbv zeta. eexists. split; [vm_compute; reflexivity|].
  split; [reflexivity|]. split; [reflexivity|].
  intros [rest E]. discriminate E.
Qed.

(* ------------------------------------------------------------------ *)
(** ** The pipeline always ends, and talks only to the engine *)
(* ------------------------------------------------------------------ *)

Ltac emits_auto :=
  repeat first
    [ apply emits_ret | apply emits_raise | apply emits_lift
    | apply emits_response_json | apply emits_loop_time
    | apply emits_uuid4 | apply emits_utc_now
    | apply emits_send; intros; exact I
    | apply emits_log; exact I
    | apply emits_write_file; exact I
    | apply emits_bind; [|intros]
    | match goal with
      | |- emits _ (if ?c then _ else _) => destruct c
      | |- emits _ (match ?x with _ => _ end) => destruct x
      end ].

Lemma emits_queue_prompt (cfg : Config) (workflow : json) :
  emits engine_side (queue_prompt cfg workflow).
Proof. unfold queue_prompt. emits_auto. Qed.

Lemma emits_wait_for_completion (cfg : Config) (prompt_id : json) (timeout : Z) :
  emits engine_side (wait_for_completion cfg prompt_id timeout).
Proof.
  intros env w.
  destruct (wait_for_completion_run cfg prompt_id timeout env w)
    as (r & w' & added & Hrun & Hh & Hp & Hc & _).
  exists r, w', (rev added). split; [exact Hrun|].
  split.
  { unfold history_of in Hh. apply (f_equal (@rev event)) in Hh.
    rewrite rev_involutive, rev_app_distr, rev_involutive in Hh. exact Hh. }
  split; [|exact Hc].
  apply Forall_rev. apply Forall_forall. intros ev Hin.
  destruct (in_split _ _ Hin) as (pre & post & E).
  destruct (poll_run_events _ _ _ _ _ Hp _ _ _ E) as [[o ->] | [-> _]]; exact I.
Qed.

Lemma emits_fetch_images (cfg : Config) (images : list json) :
  emits engine_side (fetch_images cfg images).
Proof.
  induction images as [|image_info rest IH]; cbn [fetch_images]; emits_auto.
  exact IH.
Qed.

Lemma emits_scan_outputs (cfg : Config) (items : list (string * json)) :
  emits engine_side (scan_outputs cfg items).
Proof.
  induction items as [|[node_id node_output] rest IH]; cbn [scan_outputs]; emits_auto;
    try exact IH.
  apply emits_fetch_images.
Qed.

Lemma emits_get_generated_image (cfg : Config) (history : json) :
  emits engine_side (get_generated_image cfg history).
Proof.
  unfold get_generated_image.
  apply emits_bind; [apply emits_lift | intros outputs].
  apply emits_bind; [apply emits_lift | intros items].
  apply emits_bind; [apply emits_scan_outputs | intros found].
  destruct found; emits_auto.
Qed.

Lemma emits_save_and_hash_image (cfg : Config) (image_data : list Byte.byte)
  (metadata : list (string * json)) :
  emits engine_side (save_and_hash_image cfg image_data metadata).
Proof. unfold save_and_hash_image. emits_auto. Qed.

Lemma emits_run_pipeline (cfg : Config) (req : GenerateRequest)
  (safe_prompt safe_negative : string) (seed steps : Z) (cfg_value : Q) (width height : Z) :
  emits engine_side
    (run_pipeline cfg req safe_prompt safe_negative seed steps cfg_value width height).
Proof.
  unfold run_pipeline.
  apply emits_bind; [apply emits_queue_prompt | intros prompt_id].
  apply emits_bind; [apply emits_wait_for_completion | intros history].
  apply emits_bind; [apply emits_get_generated_image | intros fetched].
  apply emits_save_and_hash_image.
Qed.

Lemma emits_resolve_seed (req : GenerateRequest) : emits engine_side (resolve_seed req).
Proof. unfold resolve_seed. emits_auto. Qed.

Lemma emits_sync_attempt (cfg : Config) (req : GenerateRequest)
  (safe_prompt safe_negative : string) (seed steps : Z) (cfg_value : Q) (width height : Z) :
  emits engine_side
    (sync_attempt cfg req safe_prompt safe_negative seed steps cfg_value width height).
Proof.
  unfold sync_attempt.
  apply emits_bind; [apply emits_run_pipeline | intros [filename image_hash]].
  apply emits_ret.
Qed.

Lemma emits_async_pipeline (cfg : Config) (req : GenerateAsyncRequest) :
  emits engine_side (async_pipeline cfg req).
Proof.
  unfold async_pipeline.
  destruct (build_safe_prompt _ _) as [safe_prompt safe_negative].
  apply emits_bind; [apply emits_resolve_seed | intros seed].
  apply emits_bind; [apply emits_run_pipeline | intros saved].
  apply emits_ret.
Qed.

(* ------------------------------------------------------------------ *)
(** ** The exceptions of the pipeline *)
(* ------------------------------------------------------------------ *)

Section Throws.

Context {A B : Type} (Q : exn -> Prop).

Lemma throws_ret (a : A) : throws Q (ret a).
Proof. intros env w e w' H. discriminate. Qed.

Lemma throws_raise (e : exn) : Q e -> throws Q (@raise A e).
Proof. intros HQ env w e' w' H. inversion H; subst. exact HQ. Qed.

Lemma throws_bind (m : M A) (k : A -> M B) :
  throws Q m -> (forall a, throws Q (k a)) -> throws Q (bind m k).
Proof.
  intros Hm Hk env w e w'. unfold bind.
  destruct (m env w) as [[[a|e1] w1]|] eqn:E; intros H; try discriminate.
  - exact (Hk a env w1 e w' H).
  - inversion H; subst. exact (Hm env w e w' E).
Qed.

End Throws.

Lemma throws_lift {A : Type} (r : result A) :
  (forall e, r = Raise e -> is_http_exception e = false) -> throws pipeline_error (lift r).
Proof.
  intros Hr env w e w'. destruct r as [a|e0]; intros H; [discriminate|].
  inversion H; subst. specialize (Hr e eq_refl). destruct e; [discriminate | exact I].
Qed.

Ltac py_cases E :=
  repeat match type of E with
         | context [match ?x with _ => _ end] => destruct x
         | context [if ?x then _ else _] => destruct x
         end; inversion E; reflexivity.

Lemma contains_not_http (k c : json) (e : exn) :
  Py.contains k c = Raise e -> is_http_exception e = false.
Proof. unfold Py.contains, Py.type_error. intros E. py_cases E. Qed.

Lemma getitem_not_http (c k : json) (e : exn) :
  Py.getitem c k = Raise e -> is_http_exception e = false.
Proof.
  unfold Py.getitem, Py.type_error, Py.key_error, Py.list_index, Py.one_char.
  intros E. py_cases E.
Qed.

Lemma get_not_http (c : json) (key : string) (d : json) (e : exn) :
  Py.get c key d = Raise e -> is_http_exception e = false.
Proof. unfold Py.get, Py.attribute_error. intros E. py_cases E. Qed.

Lemma items_not_http (c : json) (e : exn) :
  Py.items c = Raise e -> is_http_exception e = false.
Proof. unfold Py.items, Py.attribute_error. intros E. py_cases E. Qed.

Lemma iter_not_http (c : json) (e : exn) :
  Py.iter c = Raise e -> is_http_exception e = false.
Proof. unfold Py.iter, Py.type_error. intros E. py_cases E. Qed.

Lemma encode_not_http (j : json) (e : exn) :
  encode j = Raise e -> is_http_exception e = false.
Proof. unfold encode, Py.attribute_error. intros E. py_cases E. Qed.

Lemma throws_send (rq : request) : throws pipeline_error (send rq).
Proof.
  intros env w e w'. unfold send.
  destruct (http env (w_steps w) rq) as [[r|cls msg] dt]; intros H; inversion H.
  exact I.
Qed.

Lemma throws_response_json (r : Response) : throws pipeline_error (response_json r).
Proof.
  unfold response_json. destruct (json_body r); [apply throws_ret|].
  apply throws_raise. exact I.
Qed.

Lemma throws_simple {A : Type} (m : M A) :
  (forall env w, exists a w', m env w = Some (Ok a, w')) -> throws pipeline_error m.
Proof. intros H env w e w' E. destruct (H env w) as (a & w1 & E1). congruence. Qed.

Lemma throws_uuid4 : throws pipeline_error uuid4.
Proof. apply throws_simple. intros env w. eexists _, _. reflexivity. Qed.

Lemma throws_utc_now : throws pipeline_error utc_now.
Proof. apply throws_simple. intros env w. eexists _, _. reflexivity. Qed.

Lemma throws_log (lvl : level) (m : log_message) : throws pipeline_error (log lvl m).
Proof. apply throws_simple. intros env w. eexists _, _. reflexivity. Qed.

Lemma throws_write_file (path : string) (data : list Byte.byte) :
  throws pipeline_error (write_file path data).
Proof.
  intros env w e w'. unfold write_file.
  destruct (fs_write env (w_steps w) path); intros H; inversion H. exact I.
Qed.

Ltac throws_auto :=
  repeat first
    [ apply throws_ret
    | apply throws_raise; simpl; auto
    | apply throws_send | apply throws_response_json | apply throws_uuid4
    | apply throws_utc_now | apply throws_log | apply throws_write_file
    | apply throws_lift;
      first [ apply contains_not_http | apply getitem_not_http | apply get_not_http
            | apply items_not_http | apply iter_not_http | apply encode_not_http ]
    | apply throws_bind; [|intros]
    | match goal with
      | |- throws _ (if ?c then _ else _) => destruct c
      | |- throws _ (match ?x with _ => _ end) => destruct x
      end ].

Lemma throws_queue_prompt (cfg : Config) (workflow : json) :
  throws pipeline_error (queue_prompt cfg workflow).
Proof. unfold queue_prompt. throws_auto. Qed.

Lemma throws_wait_for_completion (cfg : Config) (prompt_id : json) (timeout : Z) :
  throws pipeline_error (wait_for_completion cfg prompt_id timeout).
Proof.
  intros env w e w' H.
  destruct (wait_for_completion_run cfg prompt_id timeout env w)
    as (r & w1 & added & Hrun & _ & Hp & _).
  rewrite Hrun in H. inversion H; subst r w1.
  destruct e as [s d|cls msg]; [|exact I].
  pose proof (poll_run_http _ _ _ _ _ Hp s d eq_refl) as E.
  inversion E. right. reflexivity.
Qed.

Lemma throws_fetch_images (cfg : Config) (images : list json) :
  throws pipeline_error (fetch_images cfg images).
Proof.
  induction images as [|image_info rest IH]; cbn [fetch_images]; throws_auto.
  exact IH.
Qed.

Lemma throws_scan_outputs (cfg : Config) (items : list (string * json)) :
  throws pipeline_error (scan_outputs cfg items).
Proof.
  induction items as [|[node_id node_output] rest IH]; cbn [scan_outputs]; throws_auto;
    try exact IH.
  apply throws_fetch_images.
Qed.

Lemma throws_get_generated_image (cfg : Config) (history : json) :
  throws pipeline_error (get_generated_image cfg history).
Proof.
  unfold get_generated_image.
  apply throws_bind; [throws_auto | intros outputs].
  apply throws_bind; [throws_auto | intros items].
  apply throws_bind; [apply throws_scan_outputs | intros found].
  destruct found; throws_auto.
Qed.

Lemma throws_save_and_hash_image (cfg : Config) (image_data : list Byte.byte)
  (metadata : list (string * json)) :
  throws pipeline_error (save_and_hash_image cfg image_data metadata).
Proof. unfold save_and_hash_image. throws_auto. Qed.

Lemma throws_run_pipeline (cfg : Config) (req : GenerateRequest)
  (safe_prompt safe_negative : string) (seed steps : Z) (cfg_value : Q) (width height : Z) :
  throws pipeline_error
    (run_pipeline cfg req safe_prompt safe_negative seed steps cfg_value width height).
Proof.
  unfold run_pipeline.
  apply throws_bind; [apply throws_queue_prompt | intros prompt_id].
  apply throws_bind; [apply throws_wait_for_completion | intros history].
  apply throws_bind; [apply throws_get_generated_image | intros fetched].
  apply throws_save_and_hash_image.
Qed.

Lemma throws_sync_attempt (cfg : Config) (req : GenerateRequest)
  (safe_prompt safe_negative : string) (seed steps : Z) (cfg_value : Q) (width height : Z) :
  throws pipeline_error
    (sync_attempt cfg req safe_prompt safe_negative seed steps cfg_value width height).
Proof.
  unfold sync_attempt.
  apply throws_bind; [apply throws_run_pipeline | intros [filename image_hash]].
  apply throws_ret.
Qed.

(* ------------------------------------------------------------------ *)
(** ** The synchronous endpoint *)
(* ------------------------------------------------------------------ *)

Lemma generate_image_allowed (cfg : Config) (req : GenerateRequest) (m : string)
  (env : Env) (w : World) :
  validate_prompt cfg (prompt req) = Some (true, m) ->
  generate_image cfg req env w
  = bind (resolve_seed req)
      (fun seed => try_except (attempt cfg req seed) (fun _ => true) sync_handler) env w.
Proof.
  intros Hv. unfold generate_image, check_prompt. rewrite Hv.
  unfold bind at 1. unfold ret at 1. cbn [negb]. cbv iota.
  unfold attempt. destruct (build_safe_prompt _ _) as [safe_prompt safe_negative].
  reflexivity.
Qed.

Lemma generate_image_rejected (cfg : Config) (req : GenerateRequest) (m : string)
  (env : Env) (w : World) :
  validate_prompt cfg (prompt req) = Some (false, m) ->
  generate_image cfg req env w = Some (Raise (HTTPException 400 m), w).
Proof.
  intros Hv. unfold generate_image, check_prompt. rewrite Hv. reflexivity.
Qed.

(** Seed resolution never raises. *)
Lemma resolve_seed_value (req : GenerateRequest) (env : Env) (w : World) :
  resolve_seed req env w
  = match seed req with
    | Some s =>
        if 0 <? s then Some (Ok s, w)
        else Some (Ok (uuid4_of_random (urandom16 env (w_steps w)) mod 2 ^ 32), tick w 0 [])
    | None => Some (Ok (uuid4_of_random (urandom16 env (w_steps w)) mod 2 ^ 32), tick w 0 [])
    end.
Proof.
  unfold resolve_seed. destruct (seed req) as [s|]; [|reflexivity].
  unfold Py.truthy_int. rewrite Z.gtb_ltb.
  destruct (Z.ltb_spec 0 s) as [Hpos|Hneg].
  - destruct (Z.eqb_spec s 0); [lia | reflexivity].
  - rewrite andb_false_r. reflexivity.
Qed.

Lemma resolve_seed_ok (req : GenerateRequest) (env : Env) (w : World) :
  exists seed w1,
    resolve_seed req env w = Some (Ok seed, w1)
    /\ w_trace w1 = w_trace w /\ w_clock w1 = w_clock w.
Proof.
  rewrite resolve_seed_value.
  destruct (seed req) as [s|]; [destruct (0 <? s)|]; eexists _, _;
    (split; [reflexivity|]); (split; [reflexivity | cbn [tick w_clock]; lia]).
Qed.

Lemma queue_prompt_refused (cfg : Config) (workflow : json) (env : Env) (w : World)
  (reply : Response) (dt : N) :
  http env (w_steps w) (submit_request cfg workflow) = (Replied reply, dt) ->
  status_code reply <> 200 ->
  queue_prompt cfg workflow env w
  = Some (Raise (HTTPException 500 ("ComfyUI error: " ++ text reply)),
          tick w (Z.of_N dt) [EvHttp (submit_request cfg workflow) (Replied reply)]).
Proof.
  intros Hh Hs. unfold queue_prompt, bind, send. fold (submit_request cfg workflow).
  rewrite Hh. apply Z.eqb_neq in Hs. rewrite Hs. reflexivity.
Qed.

Lemma queue_prompt_unreachable (cfg : Config) (workflow : json) (env : Env) (w : World)
  (cls msg : string) (dt : N) :
  http env (w_steps w) (submit_request cfg workflow) = (Failed cls msg, dt) ->
  queue_prompt cfg workflow env w
  = Some (Raise (OtherException cls msg),
          tick w (Z.of_N dt) [EvHttp (submit_request cfg workflow) (Failed cls msg)]).
Proof.
  intros Hh. unfold queue_prompt, bind, send. fold (submit_request cfg workflow).
  rewrite Hh. reflexivity.
Qed.

Lemma attempt_starts_with_submit (cfg : Config) (req : GenerateRequest) (seed : Z)
  (env : Env) (w : World) (e : exn) (w' : World) :
  queue_prompt cfg (effective_workflow cfg req seed) env w = Some (Raise e, w') ->
  attempt cfg req seed env w = Some (Raise e, w').
Proof.
  intros H. unfold attempt, sync_attempt, run_pipeline. cbv zeta.
  fold (effective_workflow cfg req seed).
  unfold bind at 1. unfold bind at 1. rewrite H. reflexivity.
Qed.

Lemma scan_outputs_no_images (cfg : Config) (items : list (string * json))
  (env : Env) (w : World) :
  Forall (fun kv => Py.contains (JStr "images") (snd kv) = Ok false) items ->
  scan_outputs cfg items env w = Some (Ok None, w).
Proof.
  induction 1 as [|[node_id node_output] rest Hhead Hrest IH]; [reflexivity|].
  cbn [scan_outputs]. simpl in Hhead. unfold bind at 1. rewrite Hhead. simpl. exact IH.
Qed.

Lemma get_generated_image_missing (cfg : Config) (record : json) (env : Env) (w : World) :
  no_images record ->
  get_generated_image cfg record env w
  = Some (Raise (HTTPException 500 "No image found in output"), w).
Proof.
  intros (items & Hget & Hnone). unfold get_generated_image.
  unfold bind. rewrite Hget. cbn [lift ret Py.items].
  rewrite (scan_outputs_no_images cfg items env w Hnone). reflexivity.
Qed.

(** C1 (as amended). For a request that passes the safety filter the
    handler resolves the seed and runs its [try] block, which always ends.
    If the block returns, the handler returns that successful response.
    If it raises an [HTTPException] - and then the status is 500 or 504 -
    the handler re-raises it, a transport-level error: so it is when the
    engine refuses the job (500, "ComfyUI error: ...") and when the
    finished record has no image (500, "No image found in output"), as for
    the timeout (504).  Every other exception is caught, logged and turned
    into the in-band result with success false and [str(e)] as the error
    message: so it is when the engine cannot be reached. *)
Theorem sync_error_policy (cfg : Config) (req : GenerateRequest) (m : string)
  (env : Env) (w : World) :
  validate_prompt cfg (prompt req) = Some (true, m) ->
  exists seed w1,
    resolve_seed req env w = Some (Ok seed, w1)
    /\ (exists r w2,
          attempt cfg req seed env w1 = Some (r, w2)
          /\ match r with
             | Ok response =>
                 generate_image cfg req env w = Some (Ok response, w2)
                 /\ success response = true
             | Raise (HTTPException s d) =>
                 generate_image cfg req env w = Some (Raise (HTTPException s d), w2)
                 /\ (s = 500 \/ s = 504)
             | Raise (OtherException cls msg) =>
                 generate_image cfg req env w
                 = Some (Ok (in_band_failure msg),
                         logged ERROR (Line ("Generation failed: " ++ msg)) w2)
             end)
    /\ (forall reply dt,
          http env (w_steps w1) (submit_request cfg (effective_workflow cfg req seed))
          = (Replied reply, dt) ->
          status_code reply <> 200 ->
          exists w2,
            generate_image cfg req env w
            = Some (Raise (HTTPException 500 ("ComfyUI error: " ++ text reply)), w2))
    /\ (forall cls msg dt,
          http env (w_steps w1) (submit_request cfg (effective_workflow cfg req seed))
          = (Failed cls msg, dt) ->
          exists w2,
            generate_image cfg req env w = Some (Ok (in_band_failure msg), w2))
    /\ (forall record env' w',
          no_images record ->
          get_generated_image cfg record env' w'
          = Some (Raise (HTTPException 500 "No image found in output"), w')).
Proof.
  intros Hv.
  destruct (resolve_seed_ok req env w) as (seed & w1 & Hseed & _).
  exists seed, w1. split; [exact Hseed|].
  assert (Hgen : forall r w2,
             attempt cfg req seed env w1 = Some (r, w2) ->
             generate_image cfg req env w
             = match r with
               | Raise e => sync_handler e env w2
               | Ok response => Some (Ok response, w2)
               end).
  { intros r w2 Hatt. rewrite (generate_image_allowed cfg req m env w Hv).
    unfold bind. rewrite Hseed. unfold try_except. rewrite Hatt.
    destruct r; reflexivity. }
  split; [|split; [|split]].
  - destruct (emits_sync_attempt cfg req
                (fst (build_safe_prompt (prompt req) (Py.or_str (negative_prompt req) "")))
                (snd (build_safe_prompt (prompt req) (Py.or_str (negative_prompt req) "")))
                seed (Py.or_int (steps req) (DEFAULT_STEPS cfg))
                (Py.or_float (cfg_scale req) (DEFAULT_CFG cfg))
                (Py.or_int (width req) (DEFAULT_WIDTH cfg))
                (Py.or_int (height req) (DEFAULT_HEIGHT cfg)) env w1)
      as (r & w2 & added & Hatt & _).
    fold (attempt cfg req seed) in Hatt.
    exists r, w2. split; [exact Hatt|].
    rewrite (Hgen r w2 Hatt).
    destruct r as [response|[s d|cls msg]].
    + split; [reflexivity|].
      unfold attempt, sync_attempt in Hatt.
      apply bind_ok in Hatt. destruct Hatt as ([filename image_hash] & w3 & _ & Hret).
      inversion Hret. reflexivity.
    + split; [reflexivity|].
      exact (throws_sync_attempt _ _ _ _ _ _ _ _ _ env w1 _ w2 Hatt).
    + reflexivity.
  - intros reply dt Hh Hs. eexists.
    rewrite (Hgen _ _ (attempt_starts_with_submit _ _ _ _ _ _ _
                         (queue_prompt_refused _ _ _ _ _ _ Hh Hs))).
    reflexivity.
  - intros cls msg dt Hh. eexists.
    rewrite (Hgen _ _ (attempt_starts_with_submit _ _ _ _ _ _ _
                         (queue_prompt_unreachable _ _ _ _ _ _ _ Hh))).
    reflexivity.
  - intros record env' w'. apply get_generated_image_missing.
Qed.

Lemma sync_error_policy_witness :
  (exists w2,
     generate_image default_config Scenario.landscape Scenario.dead_env initial_world
     = Some (Ok (in_band_failure "All connection attempts failed"), w2))
  /\ (exists w2,
        generate_image default_config Scenario.landscape Scenario.refusing_env initial_world
        = Some (Raise (HTTPException 500 "ComfyUI error: invalid prompt"), w2)).
Proof.
  split.
  - destruct (sync_error_policy default_config Scenario.landscape ""
                Scenario.dead_env initial_world)
      as (seed & w1 & Hseed & _ & _ & Hdead & _); [vm_compute; reflexivity|].
    vm_compute in Hseed. injection Hseed as <- <-.
    exact (Hdead "ConnectError" "All connection attempts failed" 3%N eq_refl).
  - destruct (sync_error_policy default_config Scenario.landscape ""
                Scenario.refusing_env initial_world)
      as (seed & w1 & Hseed & _ & Hrefused & _); [vm_compute; reflexivity|].
    vm_compute in Hseed. injection Hseed as <- <-.
    refine (Hrefused {| status_code := 400; text := "invalid prompt";
                        content := list_byte_of_string "invalid prompt";
                        json_body := None |} 20%N eq_refl _).
    discriminate.
Defined.

(** The engine refuses the job, or reports it finished without an image:
    the synchronous endpoint answers with an HTTP error status, not with
    an in-band result. *)
Lemma refused_job_is_transport_error :
  (exists w',
     generate_image default_config Scenario.landscape Scenario.refusing_env initial_world
     = Some (Raise (HTTPException 500 "ComfyUI error: invalid prompt"), w'))
  /\ (exists w',
        generate_image default_config Scenario.landscape Scenario.blank_env initial_world
        = Some (Raise (HTTPException 500 "No image found in output"), w'))
  /\ validate_prompt default_config (prompt Scenario.landscape) = Some (true, "").
Proof.
  split; [|split].
  - eexists. vm_compute. reflexivity.
  - eexists. vm_compute. reflexivity.
  - vm_compute. reflexivity.
Qed.

(* ------------------------------------------------------------------ *)
(** ** The asynchronous endpoint and its callback *)
(* ------------------------------------------------------------------ *)

Lemma posts_app (a b : list event) : posts (a ++ b) = (posts a ++ posts b)%list.
Proof. unfold posts. apply flat_map_app. Qed.

Lemma posts_engine_side (tr : list event) : Forall engine_side tr -> posts tr = [].
Proof.
  induction 1 as [|e tr He _ IH]; [reflexivity|].
  unfold posts in *. simpl. rewrite IH.
  destruct e as [rq o| | |]; try reflexivity.
  simpl in He. destruct (req_call rq); try reflexivity. contradiction.
Qed.

Lemma send_value (rq : request) (env : Env) (w : World) :
  send rq env w
  = Some (match fst (http env (w_steps w) rq) with
          | Replied r => Ok r
          | Failed cls msg => Raise (OtherException cls msg)
          end, exchanged env rq w).
Proof.
  unfold send, exchanged. destruct (http env (w_steps w) rq) as [[r|cls msg] dt]; reflexivity.
Qed.

(** The handler of the background task: one log record, one POST, and
    nothing else whatever the POST comes back with. *)
Lemma async_handler_value (req : GenerateAsyncRequest) (e : exn) (env : Env) (w : World) :
  async_handler req e env w
  = Some (Ok tt,
          exchanged env (callback req (error_data req e))
            (logged ERROR
               (Line ("Async generation failed for " ++ request_id req ++ ": " ++ exn_str e))
               w)).
Proof.
  unfold async_handler, bind, try_except, log. fold (logged ERROR
    (Line ("Async generation failed for " ++ request_id req ++ ": " ++ exn_str e)) w).
  rewrite send_value.
  destruct (fst (http env _ _)); reflexivity.
Qed.

Lemma send_success_value (req : GenerateAsyncRequest) (filename image_hash : string)
  (seed : Z) (env : Env) (w : World) :
  let cb := callback req (callback_data req filename image_hash seed) in
  send_success req (filename, image_hash, seed) env w
  = match fst (http env (w_steps w) cb) with
    | Replied _ =>
        Some (Ok tt, logged INFO (Line ("Callback sent for " ++ request_id req))
                       (exchanged env cb w))
    | Failed cls msg => Some (Raise (OtherException cls msg), exchanged env cb w)
    end.
Proof.
  cbv zeta. unfold send_success, bind. rewrite send_value.
  destruct (fst (http env _ _)); reflexivity.
Qed.

(** The acknowledgement of the asynchronous endpoint is computed from the
    request alone, before the background task runs. *)
Lemma generate_image_async_value (cfg : Config) (req : GenerateAsyncRequest)
  (env : Env) (w : World) :
  generate_image_async cfg req env w
  = match validate_prompt cfg (prompt (base req)) with
    | Some (true, _) =>
        Some (Ok ({| status := "queued"; queued_request_id := request_id req;
                     message := "Image generation started in background" |}, [req]), w)
    | Some (false, m) => Some (Raise (HTTPException 400 m), w)
    | None => Some (Raise (OtherException "re.error" "bad pattern"), w)
    end.
Proof.
  unfold generate_image_async, check_prompt, bind.
  destruct (validate_prompt cfg (prompt (base req))) as [[[|] m]|]; reflexivity.
Qed.

Lemma posts_exchanged_callback (req : GenerateAsyncRequest) (payload : json)
  (env : Env) (w : World) :
  posts (w_trace (exchanged env (callback req payload) w))
  = callback req payload :: posts (w_trace w).
Proof. reflexivity. Qed.

Lemma posts_logged (lvl : level) (m : log_message) (w : World) :
  posts (w_trace (logged lvl m w)) = posts (w_trace w).
Proof. reflexivity. Qed.

Lemma process_async_generation_value (cfg : Config) (req : GenerateAsyncRequest)
  (env : Env) (w : World) (r1 : result (string * string * Z)) (w1 : World) :
  async_pipeline cfg req env w = Some (r1, w1) ->
  process_async_generation cfg req env w
  = match r1 with
    | Raise e => async_handler req e env w1
    | Ok done =>
        match send_success req done env w1 with
        | Some (Raise e, w2) => async_handler req e env w2
        | other => other
        end
    end.
Proof.
  intros Hpipe. unfold process_async_generation, try_except, bind. rewrite Hpipe.
  destruct r1 as [done|e]; reflexivity.
Qed.

(** C2 (as amended). The background task never raises, and the caller of
    the asynchronous endpoint gets the "queued" acknowledgement whatever
    happens in it.  The pipeline itself posts nothing to the callback URL.
    When the pipeline fails, the task logs the failure and makes exactly
    one POST of the failure payload, with a request timeout of 10 seconds;
    whatever that POST comes back with, nothing follows it: no retry and
    no log record of a failed delivery.  When the pipeline succeeds and
    the POST of the success payload (same timeout) gets a reply, that is
    the only POST, followed by the log record "Callback sent". *)
Theorem async_callback_policy (cfg : Config) (req : GenerateAsyncRequest)
  (env : Env) (w : World) :
  exists r1 w1 added,
    async_pipeline cfg req env w = Some (r1, w1)
    /\ w_trace w1 = (added ++ w_trace w)%list
    /\ posts added = []
    /\ (exists w', process_async_generation cfg req env w = Some (Ok tt, w'))
    /\ (forall m,
          validate_prompt cfg (prompt (base req)) = Some (true, m) ->
          exists w',
            serve_generate_async cfg req env w
            = Some (Ok {| status := "queued"; queued_request_id := request_id req;
                          message := "Image generation started in background" |}, w'))
    /\ (forall e,
          r1 = Raise e ->
          let cb := callback req (error_data req e) in
          let failure :=
            Line ("Async generation failed for " ++ request_id req ++ ": " ++ exn_str e) in
          let w' := exchanged env cb (logged ERROR failure w1) in
          process_async_generation cfg req env w = Some (Ok tt, w')
          /\ posts (w_trace w') = cb :: posts (w_trace w)
          /\ req_timeout cb = Some (10 # 1))
    /\ (forall filename image_hash seed reply,
          r1 = Ok (filename, image_hash, seed) ->
          let cb := callback req (callback_data req filename image_hash seed) in
          fst (http env (w_steps w1) cb) = Replied reply ->
          let w' := logged INFO (Line ("Callback sent for " ++ request_id req))
                      (exchanged env cb w1) in
          process_async_generation cfg req env w = Some (Ok tt, w')
          /\ posts (w_trace w') = cb :: posts (w_trace w)
          /\ req_timeout cb = Some (10 # 1)).
Proof.
  destruct (emits_async_pipeline cfg req env w) as (r1 & w1 & added & Hpipe & Ht & HP & _).
  pose proof (process_async_generation_value cfg req env w r1 w1 Hpipe) as Hval.
  assert (Hposts : posts (w_trace w1) = posts (w_trace w)).
  { rewrite Ht, posts_app, (posts_engine_side _ HP). reflexivity. }
  assert (Hnever : exists w', process_async_generation cfg req env w = Some (Ok tt, w')).
  { rewrite Hval. destruct r1 as [[[filename image_hash] seed]|e].
    - rewrite send_success_value. cbv zeta.
      destruct (fst (http env _ _)); [eauto|].
      rewrite async_handler_value. eauto.
    - rewrite async_handler_value. eauto. }
  exists r1, w1, added.
  split; [exact Hpipe|]. split; [exact Ht|].
  split; [exact (posts_engine_side _ HP)|].
  split; [exact Hnever|].
  split; [|split].
  - intros m Hv. destruct Hnever as [w' Hrun].
    exists w'. unfold serve_generate_async. unfold bind at 1.
    rewrite generate_image_async_value, Hv.
    cbn [snd fst run_background_tasks]. unfold bind. rewrite Hrun. reflexivity.
  - intros e -> cb failure w'. rewrite Hval, async_handler_value.
    split; [reflexivity|]. split; [|reflexivity].
    unfold w', cb. rewrite posts_exchanged_callback, posts_logged, Hposts. reflexivity.
  - intros filename image_hash seed reply -> cb Hreply w'.
    rewrite Hval, send_success_value. cbv zeta. fold cb. rewrite Hreply.
    split; [reflexivity|]. split; [|reflexivity].
    unfold w', cb. rewrite posts_logged, posts_exchanged_callback, Hposts. reflexivity.
Qed.

Lemma async_callback_policy_witness :
  (exists w',
     process_async_generation default_config Scenario.async_landscape
       Scenario.refusing_env initial_world = Some (Ok tt, w')
     /\ posts (w_trace w')
        = [callback Scenario.async_landscape
             (error_data Scenario.async_landscape
                (HTTPException 500 "ComfyUI error: invalid prompt"))])
  /\ (exists w',
        process_async_generation default_config Scenario.async_landscape
          Scenario.good_env initial_world = Some (Ok tt, w')
        /\ posts (w_trace w')
           = [callback Scenario.async_landscape
                (callback_data Scenario.async_landscape
                   "2d4566582844690f_01234567.png" "2d4566582844690f" 2309737967)]).
Proof.
  split.
  - destruct (async_callback_policy default_config Scenario.async_landscape
                Scenario.refusing_env initial_world)
      as (r1 & w1 & added & Hpipe & _ & _ & _ & _ & Hfail & _).
    vm_compute in Hpipe. injection Hpipe as <- <-.
    destruct (Hfail _ eq_refl) as (Hrun & Hposts & _).
    eexists. split; [exact Hrun | exact Hposts].
  - destruct (async_callback_policy default_config Scenario.async_landscape
                Scenario.good_env initial_world)
      as (r1 & w1 & added & Hpipe & _ & _ & _ & _ & _ & Hdone).
    vm_compute in Hpipe. injection Hpipe as <- <-.
    destruct (Hdone _ _ _ {| status_code := 200; text := "ok";
                             content := list_byte_of_string "ok"; json_body := None |}
                eq_refl eq_refl) as (Hrun & Hposts & _).
    eexists. split; [exact Hrun | exact Hposts].
Defined.

(** The engine refuses the job and the callback receiver cannot be
    reached: the failed delivery is the last event of the background
    task; no log record mentions it, the only one is about the
    generation. *)
Lemma failed_delivery_is_not_logged :
  let req := Scenario.async_landscape in
  let e := HTTPException 500 "ComfyUI error: invalid prompt" in
  let unreachable := Failed "ConnectError" "All connection attempts failed" in
  exists w' submit refusal,
    process_async_generation default_config req Scenario.refusing_deaf_env initial_world
    = Some (Ok tt, w')
    /\ history_of w'
       = [EvHttp submit refusal;
          EvLog ERROR (Line ("Async generation failed for abc123: " ++ exn_str e));
          EvHttp (callback req (error_data req e)) unreachable]
    /\ ~ (exists pre lvl m post,
            history_of w'
            = (pre ++ EvHttp (callback req (error_data req e)) unreachable
                   :: EvLog lvl m :: post)%list).
Proof.
  cbv zeta. eexists _, _, _. split; [vm_compute; reflexivity|].
  split; [reflexivity|].
  intros (pre & lvl & m & post & E). cbn [history_of w_trace rev app] in E.
  destruct pre as [|e1 [|e2 [|e3 [|e4 pre]]]]; discriminate E.
Qed.

(** The image is generated and stored, but the POST of the success
    payload raises: the handler takes it for a failed generation and
    POSTs a second time, with status "failed". *)
Lemma lost_success_callback_posts_again :
  let req := Scenario.async_landscape in
  exists w',
    process_async_generation default_config req Scenario.working_deaf_env initial_world
    = Some (Ok tt, w')
    /\ posts (history_of w')
       = [callback req (callback_data req "2d4566582844690f_01234567.png"
                          "2d4566582844690f" 2309737967);
          callback req (error_data req
                          (OtherException "ConnectError" "All connection attempts failed"))].
Proof. cbv zeta. eexists. split; vm_compute; reflexivity. Qed.

(* ------------------------------------------------------------------ *)
(** ** Result persistence and the audit record *)
(* ------------------------------------------------------------------ *)

Lemma save_and_hash_image_value (cfg : Config) (data : list Byte.byte)
  (metadata : list (string * json)) (env : Env) (w : World) :
  let filename := stored_name data (random_suffix env w) in
  save_and_hash_image cfg data metadata env w
  = match fs_write env (S (w_steps w)) (OUTPUT_DIR cfg ++ "/" ++ filename) with
    | Some msg => Some (Raise (OtherException "OSError" msg), tick (tick w 0 []) 0 [])
    | None =>
        let w3 := stored cfg data filename w in
        match encode (meta_get metadata "prompt" (JStr "")) with
        | Raise e => Some (Raise e, w3)
        | Ok prompt_bytes =>
            Some (Ok (filename, content_hash data),
                  logged INFO
                    (Generated
                       (audit_record (content_hash data) filename
                          (utcnow env (S (S (w_steps w))))
                          (meta_get metadata "persona_id" JNull)
                          (meta_get metadata "user_id" JNull)
                          (meta_get metadata "seed" JNull)
                          (content_hash prompt_bytes)))
                    w3)
        end
    end.
Proof.
  cbv zeta. unfold save_and_hash_image, bind, uuid4, write_file.
  fold (random_suffix env w). fold (stored_name data (random_suffix env w)).
  cbn [tick w_steps].
  destruct (fs_write env (S (w_steps w)) _); [reflexivity|].
  unfold utc_now, lift. cbn [tick w_steps].
  destruct (encode _); reflexivity.
Qed.

Lemma hex_digits_length (n : nat) (v : Z) : String.length (Text.hex_digits n v) = n.
Proof.
  revert v. induction n as [|n IH]; intros v; cbn [Text.hex_digits]; [reflexivity|].
  rewrite append_length, IH. simpl. lia.
Qed.

Lemma hexdigest_length (msg : list Byte.byte) : String.length (SHA256.hexdigest msg) = 64%nat.
Proof.
  unfold SHA256.hexdigest, SHA256.digest_words.
  destruct (fold_left SHA256.compress _ _) as [[[[[[[a b] c] d] e] f] g] h].
  cbn [map String.concat]. rewrite !append_length, !hex_digits_length. reflexivity.
Qed.

Lemma substring_length (n : nat) (s : string) :
  (n <= String.length s)%nat -> String.length (substring 0 n s) = n.
Proof.
  revert s. induction n as [|n IH]; intros s Hn.
  - destruct s; reflexivity.
  - destruct s as [|c s]; simpl in *; [lia|]. rewrite IH; [reflexivity | lia].
Qed.

Lemma content_hash_length (data : list Byte.byte) :
  String.length (content_hash data) = 16%nat.
Proof.
  unfold content_hash, Text.take. apply substring_length.
  rewrite hexdigest_length. lia.
Qed.

Lemma take_prefix (a b : string) : Text.take (String.length a) (a ++ b) = a.
Proof.
  unfold Text.take. induction a as [|c a IH]; simpl.
  - destruct b; reflexivity.
  - rewrite IH. reflexivity.
Qed.

Lemma stored_name_prefix (data : list Byte.byte) (suffix : string) :
  Text.take 16 (stored_name data suffix) = content_hash data.
Proof.
  unfold stored_name. rewrite <- (content_hash_length data) at 1. apply take_prefix.
Qed.

Lemma append_cancel_l (a b c : string) : (a ++ b = a ++ c)%string -> b = c.
Proof. induction a as [|x a IH]; simpl; intros H; [exact H | inversion H; auto]. Qed.

Lemma append_cancel_r (a b c : string) : (a ++ c = b ++ c)%string -> a = b.
Proof.
  revert b. induction a as [|x a IH]; intros [|y b] H; simpl in H.
  - reflexivity.
  - apply (f_equal String.length) in H. simpl in H. rewrite append_length in H. lia.
  - apply (f_equal String.length) in H. simpl in H. rewrite append_length in H. lia.
  - inversion H. f_equal. apply IH. assumption.
Qed.

Lemma stored_name_inj (data : list Byte.byte) (s1 s2 : string) :
  stored_name data s1 = stored_name data s2 <-> s1 = s2.
Proof.
  split; [|intros ->; reflexivity].
  unfold stored_name. intros H.
  apply append_cancel_l in H. apply (append_cancel_l "_") in H.
  apply append_cancel_r in H. exact H.
Qed.

(** C7 (as amended). Result persistence names the stored file
    {hash}_{suffix}.png where the hash is the first 16 hexadecimal digits
    of the SHA-256 digest of the artifact bytes and the suffix the first 8
    hexadecimal digits of a UUID drawn for the call.  Two persist calls
    with byte-identical input return the same hash, and filenames with
    the same 16-character prefix; the filenames differ exactly when the
    two suffixes differ. *)
Theorem persist_filenames (cfg : Config) (data : list Byte.byte)
  (meta1 meta2 : list (string * json)) (env1 env2 : Env) (w1 w2 w1' w2' : World)
  (f1 h1 f2 h2 : string) :
  save_and_hash_image cfg data meta1 env1 w1 = Some (Ok (f1, h1), w1') ->
  save_and_hash_image cfg data meta2 env2 w2 = Some (Ok (f2, h2), w2') ->
  h1 = content_hash data /\ h2 = content_hash data
  /\ content_hash data = Text.take 16 (SHA256.hexdigest data)
  /\ f1 = (h1 ++ "_" ++ random_suffix env1 w1 ++ ".png")%string
  /\ f2 = (h2 ++ "_" ++ random_suffix env2 w2 ++ ".png")%string
  /\ Text.take 16 f1 = h1 /\ Text.take 16 f2 = h2
  /\ (f1 <> f2 <-> random_suffix env1 w1 <> random_suffix env2 w2).
Proof.
  intros H1 H2.
  rewrite save_and_hash_image_value in H1, H2. cbv zeta in H1, H2.
  destruct (fs_write env1 _ _); [discriminate|].
  destruct (fs_write env2 _ _); [discriminate|].
  destruct (encode (meta_get meta1 _ _)); [|discriminate].
  destruct (encode (meta_get meta2 _ _)); [|discriminate].
  inversion H1; subst f1 h1 w1'. inversion H2; subst f2 h2 w2'.
  repeat split; try reflexivity; try apply stored_name_prefix.
  - intros Hne Hs. apply Hne. rewrite Hs. reflexivity.
  - intros Hne Hf. apply Hne. apply (stored_name_inj data). exact Hf.
Qed.

Lemma persist_filenames_witness :
  exists f g w1 w2,
    save_and_hash_image default_config (list_byte_of_string "PNGDATA") []
      Scenario.good_env initial_world = Some (Ok (f, "2d4566582844690f"), w1)
    /\ save_and_hash_image default_config (list_byte_of_string "PNGDATA") []
         Scenario.good_env (tick initial_world 0 []) = Some (Ok (g, "2d4566582844690f"), w2)
    /\ Text.take 16 f = Text.take 16 g.
Proof.
  eassert (E1 : save_and_hash_image default_config (list_byte_of_string "PNGDATA") []
                  Scenario.good_env initial_world = Some (Ok (_, _), _))
    by (vm_compute; reflexivity).
  eassert (E2 : save_and_hash_image default_config (list_byte_of_string "PNGDATA") []
                  Scenario.good_env (tick initial_world 0 []) = Some (Ok (_, _), _))
    by (vm_compute; reflexivity).
  eexists _, _, _, _. split; [exact E1|]. split; [exact E2|].
  destruct (persist_filenames _ _ _ _ _ _ _ _ _ _ _ _ _ _ E1 E2)
    as (_ & _ & _ & _ & _ & Hf & Hg & _).
  exact (eq_trans Hf (eq_sym Hg)).
Defined.

(** Two persist calls in a row with the same bytes, each with its own
    fresh UUID: the UUIDs differ, their first eight hexadecimal digits do
    not, and the two filenames are the same. *)
Lemma same_suffix_same_filename :
  let data := list_byte_of_string "PNGDATA" in
  exists f h w1 w2,
    save_and_hash_image default_config data [] Scenario.good_env initial_world
    = Some (Ok (f, h), w1)
    /\ save_and_hash_image default_config data [] Scenario.good_env w1
       = Some (Ok (f, h), w2)
    /\ uuid4_of_random (urandom16 Scenario.good_env (w_steps initial_world))
       <> uuid4_of_random (urandom16 Scenario.good_env (w_steps w1)).
Proof.
  cbv zeta. eexists _, _, _, _.
  split; [vm_compute; reflexivity|]. split; [vm_compute; reflexivity|].
  vm_compute. discriminate.
Qed.

(** C9 (as amended). The audit record consists of the image hash, the
    stored filename, the timestamp, the caller's persona_id and user_id
    copied as they are, the seed, and prompt_hash: the first 16
    hexadecimal digits of the SHA-256 digest of the prompt.  The prompt
    enters it through that digest only: two generations that agree on
    persona_id and user_id and whose prompts have equal digests persist
    the same bytes in the same way and emit the same audit record. *)
Theorem audit_holds_only_the_digest (cfg : Config) (data : list Byte.byte)
  (req1 req2 : GenerateRequest) (seed : Z) (env : Env) (w : World) :
  persona_id req1 = persona_id req2 ->
  user_id req1 = user_id req2 ->
  prompt_digest (prompt req1) = prompt_digest (prompt req2) ->
  save_and_hash_image cfg data (request_metadata req1 seed) env w
  = save_and_hash_image cfg data (request_metadata req2 seed) env w
  /\ (forall f h w',
        save_and_hash_image cfg data (request_metadata req1 seed) env w
        = Some (Ok (f, h), w') ->
        w' = logged INFO
               (Generated
                  (audit_record h f (utcnow env (S (S (w_steps w))))
                     (Py.opt_str (persona_id req1)) (Py.opt_str (user_id req1))
                     (JInt seed)
                     (Text.take 16 (SHA256.hexdigest (list_byte_of_string (prompt req1))))))
               (stored cfg data f w)).
Proof.
  intros Hp Hu Hd. split.
  - rewrite !save_and_hash_image_value. cbv zeta.
    unfold request_metadata, meta_get.
    cbn [Py.assoc String.eqb Ascii.eqb Bool.eqb encode].
    fold (prompt_digest (prompt req1)). fold (prompt_digest (prompt req2)).
    rewrite Hp, Hu, Hd. reflexivity.
  - intros f h w'. rewrite save_and_hash_image_value. cbv zeta.
    unfold request_metadata, meta_get.
    cbn [Py.assoc String.eqb Ascii.eqb Bool.eqb encode].
    destruct (fs_write env _ _); [discriminate|].
    intros H. inversion H. reflexivity.
Qed.

Lemma audit_holds_only_the_digest_witness :
  save_and_hash_image default_config (list_byte_of_string "PNGDATA")
    (request_metadata Scenario.landscape 7) Scenario.good_env initial_world
  = save_and_hash_image default_config (list_byte_of_string "PNGDATA")
      (request_metadata (Scenario.with_negative Scenario.landscape (Some "blurry")) 7)
      Scenario.good_env initial_world.
Proof.
  apply (proj1 (audit_holds_only_the_digest default_config (list_byte_of_string "PNGDATA")
                  Scenario.landscape
                  (Scenario.with_negative Scenario.landscape (Some "blurry"))
                  7 Scenario.good_env initial_world eq_refl eq_refl eq_refl)).
Defined.

(** A caller that passes the prompt text as persona_id gets it back in
    the audit record, as it is. *)
Lemma audit_field_may_equal_prompt :
  let req := Scenario.with_persona Scenario.landscape
               (Some "a mountain landscape at sunset") in
  exists response w' entry,
    generate_image default_config req Scenario.good_env initial_world
    = Some (Ok response, w')
    /\ success response = true
    /\ In (EvLog INFO (Generated entry)) (w_trace w')
    /\ field "persona_id" entry = Some (JStr (prompt req)).
Proof.
  cbv zeta. eexists _, _, _. split; [vm_compute; reflexivity|].
  split; [reflexivity|]. split; [left; reflexivity | reflexivity].
Qed.

(* ------------------------------------------------------------------ *)
(** ** What a run of the pipeline leaves in the trace *)
(* ------------------------------------------------------------------ *)

Lemma queue_prompt_world (cfg : Config) (workflow : json) (env : Env) (w : World) :
  exists r,
    queue_prompt cfg workflow env w
    = Some (r, exchanged env (submit_request cfg workflow) w).
Proof.
  unfold queue_prompt, bind. fold (submit_request cfg workflow). rewrite send_value.
  destruct (fst (http env _ _)) as [response|cls msg]; [|eauto].
  destruct (negb (status_code response =? 200)); [eexists; reflexivity|].
  unfold response_json. destruct (json_body response) as [body|]; [|eexists; reflexivity].
  unfold ret, lift. destruct (Py.getitem body (JStr "prompt_id")); eexists; reflexivity.
Qed.

Lemma emits_after_submit (cfg : Config) (req : GenerateRequest) (seed : Z) (prompt_id : json) :
  emits engine_side (after_submit cfg req seed prompt_id).
Proof.
  unfold after_submit.
  apply emits_bind; [apply emits_wait_for_completion | intros history].
  apply emits_bind; [apply emits_get_generated_image | intros fetched].
  apply emits_save_and_hash_image.
Qed.

(** Every run of the pipeline starts with the submission of the
    workflow. *)
Lemma run_pipeline_starts_with_submit (cfg : Config) (req : GenerateRequest)
  (safe_prompt safe_negative : string) (seed steps : Z) (cfg_value : Q) (width height : Z)
  (env : Env) (w : World) :
  let workflow :=
    build_comfyui_workflow safe_prompt safe_negative seed steps cfg_value width height
      (MODEL_NAME cfg) in
  let rq := submit_request cfg workflow in
  exists r w' added,
    run_pipeline cfg req safe_prompt safe_negative seed steps cfg_value width height env w
    = Some (r, w')
    /\ w_trace w' = (added ++ EvHttp rq (fst (http env (w_steps w) rq)) :: w_trace w)%list.
Proof.
  cbv zeta. unfold run_pipeline. cbv zeta.
  set (workflow := build_comfyui_workflow safe_prompt safe_negative seed steps cfg_value
                     width height (MODEL_NAME cfg)).
  set (rq := submit_request cfg workflow).
  unfold bind at 1.
  destruct (queue_prompt_world cfg workflow env w) as [r1 Hq]. fold rq in Hq. rewrite Hq.
  destruct r1 as [prompt_id|e].
  - destruct (emits_after_submit cfg req seed prompt_id env (exchanged env rq w))
      as (r & w' & added & Hrun & Ht & _).
    exists r, w', added. split; [exact Hrun | exact Ht].
  - eexists _, _, []. split; reflexivity.
Qed.

(** A run of the pipeline that returns ends with the audit record, which
    carries the seed the workflow was built with. *)
Lemma run_pipeline_ends_with_audit (cfg : Config) (req : GenerateRequest)
  (safe_prompt safe_negative : string) (seed steps : Z) (cfg_value : Q) (width height : Z)
  (env : Env) (w w' : World) (f h : string) :
  run_pipeline cfg req safe_prompt safe_negative seed steps cfg_value width height env w
  = Some (Ok (f, h), w') ->
  exists timestamp rest,
    w_trace w'
    = EvLog INFO
        (Generated
           (audit_record h f timestamp (Py.opt_str (persona_id req))
              (Py.opt_str (user_id req)) (JInt seed) (prompt_digest (prompt req))))
      :: rest.
Proof.
  unfold run_pipeline. cbv zeta. intros H.
  apply bind_ok in H. destruct H as (prompt_id & w1 & _ & H).
  apply bind_ok in H. destruct H as (history & w2 & _ & H).
  apply bind_ok in H. destruct H as (fetched & w3 & _ & H).
  rewrite save_and_hash_image_value in H. cbv zeta in H.
  unfold request_metadata, meta_get in H.
  cbn [Py.assoc String.eqb Ascii.eqb Bool.eqb encode] in H.
  destruct (fs_write env _ _); [discriminate|].
  inversion H. eexists _, _. reflexivity.
Qed.

Lemma attempt_is_run_pipeline (cfg : Config) (req : GenerateRequest) (seed : Z)
  (env : Env) (w : World) :
  attempt cfg req seed env w
  = match run_pipeline cfg req
            (fst (build_safe_prompt (prompt req) (Py.or_str (negative_prompt req) "")))
            (snd (build_safe_prompt (prompt req) (Py.or_str (negative_prompt req) "")))
            seed
            (Py.or_int (steps req) (DEFAULT_STEPS cfg))
            (Py.or_float (cfg_scale req) (DEFAULT_CFG cfg))
            (Py.or_int (width req) (DEFAULT_WIDTH cfg))
            (Py.or_int (height req) (DEFAULT_HEIGHT cfg)) env w with
    | Some (Ok (filename, image_hash), w') =>
        Some (Ok (success_response filename image_hash seed), w')
    | Some (Raise e, w') => Some (Raise e, w')
    | None => None
    end.
Proof.
  unfold attempt, sync_attempt, bind.
  destruct (run_pipeline _ _ _ _ _ _ _ _ _ env w) as [[[[f h]|e] w']|]; reflexivity.
Qed.

Lemma async_pipeline_value (cfg : Config) (req : GenerateAsyncRequest)
  (env : Env) (w : World) :
  async_pipeline cfg req env w
  = match resolve_seed (base req) env w with
    | Some (Ok seed, w1) =>
        match run_pipeline cfg (base req)
                (fst (build_safe_prompt (prompt (base req))
                        (Py.or_str (negative_prompt (base req)) "")))
                (snd (build_safe_prompt (prompt (base req))
                        (Py.or_str (negative_prompt (base req)) "")))
                seed
                (Py.or_int (steps (base req)) (DEFAULT_STEPS cfg))
                (Py.or_float (cfg_scale (base req)) (DEFAULT_CFG cfg))
                (Py.or_int (width (base req)) (DEFAULT_WIDTH cfg))
                (Py.or_int (height (base req)) (DEFAULT_HEIGHT cfg)) env w1 with
        | Some (Ok saved, w') => Some (Ok (saved, seed), w')
        | Some (Raise e, w') => Some (Raise e, w')
        | None => None
        end
    | Some (Raise e, w1) => Some (Raise e, w1)
    | None => None
    end.
Proof.
  unfold async_pipeline.
  destruct (build_safe_prompt _ _) as [safe_prompt safe_negative]. cbn [fst snd].
  unfold bind. destruct (resolve_seed (base req) env w) as [[[seed|e] w1]|]; reflexivity.
Qed.

(** A successful answer of the synchronous endpoint comes from a run of
    the pipeline that returned. *)
Lemma sync_success_inv (cfg : Config) (req : GenerateRequest) (env : Env) (w w' : World)
  (response : GenerateResponse) :
  generate_image cfg req env w = Some (Ok response, w') ->
  success response = true ->
  exists seed w1 f h,
    resolve_seed req env w = Some (Ok seed, w1)
    /\ w_trace w1 = w_trace w
    /\ run_pipeline cfg req
         (fst (build_safe_prompt (prompt req) (Py.or_str (negative_prompt req) "")))
         (snd (build_safe_prompt (prompt req) (Py.or_str (negative_prompt req) "")))
         seed
         (Py.or_int (steps req) (DEFAULT_STEPS cfg))
         (Py.or_float (cfg_scale req) (DEFAULT_CFG cfg))
         (Py.or_int (width req) (DEFAULT_WIDTH cfg))
         (Py.or_int (height req) (DEFAULT_HEIGHT cfg)) env w1
       = Some (Ok (f, h), w')
    /\ response = success_response f h seed.
Proof.
  intros Hgen Hok.
  destruct (validate_prompt cfg (prompt req)) as [[[|] m]|] eqn:Hv.
  - rewrite (generate_image_allowed cfg req m env w Hv) in Hgen.
    destruct (resolve_seed_ok req env w) as (seed & w1 & Hseed & Ht & _).
    unfold bind, try_except in Hgen. rewrite Hseed, attempt_is_run_pipeline in Hgen.
    destruct (run_pipeline _ _ _ _ _ _ _ _ _ env w1) as [[[[f h]|e] w2]|] eqn:Hrun;
      [| |discriminate].
    + inversion Hgen; subst. exists seed, w1, f, h. auto.
    + destruct e as [s d|cls msg]; [discriminate|].
      inversion Hgen; subst. discriminate Hok.
  - rewrite (generate_image_rejected cfg req m env w Hv) in Hgen. discriminate.
  - unfold generate_image, check_prompt in Hgen. rewrite Hv in Hgen. discriminate.
Qed.

Lemma effective_workflow_inputs (cfg : Config) (req : GenerateRequest) (seed : Z) :
  let workflow := effective_workflow cfg req seed in
  input_of workflow "3" "seed" = Some (JInt seed)
  /\ input_of workflow "3" "steps" = Some (JInt (Py.or_int (steps req) (DEFAULT_STEPS cfg)))
  /\ input_of workflow "3" "cfg"
     = Some (JFloat (Py.or_float (cfg_scale req) (DEFAULT_CFG cfg)))
  /\ input_of workflow "5" "width" = Some (JInt (Py.or_int (width req) (DEFAULT_WIDTH cfg)))
  /\ input_of workflow "5" "height"
     = Some (JInt (Py.or_int (height req) (DEFAULT_HEIGHT cfg)))
  /\ input_of workflow "6" "text" = Some (JStr (Text.strip (prompt req)))
  /\ input_of workflow "7" "text"
     = Some (JStr (snd (build_safe_prompt (prompt req)
                          (Py.or_str (negative_prompt req) "")))).
Proof. cbv zeta. repeat split; reflexivity. Qed.

(** C6 (as amended). A positive requested seed is the resolved seed, and
    no random value is drawn; an absent, zero or negative seed is
    replaced by a fresh random draw modulo 2^32.  An explicit steps,
    cfg_scale, width or height overrides the process default when it is
    not zero; an absent or zero one gives the default.  The resolved seed
    is the seed of the sampler node of the submitted workflow, the seed
    of the audit record, the seed_used of the synchronous response and
    the seed_used of the success callback payload. *)
Theorem seed_and_parameters (cfg : Config) (req : GenerateRequest) (env : Env) (w : World) :
  (forall s, seed req = Some s -> 0 < s -> resolve_seed req env w = Some (Ok s, w))
  /\ ((seed req = None \/ exists s, seed req = Some s /\ s <= 0) ->
      let fresh := uuid4_of_random (urandom16 env (w_steps w)) mod 2 ^ 32 in
      resolve_seed req env w = Some (Ok fresh, tick w 0 []) /\ 0 <= fresh < 2 ^ 32)
  /\ (forall resolved,
        let workflow := effective_workflow cfg req resolved in
        input_of workflow "3" "seed" = Some (JInt resolved)
        /\ (forall n, steps req = Some n -> n <> 0 ->
              input_of workflow "3" "steps" = Some (JInt n))
        /\ (steps req = None \/ steps req = Some 0 ->
              input_of workflow "3" "steps" = Some (JInt (DEFAULT_STEPS cfg)))
        /\ (forall q, cfg_scale req = Some q -> Qnum q <> 0 ->
              input_of workflow "3" "cfg" = Some (JFloat q))
        /\ (cfg_scale req = None \/ (exists q, cfg_scale req = Some q /\ Qnum q = 0) ->
              input_of workflow "3" "cfg" = Some (JFloat (DEFAULT_CFG cfg)))
        /\ (forall n, width req = Some n -> n <> 0 ->
              input_of workflow "5" "width" = Some (JInt n))
        /\ (width req = None \/ width req = Some 0 ->
              input_of workflow "5" "width" = Some (JInt (DEFAULT_WIDTH cfg)))
        /\ (forall n, height req = Some n -> n <> 0 ->
              input_of workflow "5" "height" = Some (JInt n))
        /\ (height req = None \/ height req = Some 0 ->
              input_of workflow "5" "height" = Some (JInt (DEFAULT_HEIGHT cfg))))
  /\ (forall response w',
        generate_image cfg req env w = Some (Ok response, w') ->
        success response = true ->
        exists resolved w1 added f h timestamp rest,
          resolve_seed req env w = Some (Ok resolved, w1)
          /\ seed_used response = Some resolved
          /\ w_trace w'
             = (added
                ++ EvHttp (submit_request cfg (effective_workflow cfg req resolved))
                     (fst (http env (w_steps w1)
                             (submit_request cfg (effective_workflow cfg req resolved))))
                :: w_trace w)%list
          /\ w_trace w'
             = EvLog INFO
                 (Generated
                    (audit_record h f timestamp (Py.opt_str (persona_id req))
                       (Py.opt_str (user_id req)) (JInt resolved)
                       (prompt_digest (prompt req))))
               :: rest)
  /\ (forall areq f h resolved w',
        base areq = req ->
        async_pipeline cfg areq env w = Some (Ok (f, h, resolved), w') ->
        exists w1 timestamp rest,
          resolve_seed req env w = Some (Ok resolved, w1)
          /\ field "seed_used" (callback_data areq f h resolved) = Some (JInt resolved)
          /\ w_trace w'
             = EvLog INFO
                 (Generated
                    (audit_record h f timestamp (Py.opt_str (persona_id req))
                       (Py.opt_str (user_id req)) (JInt resolved)
                       (prompt_digest (prompt req))))
               :: rest).
Proof.
  split; [|split; [|split; [|split]]].
  - intros s Hs Hpos. rewrite resolve_seed_value, Hs.
    destruct (Z.ltb_spec 0 s); [reflexivity | lia].
  - intros Hseed. cbv zeta. split; [|apply Z.mod_pos_bound; lia].
    rewrite resolve_seed_value.
    destruct Hseed as [-> | (s & -> & Hs)]; [reflexivity|].
    destruct (Z.ltb_spec 0 s); [lia | reflexivity].
  - intros resolved. cbv zeta.
    destruct (effective_workflow_inputs cfg req resolved) as (Hs & Hst & Hc & Hw & Hh & _).
    cbv zeta in Hs, Hst, Hc, Hw, Hh.
    rewrite Hst, Hc, Hw, Hh. split; [exact Hs|].
    unfold Py.or_int, Py.or_float.
    repeat split.
    + intros n -> Hn. apply Z.eqb_neq in Hn. rewrite Hn. reflexivity.
    + intros [-> | ->]; reflexivity.
    + intros q -> Hq. apply Z.eqb_neq in Hq. rewrite Hq. reflexivity.
    + intros [-> | (q & -> & Hq)]; [reflexivity|]. rewrite Hq. reflexivity.
    + intros n -> Hn. apply Z.eqb_neq in Hn. rewrite Hn. reflexivity.
    + intros [-> | ->]; reflexivity.
    + intros n -> Hn. apply Z.eqb_neq in Hn. rewrite Hn. reflexivity.
    + intros [-> | ->]; reflexivity.
  - intros response w' Hgen Hok.
    destruct (sync_success_inv cfg req env w w' response Hgen Hok)
      as (resolved & w1 & f & h & Hseed & Ht & Hrun & ->).
    destruct (run_pipeline_ends_with_audit _ _ _ _ _ _ _ _ _ _ _ _ _ _ Hrun)
      as (timestamp & rest & Haudit).
    destruct (run_pipeline_starts_with_submit cfg req
                (fst (build_safe_prompt (prompt req) (Py.or_str (negative_prompt req) "")))
                (snd (build_safe_prompt (prompt req) (Py.or_str (negative_prompt req) "")))
                resolved
                (Py.or_int (steps req) (DEFAULT_STEPS cfg))
                (Py.or_float (cfg_scale req) (DEFAULT_CFG cfg))
                (Py.or_int (width req) (DEFAULT_WIDTH cfg))
                (Py.or_int (height req) (DEFAULT_HEIGHT cfg)) env w1)
      as (r & w2 & added & Hrun' & Hstart).
    rewrite Hrun in Hrun'. inversion Hrun'; subst r w2.
    exists resolved, w1, added, f, h, timestamp, rest.
    split; [exact Hseed|]. split; [reflexivity|].
    split; [|exact Haudit].
    rewrite Hstart, Ht. reflexivity.
  - intros areq f h resolved w' <- Hpipe.
    rewrite async_pipeline_value in Hpipe.
    destruct (resolve_seed (base areq) env w) as [[[s|e] w1]|] eqn:Hseed; try discriminate.
    destruct (run_pipeline _ _ _ _ _ _ _ _ _ env w1) as [[[[f' h']|e] w2]|] eqn:Hrun;
      try discriminate.
    inversion Hpipe; subst f' h' s w2.
    destruct (run_pipeline_ends_with_audit _ _ _ _ _ _ _ _ _ _ _ _ _ _ Hrun)
      as (timestamp & rest & Haudit).
    exists w1, timestamp, rest. split; [reflexivity|]. split; [reflexivity | exact Haudit].
Qed.

Lemma seed_and_parameters_witness :
  let req := Scenario.with_steps (Scenario.with_seed Scenario.landscape (Some 42)) (Some 20) in
  resolve_seed req Scenario.good_env initial_world = Some (Ok 42, initial_world)
  /\ input_of (effective_workflow default_config req 42) "3" "steps" = Some (JInt 20)
  /\ input_of (effective_workflow default_config req 42) "5" "width" = Some (JInt 1024)
  /\ resolve_seed (Scenario.with_seed req (Some (-1))) Scenario.good_env initial_world
     = Some (Ok 2309737967, tick initial_world 0 []).
Proof.
  cbv zeta.
  set (req := Scenario.with_steps (Scenario.with_seed Scenario.landscape (Some 42)) (Some 20)).
  destruct (seed_and_parameters default_config req Scenario.good_env initial_world)
    as (Hpositive & _ & Hparams & _).
  destruct (Hparams 42) as (_ & Hsteps & _ & _ & _ & _ & Hwidth & _).
  split; [apply Hpositive; [reflexivity | lia]|].
  split; [apply Hsteps; [reflexivity | discriminate]|].
  split; [apply Hwidth; left; reflexivity|].
  destruct (seed_and_parameters default_config (Scenario.with_seed req (Some (-1)))
              Scenario.good_env initial_world) as (_ & Hfresh & _).
  apply Hfresh. right. exists (-1). split; [reflexivity | lia].
Defined.

(** A request with the explicit field steps = 0: the workflow submitted
    for it carries the process default, 32 steps. *)
Lemma explicit_zero_does_not_override :
  let req := Scenario.with_steps Scenario.landscape (Some 0) in
  exists response w' workflow reply,
    generate_image default_config req Scenario.good_env initial_world
    = Some (Ok response, w')
    /\ In (EvHttp (submit_request default_config workflow) reply) (w_trace w')
    /\ steps req = Some 0
    /\ input_of workflow "3" "steps" = Some (JInt 32).
Proof.
  cbv zeta. eexists _, _, _, _. split; [vm_compute; reflexivity|].
  split; [do 6 right; left; reflexivity|].
  split; reflexivity.
Qed.

(* ------------------------------------------------------------------ *)
(** ** The safety verdict of the endpoints *)
(* ------------------------------------------------------------------ *)

Lemma generate_image_rejection (cfg : Config) (req : GenerateRequest) (env : Env) (w : World) :
  rejection_of (generate_image cfg req env w) = filter_rejection cfg (prompt req).
Proof.
  unfold filter_rejection.
  destruct (validate_prompt cfg (prompt req)) as [[[|] m]|] eqn:Hv.
  - rewrite (generate_image_allowed cfg req m env w Hv).
    destruct (resolve_seed_ok req env w) as (seed & w1 & Hseed & _).
    unfold bind, try_except. rewrite Hseed.
    destruct (attempt cfg req seed env w1) as [[[response|e] w2]|] eqn:Hatt; try reflexivity.
    destruct e as [s d|cls msg]; [|reflexivity].
    pose proof (throws_sync_attempt _ _ _ _ _ _ _ _ _ env w1 _ w2 Hatt) as Hs.
    simpl in Hs. simpl. destruct Hs as [-> | ->]; reflexivity.
  - rewrite (generate_image_rejected cfg req m env w Hv). reflexivity.
  - unfold generate_image, check_prompt. rewrite Hv. reflexivity.
Qed.

Lemma generate_image_async_rejection (cfg : Config) (req : GenerateAsyncRequest)
  (env : Env) (w : World) :
  rejection_of (generate_image_async cfg req env w) = filter_rejection cfg (prompt (base req)).
Proof.
  rewrite generate_image_async_value. unfold filter_rejection.
  destruct (validate_prompt cfg (prompt (base req))) as [[[|] m]|]; reflexivity.
Qed.

(** What the background task adds after its pipeline keeps the events of
    the pipeline. *)
Lemma process_async_generation_extends (cfg : Config) (req : GenerateAsyncRequest)
  (env : Env) (w : World) (r1 : result (string * string * Z)) (w1 : World) :
  async_pipeline cfg req env w = Some (r1, w1) ->
  exists w' extra,
    process_async_generation cfg req env w = Some (Ok tt, w')
    /\ w_trace w' = (extra ++ w_trace w1)%list.
Proof.
  intros Hpipe. rewrite (process_async_generation_value cfg req env w r1 w1 Hpipe).
  destruct r1 as [[[filename image_hash] seed]|e].
  - rewrite send_success_value. cbv zeta.
    destruct (fst (http env _ _)).
    + eexists _, [_; _]. split; reflexivity.
    + rewrite async_handler_value. eexists _, [_; _; _]. split; reflexivity.
  - rewrite async_handler_value. eexists _, [_; _]. split; reflexivity.
Qed.

(** C10. The safety verdict depends on the prompt field only: two
    requests with the same prompt are rejected alike, with the same
    message, or not at all, by either endpoint, whatever their other
    fields and whatever the engine does.  When the prompt passes, the
    request goes on to job submission whatever the negative prompt holds:
    the synchronous handler submits the workflow, whose negative encoder
    is given the composed negative prompt containing the user's text; the
    asynchronous handler acknowledges and hands over the task, and the
    task, run after the response, submits the same workflow. *)
Theorem verdict_depends_on_prompt_only (cfg : Config) (req1 req2 : GenerateRequest)
  (id1 url1 id2 url2 : string) (env1 env2 : Env) (w1 w2 : World) :
  prompt req1 = prompt req2 ->
  let areq1 := {| base := req1; request_id := id1; callback_url := url1 |} in
  let areq2 := {| base := req2; request_id := id2; callback_url := url2 |} in
  rejection_of (generate_image cfg req1 env1 w1)
  = rejection_of (generate_image cfg req2 env2 w2)
  /\ rejection_of (generate_image_async cfg areq1 env1 w1)
     = rejection_of (generate_image_async cfg areq2 env2 w2)
  /\ rejection_of (generate_image cfg req1 env1 w1)
     = rejection_of (generate_image_async cfg areq1 env1 w1)
  /\ (forall m,
        validate_prompt cfg (prompt req1) = Some (true, m) ->
        (exists seed w r w' added,
           resolve_seed req2 env2 w2 = Some (Ok seed, w)
           /\ generate_image cfg req2 env2 w2 = Some (r, w')
           /\ w_trace w'
              = (added
                 ++ EvHttp (submit_request cfg (effective_workflow cfg req2 seed))
                      (fst (http env2 (w_steps w)
                              (submit_request cfg (effective_workflow cfg req2 seed))))
                 :: w_trace w2)%list
           /\ input_of (effective_workflow cfg req2 seed) "7" "text"
              = Some (JStr (snd (build_safe_prompt (prompt req2)
                                   (Py.or_str (negative_prompt req2) "")))))
        /\ (exists ack seed w w' added,
              generate_image_async cfg areq2 env2 w2 = Some (Ok (ack, [areq2]), w2)
              /\ status ack = "queued"
              /\ resolve_seed req2 env2 w2 = Some (Ok seed, w)
              /\ process_async_generation cfg areq2 env2 w2 = Some (Ok tt, w')
              /\ serve_generate_async cfg areq2 env2 w2 = Some (Ok ack, w')
              /\ w_trace w'
                 = (added
                    ++ EvHttp (submit_request cfg (effective_workflow cfg req2 seed))
                         (fst (http env2 (w_steps w)
                                 (submit_request cfg (effective_workflow cfg req2 seed))))
                    :: w_trace w2)%list
              /\ input_of (effective_workflow cfg req2 seed) "7" "text"
                 = Some (JStr (snd (build_safe_prompt (prompt req2)
                                      (Py.or_str (negative_prompt req2) "")))))).
Proof.
  intros Hp. cbv zeta.
  rewrite !generate_image_rejection, !generate_image_async_rejection. cbn [base].
  rewrite Hp. split; [reflexivity|]. split; [reflexivity|]. split; [reflexivity|].
  intros m Hv.
  destruct (resolve_seed_ok req2 env2 w2) as (seed & w & Hseed & Ht & _).
  destruct (run_pipeline_starts_with_submit cfg req2
              (fst (build_safe_prompt (prompt req2) (Py.or_str (negative_prompt req2) "")))
              (snd (build_safe_prompt (prompt req2) (Py.or_str (negative_prompt req2) "")))
              seed
              (Py.or_int (steps req2) (DEFAULT_STEPS cfg))
              (Py.or_float (cfg_scale req2) (DEFAULT_CFG cfg))
              (Py.or_int (width req2) (DEFAULT_WIDTH cfg))
              (Py.or_int (height req2) (DEFAULT_HEIGHT cfg)) env2 w)
    as (r & w' & added & Hrun & Hstart).
  cbv zeta in Hstart. fold (effective_workflow cfg req2 seed) in Hstart.
  rewrite Ht in Hstart.
  split.
  - rewrite (generate_image_allowed cfg req2 m env2 w2 Hv).
    unfold bind, try_except. rewrite Hseed, attempt_is_run_pipeline, Hrun.
    destruct r as [[f h]|[s d|cls msg]].
    + exists seed, w. eexists _, _, added.
      split; [reflexivity|]. split; [reflexivity|]. split; [exact Hstart | reflexivity].
    + exists seed, w. eexists _, _, added.
      split; [reflexivity|]. split; [reflexivity|]. split; [exact Hstart | reflexivity].
    + exists seed, w. eexists _, _, (_ :: added).
      split; [reflexivity|]. split; [reflexivity|].
      split; [|reflexivity].
      cbn [sync_handler bind log ret w_trace]. rewrite Hstart. reflexivity.
  - set (areq2 := {| base := req2; request_id := id2; callback_url := url2 |}).
    assert (Hpipe : exists r1, async_pipeline cfg areq2 env2 w2 = Some (r1, w')).
    { rewrite async_pipeline_value. cbn [base areq2]. rewrite Hseed, Hrun.
      destruct r; eexists; reflexivity. }
    destruct Hpipe as [r1 Hpipe].
    destruct (process_async_generation_extends cfg areq2 env2 w2 r1 w' Hpipe)
      as (wf & extra & Hproc & Hextra).
    eexists _, seed, w, wf, (extra ++ added)%list.
    split; [rewrite generate_image_async_value; cbn [base areq2]; rewrite Hv; reflexivity|].
    split; [reflexivity|]. split; [exact Hseed|]. split; [exact Hproc|].
    split; [|split; [|reflexivity]].
    + unfold serve_generate_async. unfold bind at 1.
      rewrite generate_image_async_value. cbn [base areq2]. rewrite Hv.
      cbn [snd fst run_background_tasks]. unfold bind.
      fold areq2. rewrite Hproc. reflexivity.
    + rewrite Hextra, Hstart, <- app_assoc. reflexivity.
Qed.

Lemma verdict_depends_on_prompt_only_witness :
  let banned := "a photo of taylor swift in a school uniform" in
  let req := Scenario.with_negative Scenario.landscape (Some banned) in
  let areq := {| base := req; request_id := "b"; callback_url := "v" |} in
  filter_rejection default_config banned
  = Some "Prompt rejected: celebrities content not allowed"
  /\ rejection_of (generate_image default_config req Scenario.good_env initial_world) = None
  /\ (exists seed w r w' added,
        generate_image default_config req Scenario.good_env initial_world = Some (r, w')
        /\ w_trace w'
           = (added
              ++ EvHttp (submit_request default_config
                           (effective_workflow default_config req seed))
                   (fst (http Scenario.good_env (w_steps w)
                           (submit_request default_config
                              (effective_workflow default_config req seed))))
              :: w_trace initial_world)%list
        /\ input_of (effective_workflow default_config req seed) "7" "text"
           = Some (JStr (banned ++ ", " ++ mandatory_block)))
  /\ (exists ack seed w w' added,
        serve_generate_async default_config areq Scenario.good_env initial_world
        = Some (Ok ack, w')
        /\ w_trace w'
           = (added
              ++ EvHttp (submit_request default_config
                           (effective_workflow default_config req seed))
                   (fst (http Scenario.good_env (w_steps w)
                           (submit_request default_config
                              (effective_workflow default_config req seed))))
              :: w_trace initial_world)%list).
Proof.
  cbv zeta.
  set (banned := "a photo of taylor swift in a school uniform").
  set (req := Scenario.with_negative Scenario.landscape (Some banned)).
  destruct (verdict_depends_on_prompt_only default_config Scenario.landscape req
              "a" "u" "b" "v" Scenario.good_env Scenario.good_env
              initial_world initial_world eq_refl) as (Hsame & _ & _ & Hgo).
  split; [vm_compute; reflexivity|].
  split; [rewrite <- Hsame; vm_compute; reflexivity|].
  destruct (Hgo "") as [(seed & w & r & w' & added & _ & Hrun & Hstart & Hneg)
                          (ack & seed2 & w2 & w2' & added2 & _ & _ & _ & _ & Hserve & Htrace & _)];
    [vm_compute; reflexivity|].
  split.
  - exists seed, w, r, w', added.
    split; [exact Hrun|]. split; [exact Hstart|].
    rewrite Hneg.
    exact (f_equal (fun x => Some (JStr x)) (combined_negative_value (prompt req) banned)).
  - exists ack, seed2, w2, w2', added2. split; [exact Hserve | exact Htrace].
Defined.


(* ================================================================== *)
(** * Further properties of the code *)
(* ================================================================== *)

(* ------------------------------------------------------------------ *)
(** ** The filter and the text around a banned phrase *)
(* ------------------------------------------------------------------ *)

Lemma validate_loop_rejected (items : list (string * string)) (text m : string) :
  validate_loop items text = Some (false, m) ->
  exists c p r,
    In (c, p) items /\ Re.compile p = Some r
    /\ Re.scan true r None (Text.decode text) = true.
Proof.
  induction items as [|[c p] items IH]; simpl; [discriminate|].
  unfold Re.search. destruct (Re.compile p) as [r|] eqn:Ec; [|discriminate].
  destruct (Re.scan true r None (Text.decode text)) eqn:Es.
  - intros _. exists c, p, r. auto.
  - intros H. destruct (IH H) as (c' & p' & r' & Hin & Hc & Hs).
    exists c', p', r'. auto.
Qed.

Lemma validate_loop_hit (items : list (string * string)) (text : string) :
  (forall c p, In (c, p) items -> exists r, Re.compile p = Some r) ->
  (exists c p r,
     In (c, p) items /\ Re.compile p = Some r
     /\ Re.scan true r None (Text.decode text) = true) ->
  exists m, validate_loop items text = Some (false, m).
Proof.
  induction items as [|[c p] items IH]; intros Hall (c0 & p0 & r0 & Hin & Hc & Hs);
    [destruct Hin|].
  simpl. destruct (Hall c p (or_introl eq_refl)) as [r Hr].
  unfold Re.search. rewrite Hr.
  destruct (Re.scan true r None (Text.decode text)) eqn:Es; [eauto|].
  apply IH.
  - intros c' p' Hin'. apply (Hall c' p'). right. exact Hin'.
  - destruct Hin as [Heq | Hin].
    + inversion Heq; subst. rewrite Hr in Hc. inversion Hc; subst. congruence.
    + exists c0, p0, r0. auto.
Qed.

(** A rejected text stays rejected inside a longer one, when the three
    pieces are made of whole characters and the text around ends, and
    starts, outside a word. *)
Lemma rejected_when_split (cfg : Config) (pre text post m : string) :
  Text.decode (pre ++ text ++ post)
  = (Text.decode pre ++ Text.decode text ++ Text.decode post)%list ->
  validate_prompt cfg text = Some (false, m) ->
  ends_outside_word pre ->
  starts_outside_word post ->
  exists m', validate_prompt cfg (pre ++ text ++ post) = Some (false, m').
Proof.
  unfold validate_prompt. destruct (negb (ENABLE_SAFETY cfg)); [discriminate|].
  intros Hsplit Hrej Hpre Hpost.
  destruct (validate_loop_rejected _ _ _ Hrej) as (c & p & r & Hin & Hc & Hs).
  apply validate_loop_hit; [exact patterns_compile|].
  exists c, p, r. split; [exact Hin|]. split; [exact Hc|].
  rewrite decode_lower in *. rewrite Hsplit.
  apply lower_padded; [exact (patterns_ascii c p r Hin Hc) | exact Hpre | exact Hpost | exact Hs].
Qed.

(** X1. A rejected text stays rejected (possibly under an earlier
    category) when it is embedded in a longer prompt, as long as the text
    before it is empty or ends outside a word and the text after it is
    empty or starts outside a word (in the sense of [\w] on [str], so an
    accented letter is part of a word): padding a banned phrase does not
    get it past the filter.  The text before and the phrase are whole
    strings, not cut inside a character. *)
Theorem padding_does_not_evade (cfg : Config) (pre text post m : string) :
  Text.well_formed pre ->
  Text.well_formed text ->
  validate_prompt cfg text = Some (false, m) ->
  ends_outside_word pre ->
  starts_outside_word post ->
  exists m', validate_prompt cfg (pre ++ text ++ post) = Some (false, m').
Proof.
  intros Wpre Wtext. apply rejected_when_split.
  rewrite (decode_append pre _ Wpre), (decode_append text _ Wtext). reflexivity.
Qed.

Lemma padding_does_not_evade_witness :
  exists m,
    validate_prompt default_config
      ("portrait au caf" ++ Text.encode [0xE9] ++ ", My Face"
       ++ Text.encode [0x2014] ++ "looks like a painting")
    = Some (false, m).
Proof.
  apply (padding_does_not_evade default_config
           ("portrait au caf" ++ Text.encode [0xE9] ++ ", ") "My Face"
           (Text.encode [0x2014] ++ "looks like a painting")
           "Prompt rejected: face_swap content not allowed").
  - vm_compute. reflexivity.
  - vm_compute. reflexivity.
  - vm_compute. reflexivity.
  - vm_compute. reflexivity.
  - vm_compute. reflexivity.
Defined.

(* ------------------------------------------------------------------ *)
(** ** Fetching the generated image *)
(* ------------------------------------------------------------------ *)

Lemma scan_outcome_after_refused (cfg : Config) (pre added : list event)
  (r : result (option (json * list Byte.byte))) :
  Forall (refused_view cfg) pre ->
  scan_outcome cfg added r ->
  scan_outcome cfg (pre ++ added) r.
Proof.
  intros Hpre. destruct r as [[[filename data]|]|e]; simpl.
  - intros (skipped & sub & reply & -> & Hs & Hok & Hc).
    exists (pre ++ skipped)%list, sub, reply. rewrite app_assoc.
    split; [reflexivity|]. split; [apply Forall_app; auto | auto].
  - intros H. apply Forall_app. auto.
  - intros (Hne & skipped & last & -> & Hs & Hlast). split; [exact Hne|].
    exists (pre ++ skipped)%list, last. rewrite app_assoc.
    split; [reflexivity|]. split; [apply Forall_app; auto | exact Hlast].
Qed.

Lemma scan_outcome_raise_early (cfg : Config) (e : exn) :
  is_http_exception e = false -> scan_outcome cfg [] (Raise e).
Proof.
  intros H. split; [exact H|]. exists [], []. split; [reflexivity|]. split; [constructor | auto].
Qed.

Lemma fetch_images_outcome (cfg : Config) (images : list json) :
  forall env w,
  exists r w' added,
    fetch_images cfg images env w = Some (r, w')
    /\ w_trace w' = (rev added ++ w_trace w)%list
    /\ scan_outcome cfg added r.
Proof.
  induction images as [|image_info rest IH]; intros env w.
  - exists (Ok None), w, []. split; [reflexivity|]. split; [reflexivity | constructor].
  - cbn [fetch_images]. unfold bind at 1.
    destruct (Py.getitem image_info (JStr "filename")) as [filename|e] eqn:Ef.
    2:{ exists (Raise e), w, []. split; [reflexivity|]. split; [reflexivity|].
        apply scan_outcome_raise_early. exact (getitem_not_http _ _ _ Ef). }
    cbn [lift ret]. unfold bind at 1.
    destruct (Py.get image_info "subfolder" (JStr "")) as [subfolder|e] eqn:Es.
    2:{ exists (Raise e), w, []. split; [reflexivity|]. split; [reflexivity|].
        apply scan_outcome_raise_early. exact (get_not_http _ _ _ _ Es). }
    cbn [lift ret]. unfold bind at 1.
    fold (view_request cfg filename subfolder). rewrite send_value.
    set (rq := view_request cfg filename subfolder).
    set (w1 := exchanged env rq w).
    assert (Ht1 : w_trace w1 = EvHttp rq (fst (http env (w_steps w) rq)) :: w_trace w)
      by reflexivity.
    destruct (fst (http env (w_steps w) rq)) as [reply|cls msg] eqn:Eo.
    + destruct (Z.eqb_spec (status_code reply) 200) as [Hok|Hno].
      * exists (Ok (Some (filename, content reply))), w1, [EvHttp rq (Replied reply)].
        split; [reflexivity|]. split; [exact Ht1|].
        exists [], subfolder, reply. split; [reflexivity|]. split; [constructor | auto].
      * destruct (IH env w1) as (r & w' & added & Hrun & Ht & Hout).
        exists r, w', (EvHttp rq (Replied reply) :: added)%list.
        split; [exact Hrun|].
        split; [rewrite Ht, Ht1; simpl; rewrite <- app_assoc; reflexivity|].
        apply (scan_outcome_after_refused cfg [EvHttp rq (Replied reply)]); [|exact Hout].
        constructor; [|constructor]. exists filename, subfolder, reply. auto.
    + exists (Raise (OtherException cls msg)), w1, [EvHttp rq (Failed cls msg)].
      split; [reflexivity|]. split; [exact Ht1|].
      split; [reflexivity|]. exists [], [EvHttp rq (Failed cls msg)].
      split; [reflexivity|]. split; [constructor|]. right.
      exists filename, subfolder, cls, msg. auto.
Qed.

Lemma scan_outputs_outcome (cfg : Config) (items : list (string * json)) :
  forall env w,
  exists r w' added,
    scan_outputs cfg items env w = Some (r, w')
    /\ w_trace w' = (rev added ++ w_trace w)%list
    /\ scan_outcome cfg added r.
Proof.
  induction items as [|[node_id node_output] rest IH]; intros env w.
  - exists (Ok None), w, []. split; [reflexivity|]. split; [reflexivity | constructor].
  - cbn [scan_outputs]. unfold bind at 1.
    destruct (Py.contains (JStr "images") node_output) as [[|]|e] eqn:Ec; cbn [lift ret].
    + unfold bind at 1.
      destruct (Py.getitem node_output (JStr "images")) as [images|e] eqn:Eg; cbn [lift ret].
      2:{ exists (Raise e), w, []. split; [reflexivity|]. split; [reflexivity|].
          apply scan_outcome_raise_early. exact (getitem_not_http _ _ _ Eg). }
      unfold bind at 1.
      destruct (Py.iter images) as [elements|e] eqn:Ei; cbn [lift ret].
      2:{ exists (Raise e), w, []. split; [reflexivity|]. split; [reflexivity|].
          apply scan_outcome_raise_early. exact (iter_not_http _ _ Ei). }
      unfold bind at 1.
      destruct (fetch_images_outcome cfg elements env w) as (r1 & w1 & added1 & -> & Ht1 & Ho1).
      destruct r1 as [[found|]|e].
      * exists (Ok (Some found)), w1, added1. auto.
      * destruct (IH env w1) as (r & w' & added & Hrun & Ht & Hout).
        exists r, w', (added1 ++ added)%list. split; [exact Hrun|].
        split; [rewrite Ht, Ht1, rev_app_distr, <- app_assoc; reflexivity|].
        apply scan_outcome_after_refused; assumption.
      * exists (Raise e), w1, added1. auto.
    + exact (IH env w).
    + exists (Raise e), w, []. split; [reflexivity|]. split; [reflexivity|].
      apply scan_outcome_raise_early. exact (contains_not_http _ _ _ Ec).
Qed.

(** X2. [get_generated_image] always ends, and whatever the record holds
    it returns the first image, in scan order, whose fetch the engine
    answers with status 200, after skipping every image whose fetch was
    answered with another status; the bytes are the body of that answer.
    It raises HTTP 500 "No image found in output" only when every fetch
    it made was refused, and any other exception (a malformed record, a
    fetch that raised) ends the scan at once. *)
Theorem fetch_returns_first_served_image (cfg : Config) (history : json)
  (env : Env) (w : World) :
  exists r w' added,
    get_generated_image cfg history env w = Some (r, w')
    /\ history_of w' = (history_of w ++ added)%list
    /\ match r with
       | Ok (filename, data) =>
           exists skipped subfolder reply,
             added = (skipped
                      ++ [EvHttp (view_request cfg filename subfolder) (Replied reply)])%list
             /\ Forall (refused_view cfg) skipped
             /\ status_code reply = 200 /\ content reply = data
       | Raise (HTTPException s d) =>
           s = 500 /\ d = "No image found in output" /\ Forall (refused_view cfg) added
       | Raise (OtherException cls msg) =>
           exists skipped last,
             added = (skipped ++ last)%list
             /\ Forall (refused_view cfg) skipped
             /\ (last = []
                 \/ exists filename subfolder,
                      last = [EvHttp (view_request cfg filename subfolder) (Failed cls msg)])
       end.
Proof.
  unfold get_generated_image. unfold bind at 1.
  destruct (Py.get history "outputs" (JObj [])) as [outputs|e] eqn:Eg; cbn [lift ret].
  2:{ exists (Raise e), w, []. split; [reflexivity|]. split; [rewrite app_nil_r; reflexivity|].
      pose proof (get_not_http _ _ _ _ Eg) as Hne. destruct e; [discriminate|].
      exists [], []. split; [reflexivity|]. split; [constructor | auto]. }
  unfold bind at 1.
  destruct (Py.items outputs) as [items|e] eqn:Ei; cbn [lift ret].
  2:{ exists (Raise e), w, []. split; [reflexivity|]. split; [rewrite app_nil_r; reflexivity|].
      pose proof (items_not_http _ _ Ei) as Hne. destruct e; [discriminate|].
      exists [], []. split; [reflexivity|]. split; [constructor | auto]. }
  unfold bind at 1.
  destruct (scan_outputs_outcome cfg items env w) as (r & w' & added & -> & Ht & Hout).
  assert (Hh : history_of w' = (history_of w ++ added)%list).
  { unfold history_of. rewrite Ht, rev_app_distr, rev_involutive. reflexivity. }
  destruct r as [[[filename data]|]|e].
  - exists (Ok (filename, data)), w', added. auto.
  - exists (Raise (HTTPException 500 "No image found in output")), w', added.
    split; [reflexivity|]. split; [exact Hh|]. auto.
  - exists (Raise e), w', added. split; [reflexivity|]. split; [exact Hh|].
    destruct Hout as (Hne & skipped & last & -> & Hs & Hlast).
    destruct e as [s d|cls msg]; [discriminate|].
    exists skipped, last. split; [reflexivity|]. split; [exact Hs|].
    destruct Hlast as [-> | (fn & sub & cls' & msg' & -> & E)]; [auto|].
    inversion E; subst. right. eauto.
Qed.

Lemma listing_outcome_app (imgs1 imgs2 : list (string * option string))
  (o1 o2 : list http_outcome) (r : result (option (json * list Byte.byte))) :
  List.length o1 = List.length imgs1 ->
  Forall refused_reply o1 ->
  listing_outcome imgs2 o2 r ->
  listing_outcome (imgs1 ++ imgs2) (o1 ++ o2) r.
Proof.
  intros Hlen Hrefused [Hle Hr]. split; [rewrite !length_app; lia|].
  destruct r as [[[filename data]|]|e].
  - destruct Hr as (pre & reply & img & -> & Hpre & Hs & Hc & Hn & Hf).
    exists (o1 ++ pre)%list, reply, img. rewrite app_assoc.
    split; [reflexivity|]. split; [apply Forall_app; auto|].
    split; [exact Hs|]. split; [exact Hc|]. split; [|exact Hf].
    rewrite length_app, Hlen, nth_error_app2 by lia.
    replace (List.length imgs1 + List.length pre - List.length imgs1)%nat
      with (List.length pre) by lia.
    exact Hn.
  - destruct Hr as [Hl Hall]. split; [rewrite !length_app; lia | apply Forall_app; auto].
  - destruct Hr as (pre & cls & msg & -> & Hpre & He).
    exists (o1 ++ pre)%list, cls, msg. rewrite app_assoc.
    split; [reflexivity|]. split; [apply Forall_app; auto | exact He].
Qed.

Lemma view_events_app (cfg : Config) (imgs1 imgs2 : list (string * option string))
  (o1 o2 : list http_outcome) :
  List.length o1 = List.length imgs1 ->
  view_events cfg (imgs1 ++ imgs2) (o1 ++ o2)
  = (view_events cfg imgs1 o1 ++ view_events cfg imgs2 o2)%list.
Proof.
  intros Hlen. unfold view_events. rewrite <- map_app. f_equal.
  revert o1 Hlen. induction imgs1 as [|i imgs1 IH]; intros [|o o1] Hlen;
    simpl in *; try discriminate; [reflexivity|].
  rewrite IH by lia. reflexivity.
Qed.

Lemma image_entry_fields (img : string * option string) :
  Py.getitem (image_entry img) (JStr "filename") = Ok (JStr (fst img))
  /\ Py.get (image_entry img) "subfolder" (JStr "")
     = Ok (JStr (match snd img with Some sub => sub | None => "" end)).
Proof. destruct img as [name [sub|]]; split; reflexivity. Qed.

Lemma fetch_images_listed (cfg : Config) (imgs : list (string * option string)) :
  forall env w,
  exists r w' outcomes,
    fetch_images cfg (map image_entry imgs) env w = Some (r, w')
    /\ w_trace w' = (rev (view_events cfg imgs outcomes) ++ w_trace w)%list
    /\ listing_outcome imgs outcomes r.
Proof.
  induction imgs as [|img imgs IH]; intros env w.
  - exists (Ok None), w, []. split; [reflexivity|]. split; [reflexivity|].
    split; [simpl; lia|]. split; [reflexivity | constructor].
  - cbn [map fetch_images]. destruct (image_entry_fields img) as [Hf Hs].
    unfold bind at 1. rewrite Hf. cbn [lift ret].
    unfold bind at 1. rewrite Hs. cbn [lift ret].
    unfold bind at 1.
    fold (view_request cfg (JStr (fst img))
            (JStr (match snd img with Some sub => sub | None => "" end))).
    fold (image_request cfg img). rewrite send_value.
    set (rq := image_request cfg img). set (w1 := exchanged env rq w).
    assert (Ht1 : w_trace w1 = EvHttp rq (fst (http env (w_steps w) rq)) :: w_trace w)
      by reflexivity.
    destruct (fst (http env (w_steps w) rq)) as [reply|cls msg] eqn:Eo.
    + destruct (Z.eqb_spec (status_code reply) 200) as [Hok|Hno].
      * exists (Ok (Some (JStr (fst img), content reply))), w1, [Replied reply].
        split; [reflexivity|].
        split; [unfold view_events; simpl; rewrite combine_nil; exact Ht1|].
        split; [simpl; lia|]. exists [], reply, img. repeat split; auto.
      * destruct (IH env w1) as (r & w' & outcomes & Hrun & Ht & Hout).
        exists r, w', (Replied reply :: outcomes)%list.
        split; [exact Hrun|].
        split.
        { rewrite Ht, Ht1. unfold view_events. simpl. rewrite <- app_assoc. reflexivity. }
        apply (listing_outcome_app [img] imgs [Replied reply] outcomes r);
          [reflexivity | | exact Hout].
        constructor; [|constructor]. exists reply. auto.
    + exists (Raise (OtherException cls msg)), w1, [Failed cls msg].
      split; [reflexivity|].
      split; [unfold view_events; simpl; rewrite combine_nil; exact Ht1|].
      split; [simpl; lia|]. exists [], cls, msg. repeat split; auto.
Qed.

Lemma scan_outputs_listed (cfg : Config) (nodes : list (string * list (string * option string))) :
  forall env w,
  exists r w' outcomes,
    scan_outputs cfg (map (fun n => (fst n, node_entry (snd n))) nodes) env w = Some (r, w')
    /\ w_trace w' = (rev (view_events cfg (listed nodes) outcomes) ++ w_trace w)%list
    /\ listing_outcome (listed nodes) outcomes r.
Proof.
  induction nodes as [|[node_id imgs] nodes IH]; intros env w.
  - exists (Ok None), w, []. split; [reflexivity|]. split; [reflexivity|].
    split; [simpl; lia|]. split; [reflexivity | constructor].
  - cbn [map scan_outputs fst snd]. unfold bind at 1.
    change (Py.contains (JStr "images") (node_entry imgs)) with (@Ok bool true).
    cbn [lift ret]. unfold bind at 1.
    change (Py.getitem (node_entry imgs) (JStr "images"))
      with (Ok (JArr (map image_entry imgs))).
    cbn [lift ret Py.iter]. unfold bind at 1. cbn [lift ret]. unfold bind at 1.
    destruct (fetch_images_listed cfg imgs env w) as (r1 & w1 & o1 & -> & Ht1 & Ho1).
    unfold listed. cbn [flat_map snd]. fold (listed nodes).
    destruct r1 as [[found|]|e].
    + exists (Ok (Some found)), w1, o1. split; [reflexivity|].
      destruct Ho1 as [Hle Ho1].
      split.
      { rewrite Ht1. f_equal. f_equal. unfold view_events. f_equal.
        clear - Hle. revert o1 Hle. induction imgs as [|i imgs IHi]; intros [|o o1] Hle;
          simpl in *; try reflexivity; try lia.
        - destruct (listed nodes); reflexivity.
        - rewrite IHi by lia. reflexivity. }
      split; [rewrite length_app; lia|].
      destruct found as [filename data].
      destruct Ho1 as (pre & reply & img & -> & Hpre & Hs & Hc & Hn & Hf).
      exists pre, reply, img. repeat split; auto.
      rewrite nth_error_app1; [exact Hn|].
      rewrite length_app in Hle. simpl in Hle. lia.
    + destruct Ho1 as [Hle [Hlen Hall]].
      destruct (IH env w1) as (r & w' & o2 & Hrun & Ht & Hout).
      exists r, w', (o1 ++ o2)%list. split; [exact Hrun|].
      split.
      { rewrite Ht, Ht1, (view_events_app cfg imgs (listed nodes) o1 o2 Hlen).
        rewrite rev_app_distr, <- app_assoc. reflexivity. }
      apply listing_outcome_app; assumption.
    + exists (Raise e), w1, o1. split; [reflexivity|].
      destruct Ho1 as [Hle Ho1].
      split.
      { rewrite Ht1. f_equal. f_equal. unfold view_events. f_equal.
        clear - Hle. revert o1 Hle. induction imgs as [|i imgs IHi]; intros [|o o1] Hle;
          simpl in *; try reflexivity; try lia.
        - destruct (listed nodes); reflexivity.
        - rewrite IHi by lia. reflexivity. }
      split; [rewrite length_app; lia | exact Ho1].
Qed.

(** X3. For a finished record of the documented shape (output nodes with
    lists of images; subfolder optional, taken as empty when absent),
    [get_generated_image] fetches the images one by one in listing order
    and stops at the first answer that is not a refusal: a 200 returns
    that image's filename and the body; a fetch that raises ends the scan
    with its exception; HTTP 500 "No image found in output" is raised
    exactly when every listed image was fetched once and refused (in
    particular at once for a record without images). *)
Theorem fetch_follows_listing_order (cfg : Config)
  (nodes : list (string * list (string * option string))) (env : Env) (w : World) :
  exists r w' outcomes,
    get_generated_image cfg (record_of nodes) env w = Some (r, w')
    /\ history_of w' = (history_of w ++ view_events cfg (listed nodes) outcomes)%list
    /\ (List.length outcomes <= List.length (listed nodes))%nat
    /\ match r with
       | Ok (filename, data) =>
           exists pre reply img,
             outcomes = (pre ++ [Replied reply])%list
             /\ Forall refused_reply pre
             /\ status_code reply = 200 /\ content reply = data
             /\ nth_error (listed nodes) (List.length pre) = Some img
             /\ filename = JStr (fst img)
       | Raise (HTTPException s d) =>
           s = 500 /\ d = "No image found in output"
           /\ List.length outcomes = List.length (listed nodes)
           /\ Forall refused_reply outcomes
       | Raise (OtherException cls msg) =>
           exists pre, outcomes = (pre ++ [Failed cls msg])%list /\ Forall refused_reply pre
       end.
Proof.
  unfold get_generated_image, record_of. unfold bind at 1.
  cbn [Py.get Py.assoc String.eqb Ascii.eqb Bool.eqb lift ret]. unfold bind at 1.
  cbn [Py.items lift ret]. unfold bind at 1.
  destruct (scan_outputs_listed cfg nodes env w) as (r & w' & outcomes & -> & Ht & Hle & Hr).
  assert (Hh : history_of w'
               = (history_of w ++ view_events cfg (listed nodes) outcomes)%list).
  { unfold history_of. rewrite Ht, rev_app_distr, rev_involutive. reflexivity. }
  destruct r as [[[filename data]|]|e].
  - exists (Ok (filename, data)), w', outcomes. auto.
  - exists (Raise (HTTPException 500 "No image found in output")), w', outcomes.
    split; [reflexivity|]. split; [exact Hh|]. split; [exact Hle|].
    destruct Hr. auto.
  - exists (Raise e), w', outcomes. split; [reflexivity|]. split; [exact Hh|].
    split; [exact Hle|].
    destruct Hr as (pre & cls & msg & -> & Hpre & ->). exists pre. auto.
Qed.

(* ------------------------------------------------------------------ *)
(** ** How often the poll loop asks *)
(* ------------------------------------------------------------------ *)

Lemma count_status_query (cfg : Config) (prompt_id : json) (o : http_outcome)
  (l : list event) :
  status_queries (EvHttp (history_query cfg prompt_id) o :: l) = S (status_queries l)
  /\ sleeps (EvHttp (history_query cfg prompt_id) o :: l) = sleeps l.
Proof. split; reflexivity. Qed.

Lemma count_sleep (seconds : Z) (l : list event) :
  status_queries (EvSleep seconds :: l) = status_queries l
  /\ sleeps (EvSleep seconds :: l) = S (sleeps l).
Proof. split; reflexivity. Qed.

Lemma wait_loop_bounds (cfg : Config) (prompt_id : json) (timeout start : Z) (env : Env) :
  forall fuel w,
    (0 < fuel)%nat ->
    1000 * timeout - (w_clock w - start) < 1000 * (Z.of_nat fuel - 1) ->
    exists r w' added,
      wait_loop fuel cfg prompt_id timeout start env w = Some (r, w')
      /\ history_of w' = (history_of w ++ added)%list
      /\ 1000 * Z.of_nat (status_queries added)
         <= Z.max 0 (1000 * timeout - (w_clock w - start) + 1000)
      /\ 1000 * Z.of_nat (sleeps added) <= w_clock w' - w_clock w
      /\ (sleeps added <= status_queries added <= sleeps added + 1)%nat.
Proof.
  induction fuel as [|fuel IH]; intros w Hpos Hfuel; [lia|].
  cbn [wait_loop]. unfold bind at 1. unfold loop_time at 1.
  destruct (Z.gtb_spec (w_clock w - start) (1000 * timeout)) as [Hlate|Hearly].
  - exists (Raise (timeout_error timeout)), w, [].
    split; [reflexivity|]. split; [rewrite app_nil_r; reflexivity|].
    change (status_queries []) with 0%nat. change (sleeps []) with 0%nat.
    repeat split; lia.
  - unfold bind at 1.
    destruct (poll_once_cases cfg prompt_id env w) as (r & Hrun & _).
    cbv zeta in Hrun. rewrite Hrun.
    set (q := history_query cfg prompt_id) in *.
    set (o := fst (http env (w_steps w) q)) in *.
    set (w1 := tick w _ [EvHttp q o]) in *.
    assert (Hh1 : history_of w1 = (history_of w ++ [EvHttp q o])%list)
      by (unfold history_of, w1; simpl; reflexivity).
    assert (Hc1 : w_clock w <= w_clock w1) by (unfold w1; cbn [tick w_clock]; lia).
    destruct r as [[record|]|e].
    + exists (Ok record), w1, [EvHttp q o].
      split; [reflexivity|]. split; [exact Hh1|].
      destruct (count_status_query cfg prompt_id o []) as [E1 E2].
      fold q in E1, E2. rewrite E1, E2.
      change (status_queries []) with 0%nat. change (sleeps []) with 0%nat.
      repeat split; lia.
    + unfold bind at 1. unfold sleep at 1.
      set (w2 := tick w1 _ [EvSleep 1]).
      assert (Hc2 : w_clock w1 + 1000 <= w_clock w2)
        by (unfold w2; cbn [tick w_clock]; lia).
      assert (Hh2 : history_of w2 = (history_of w1 ++ [EvSleep 1])%list)
        by (unfold history_of, w2; simpl; reflexivity).
      destruct (IH w2) as (r & w' & added & Hloop & Hh & Hq & Hs & Hqs); [lia | lia |].
      exists r, w', (EvHttp q o :: EvSleep 1 :: added)%list.
      split; [exact Hloop|].
      split; [rewrite Hh, Hh2, Hh1, <- !app_assoc; reflexivity|].
      destruct (count_status_query cfg prompt_id o (EvSleep 1 :: added)) as [E1 E2].
      fold q in E1, E2. rewrite E1, E2.
      destruct (count_sleep 1 added) as [-> ->].
      repeat split; lia.
    + exists (Raise e), w1, [EvHttp q o].
      split; [reflexivity|]. split; [exact Hh1|].
      destruct (count_status_query cfg prompt_id o []) as [E1 E2].
      fold q in E1, E2. rewrite E1, E2.
      change (status_queries []) with 0%nat. change (sleeps []) with 0%nat.
      repeat split; lia.
Qed.

(** X4. [wait_for_completion] makes at most [timeout + 1] status queries
    (none at all for a negative timeout), whatever the engine answers and
    however long its answers take; it sleeps once between two queries,
    and it lasts at least one second per sleep. *)
Theorem poll_loop_query_bound (cfg : Config) (prompt_id : json) (timeout : Z)
  (env : Env) (w : World) :
  exists r w' added,
    wait_for_completion cfg prompt_id timeout env w = Some (r, w')
    /\ history_of w' = (history_of w ++ added)%list
    /\ Z.of_nat (status_queries added) <= Z.max 0 (timeout + 1)
    /\ (sleeps added <= status_queries added <= sleeps added + 1)%nat
    /\ 1000 * Z.of_nat (sleeps added) <= w_clock w' - w_clock w.
Proof.
  unfold wait_for_completion, bind, loop_time.
  destruct (wait_loop_bounds cfg prompt_id timeout (w_clock w) env (wait_fuel timeout) w)
    as (r & w' & added & Hrun & Hh & Hq & Hs & Hqs); [unfold wait_fuel; lia.. |].
  exists r, w', added. repeat split; try assumption; lia.
Qed.

(* ------------------------------------------------------------------ *)
(** ** From the engine's bytes to the served file *)
(* ------------------------------------------------------------------ *)

Lemma lift_ok {A : Type} (r : result A) (env : Env) (w w' : World) (a : A) :
  lift r env w = Some (Ok a, w') -> r = Ok a /\ w' = w.
Proof. destruct r; simpl; intros H; inversion H; auto. Qed.

Lemma get_generated_image_ok (cfg : Config) (history : json) (env : Env) (w w' : World)
  (filename : json) (data : list Byte.byte) :
  get_generated_image cfg history env w = Some (Ok (filename, data), w') ->
  exists subfolder reply rest,
    w_trace w' = EvHttp (view_request cfg filename subfolder) (Replied reply) :: rest
    /\ status_code reply = 200 /\ content reply = data.
Proof.
  unfold get_generated_image. intros H.
  apply bind_ok in H. destruct H as (outputs & w1 & H1 & H).
  apply lift_ok in H1. destruct H1 as [_ ->].
  apply bind_ok in H. destruct H as (items & w1 & H1 & H).
  apply lift_ok in H1. destruct H1 as [_ ->].
  apply bind_ok in H. destruct H as (found & w1 & Hscan & H).
  destruct found as [r|]; [|discriminate]. inversion H; subst r w1.
  destruct (scan_outputs_outcome cfg items env w) as (r & w2 & added & Hrun & Ht & Hout).
  rewrite Hscan in Hrun. inversion Hrun; subst r w2.
  destruct Hout as (skipped & sub & reply & -> & _ & Hs & Hc).
  exists sub, reply, (rev skipped ++ w_trace w)%list.
  split; [|auto]. rewrite Ht, rev_app_distr. reflexivity.
Qed.

(** The last three events of a run of the pipeline that returns. *)
Lemma run_pipeline_ok_trace (cfg : Config) (req : GenerateRequest)
  (safe_prompt safe_negative : string) (seed steps : Z) (cfg_value : Q) (width height : Z)
  (env : Env) (w w' : World) (f h : string) :
  run_pipeline cfg req safe_prompt safe_negative seed steps cfg_value width height env w
  = Some (Ok (f, h), w') ->
  exists data entry filename subfolder reply rest,
    w_trace w'
    = EvLog INFO (Generated entry)
      :: EvWrite (OUTPUT_DIR cfg ++ "/" ++ f) data
      :: EvHttp (view_request cfg filename subfolder) (Replied reply)
      :: rest
    /\ status_code reply = 200 /\ content reply = data
    /\ h = content_hash data
    /\ Text.take 16 f = h
    /\ field "filename" entry = Some (JStr f)
    /\ field "image_hash" entry = Some (JStr h).
Proof.
  unfold run_pipeline. cbv zeta. intros H.
  apply bind_ok in H. destruct H as (prompt_id & w1 & _ & H).
  apply bind_ok in H. destruct H as (history & w2 & _ & H).
  apply bind_ok in H. destruct H as ([filename data] & w3 & Hget & H).
  destruct (get_generated_image_ok _ _ _ _ _ _ _ Hget) as (sub & reply & rest & Ht & Hs & Hc).
  rewrite save_and_hash_image_value in H. cbv zeta in H. cbn [snd] in H.
  destruct (fs_write env _ _); [discriminate|].
  destruct (encode _) as [prompt_bytes|]; [|discriminate].
  inversion H; subst f h w'.
  eexists data, _, filename, sub, reply, rest.
  split; [cbn [logged stored tick w_trace app]; rewrite Ht; reflexivity|].
  split; [exact Hs|]. split; [exact Hc|]. split; [reflexivity|].
  split; [apply stored_name_prefix|]. split; reflexivity.
Qed.

(** X5. When the synchronous endpoint answers with success, the last
    things that happened are: the engine answered a fetch with status
    200, the body of that answer was written to the file the response's
    image_url names, under the output directory, and the audit record
    naming that file was logged.  The response's image_hash is the first
    16 hexadecimal digits of the SHA-256 digest of exactly those bytes,
    and it is the first 16 characters of the file name. *)
Theorem success_stores_what_the_engine_served (cfg : Config) (req : GenerateRequest)
  (env : Env) (w w' : World) (response : GenerateResponse) :
  generate_image cfg req env w = Some (Ok response, w') ->
  success response = true ->
  exists f data entry filename subfolder reply rest,
    image_url response = Some ("/images/" ++ f)
    /\ image_hash response = Some (Text.take 16 (SHA256.hexdigest data))
    /\ Text.take 16 f = Text.take 16 (SHA256.hexdigest data)
    /\ w_trace w'
       = EvLog INFO (Generated entry)
         :: EvWrite (OUTPUT_DIR cfg ++ "/" ++ f) data
         :: EvHttp (view_request cfg filename subfolder) (Replied reply)
         :: rest
    /\ status_code reply = 200 /\ content reply = data
    /\ field "filename" entry = Some (JStr f)
    /\ field "image_hash" entry = Some (JStr (Text.take 16 (SHA256.hexdigest data))).
Proof.
  intros Hgen Hok.
  destruct (sync_success_inv cfg req env w w' response Hgen Hok)
    as (seed & w1 & f & h & _ & _ & Hrun & ->).
  destruct (run_pipeline_ok_trace _ _ _ _ _ _ _ _ _ _ _ _ _ _ Hrun)
    as (data & entry & filename & sub & reply & rest & Ht & Hs & Hc & Hh & Hf & He1 & He2).
  subst h. exists f, data, entry, filename, sub, reply, rest.
  repeat split; assumption || reflexivity.
Qed.

Lemma success_stores_what_the_engine_served_witness :
  exists response w' f,
    generate_image default_config Scenario.landscape Scenario.good_env initial_world
    = Some (Ok response, w')
    /\ image_url response = Some ("/images/" ++ f)
    /\ In (EvWrite ("/workspace/ComfyUI/output/" ++ f) (list_byte_of_string "PNGDATA"))
         (w_trace w').
Proof.
  eassert (Hgen : generate_image default_config Scenario.landscape Scenario.good_env
                    initial_world = Some (Ok _, _)) by (vm_compute; reflexivity).
  destruct (success_stores_what_the_engine_served _ _ _ _ _ _ Hgen eq_refl)
    as (f & data & entry & filename & sub & reply & rest & Hurl & _ & _ & Ht & _ & Hc & _).
  eexists _, _, f. split; [exact Hgen|]. split; [exact Hurl|].
  injection Ht as _ Hwrite _. right. left.
  rewrite Hwrite. reflexivity.
Defined.

Lemma last_write_found (path : string) (data : list Byte.byte) (lvl : level)
  (m : log_message) (rest : list event) :
  last_write (EvLog lvl m :: EvWrite path data :: rest) path = Some data.
Proof. simpl. rewrite String.eqb_refl. reflexivity. Qed.

(** X6. The URL of a successful answer can be fetched: GET /images/ with
    the file name of the response's image_url, right after the answer
    and whatever the output directory held before, serves a PNG whose
    bytes have the response's image_hash as the first 16 hexadecimal
    digits of their SHA-256 digest, and leaves the world as it is. *)
Theorem returned_url_serves_the_image (cfg : Config) (req : GenerateRequest)
  (disk : string -> option (list Byte.byte)) (env env' : Env) (w w' : World)
  (response : GenerateResponse) :
  generate_image cfg req env w = Some (Ok response, w') ->
  success response = true ->
  exists f data,
    image_url response = Some ("/images/" ++ f)
    /\ get_image cfg disk f env' w'
       = Some (Ok {| file_path := OUTPUT_DIR cfg ++ "/" ++ f;
                     media_type := "image/png";
                     file_body := data |}, w')
    /\ image_hash response = Some (Text.take 16 (SHA256.hexdigest data)).
Proof.
  intros Hgen Hok.
  destruct (sync_success_inv cfg req env w w' response Hgen Hok)
    as (seed & w1 & f & h & _ & _ & Hrun & ->).
  destruct (run_pipeline_ok_trace _ _ _ _ _ _ _ _ _ _ _ _ _ _ Hrun)
    as (data & entry & filename & sub & reply & rest & Ht & _ & _ & Hh & _).
  subst h. exists f, data. split; [reflexivity|]. split; [|reflexivity].
  unfold get_image, file_at. rewrite Ht, last_write_found. reflexivity.
Qed.

Lemma returned_url_serves_the_image_witness :
  exists response w' f served,
    generate_image default_config Scenario.landscape Scenario.good_env initial_world
    = Some (Ok response, w')
    /\ image_url response = Some ("/images/" ++ f)
    /\ get_image default_config (fun _ => None) f Scenario.dead_env w' = Some (Ok served, w')
    /\ image_hash response = Some (Text.take 16 (SHA256.hexdigest (file_body served))).
Proof.
  eassert (Hgen : generate_image default_config Scenario.landscape Scenario.good_env
                    initial_world = Some (Ok _, _)) by (vm_compute; reflexivity).
  destruct (returned_url_serves_the_image default_config Scenario.landscape
              (fun _ => None) Scenario.good_env Scenario.dead_env _ _ _ Hgen eq_refl)
    as (f & data & Hurl & Hget & Hhash).
  eexists _, _, f, _. split; [exact Hgen|]. split; [exact Hurl|].
  split; [exact Hget | exact Hhash].
Defined.

(* ------------------------------------------------------------------ *)
(** ** A rejected request *)
(* ------------------------------------------------------------------ *)

Lemma validate_loop_message (items : list (string * string)) (text m : string) :
  validate_loop items text = Some (false, m) ->
  exists category pattern, In (category, pattern) items /\ m = rejection_message category.
Proof.
  induction items as [|[c p] items IH]; simpl; [discriminate|].
  destruct (Re.search p text true) as [[|]|]; [| |discriminate].
  - intros H. inversion H. exists c, p. auto.
  - intros H. destruct (IH H) as (c' & p' & Hin & Hm). exists c', p'. auto.
Qed.

(** X7. A request whose prompt the filter rejects has no effect at all:
    both endpoints answer HTTP 400 and leave the world as it was - no
    request to the engine, no file, no log record, and for the
    asynchronous endpoint no background task and so no callback.  The
    detail of the 400 is the fixed sentence for one of the categories of
    [BLOCKED_PATTERNS]; it never carries text of the prompt. *)
Theorem rejection_has_no_effect (cfg : Config) (req : GenerateAsyncRequest) (m : string)
  (env : Env) (w : World) :
  validate_prompt cfg (prompt (base req)) = Some (false, m) ->
  generate_image cfg (base req) env w = Some (Raise (HTTPException 400 m), w)
  /\ serve_generate_async cfg req env w = Some (Raise (HTTPException 400 m), w)
  /\ exists category,
       In category (map fst BLOCKED_PATTERNS)
       /\ m = ("Prompt rejected: " ++ category ++ " content not allowed")%string.
Proof.
  intros Hv. split; [exact (generate_image_rejected cfg (base req) m env w Hv)|].
  split.
  - unfold serve_generate_async. unfold bind at 1.
    rewrite generate_image_async_value, Hv. reflexivity.
  - unfold validate_prompt in Hv. destruct (negb (ENABLE_SAFETY cfg)); [discriminate|].
    destruct (validate_loop_message _ _ _ Hv) as (c & p & Hin & ->).
    exists c. split; [|reflexivity].
    apply (in_map fst) in Hin. exact Hin.
Qed.

Lemma rejection_has_no_effect_witness :
  let req := {| base := Scenario.with_seed
                          (Scenario.with_negative Scenario.landscape None) (Some 7);
                request_id := "r1"; callback_url := "http://client.example/hook" |} in
  let banned := {| base := {| prompt := "A Deepfake of my neighbour";
                              negative_prompt := None; seed := None; steps := None;
                              cfg_scale := None; width := None; height := None;
                              face_reference := None; face_weight := None;
                              persona_id := None; user_id := None |};
                   request_id := request_id req; callback_url := callback_url req |} in
  serve_generate_async default_config banned Scenario.good_env initial_world
  = Some (Raise (HTTPException 400 "Prompt rejected: face_swap content not allowed"),
          initial_world).
Proof.
  cbv zeta.
  refine (proj1 (proj2 (rejection_has_no_effect default_config _ _
                          Scenario.good_env initial_world _))).
  vm_compute. reflexivity.
Defined.

(* ------------------------------------------------------------------ *)
(** ** The batch client: the list of variations *)
(* ------------------------------------------------------------------ *)

Lemma pick_some (l : list string) (i : nat) :
  l <> [] ->
  exists s, Batch.pick l (Z.of_nat i) = Ok s /\ nth_error l (i mod List.length l) = Some s.
Proof.
  intros Hl. unfold Batch.pick.
  assert (Hn : (0 < List.length l)%nat) by (destruct l; [congruence | simpl; lia]).
  destruct (Z.eqb_spec (Z.of_nat (List.length l)) 0) as [E|_]; [lia|].
  rewrite <- Nat2Z.inj_mod, Nat2Z.id.
  destruct (nth_error l (i mod List.length l)) as [s|] eqn:E.
  - exists s. auto.
  - apply nth_error_None in E.
    pose proof (Nat.mod_upper_bound i (List.length l)). lia.
Qed.

Lemma outfits_for_value (style : string) :
  exists outfits,
    Batch.outfits_for style = Ok outfits
    /\ List.length outfits = 8%nat
    /\ (forall l, Py.assoc style Batch.OUTFITS = Some l -> outfits = l).
Proof.
  unfold Batch.outfits_for.
  change (Py.assoc "casual" Batch.OUTFITS) with (Some (snd (nth 3 Batch.OUTFITS ("", [])))).
  destruct (Py.assoc style Batch.OUTFITS) as [l|] eqn:E.
  - exists l. split; [reflexivity|]. split; [|intros l' H; congruence].
    unfold Batch.OUTFITS in E. simpl in E.
    repeat match type of E with
           | (if ?b then _ else _) = _ => destruct b; [inversion E; reflexivity|]
           end.
    discriminate.
  - eexists. split; [reflexivity|]. split; [reflexivity | discriminate].
Qed.

Section Variations.

Variables (pid : string) (p : Batch.Persona) (outfits : list string) (count : Z).
Hypothesis outfits_nonempty : outfits <> [].

Lemma variation_at_value (scenario : string) (sd : Batch.ScenarioData) (i : nat) :
  In (scenario, sd) Batch.SCENARIOS ->
  exists v,
    Batch.variation_at pid p outfits scenario sd (Z.of_nat i) = Ok v
    /\ variation_spec pid p outfits i v.
Proof.
  intros Hin. unfold Batch.variation_at.
  destruct (pick_some outfits i outfits_nonempty) as (o & -> & Ho).
  destruct (pick_some Batch.EXPRESSIONS i) as (e & -> & He); [discriminate|].
  simpl. eexists. split; [reflexivity|].
  unfold variation_spec. simpl. auto 7.
Qed.

Lemma numbered_snoc (vs : list Batch.Variation) (v : Batch.Variation) :
  numbered pid p outfits count (Z.of_nat (List.length vs), vs) ->
  Z.of_nat (List.length vs) < count ->
  variation_spec pid p outfits (List.length vs) v ->
  numbered pid p outfits count (Z.of_nat (List.length vs) + 1, (vs ++ [v])%list).
Proof.
  intros (_ & Hle & Hall) Hlt Hv. unfold numbered. simpl.
  rewrite length_app. simpl. split; [lia|]. split; [lia|].
  intros i v' Hi.
  destruct (Nat.lt_ge_cases i (List.length vs)) as [Hlt'|Hge].
  - rewrite nth_error_app1 in Hi by exact Hlt'. exact (Hall i v' Hi).
  - rewrite nth_error_app2 in Hi by exact Hge.
    destruct (i - List.length vs)%nat as [|k] eqn:Ek.
    + simpl in Hi. inversion Hi; subst v'.
      replace i with (List.length vs) by lia. exact Hv.
    + simpl in Hi. destruct k; discriminate.
Qed.

Lemma scenario_loop_numbered (scenario : string) (sd : Batch.ScenarioData) (n : nat) :
  In (scenario, sd) Batch.SCENARIOS ->
  forall st, numbered pid p outfits count st ->
  exists st',
    Batch.scenario_loop pid p outfits count scenario sd n st = Ok st'
    /\ numbered pid p outfits count st'.
Proof.
  intros Hin. induction n as [|n IH]; intros [image_num vs] Hst.
  - exists (image_num, vs). auto.
  - simpl. destruct (Z.leb_spec count image_num) as [Hbreak|Hgo].
    + exists (image_num, vs). auto.
    + pose proof Hst as (Hnum & _ & _). simpl in Hnum. subst image_num.
      destruct (variation_at_value scenario sd (List.length vs) Hin) as (v & -> & Hv).
      simpl. apply IH. apply numbered_snoc; assumption.
Qed.

Lemma scenarios_loop_numbered (total : Z) (items : list (string * Batch.ScenarioData)) :
  incl items Batch.SCENARIOS ->
  forall st, numbered pid p outfits count st ->
  (exists e sd,
     In sd (map snd items)
     /\ Batch.scenario_count (Batch.weight sd) total count = Raise e
     /\ Batch.scenarios_loop pid p outfits count total items st = Raise e)
  \/ (exists st',
        Batch.scenarios_loop pid p outfits count total items st = Ok st'
        /\ numbered pid p outfits count st').
Proof.
  induction items as [|[scenario sd] items IH]; intros Hincl st Hst.
  - right. exists st. auto.
  - simpl.
    destruct (Batch.scenario_count (Batch.weight sd) total count) as [quota|e] eqn:Eq.
    + simpl.
      destruct (scenario_loop_numbered scenario sd (Z.to_nat quota)
                  (Hincl _ (or_introl eq_refl)) st Hst) as (st1 & -> & Hst1).
      simpl.
      destruct (IH (fun x Hx => Hincl x (or_intror Hx)) st1 Hst1)
        as [(e & sd' & Hin & He & Hr) | Hok].
      * left. exists e, sd'. auto.
      * right. exact Hok.
    + left. exists e, sd. simpl. auto.
Qed.

Lemma fill_loop_numbered (fuel : nat) :
  forall st, numbered pid p outfits count st ->
  (Z.max 0 count - fst st < Z.of_nat fuel) ->
  exists vs,
    Batch.fill_loop pid p outfits count fuel st = Some (Ok vs)
    /\ List.length vs = Z.to_nat count
    /\ forall i v, nth_error vs i = Some v -> variation_spec pid p outfits i v.
Proof.
  induction fuel as [|fuel IH]; intros [image_num vs] Hst Hfuel.
  - destruct Hst as (Hnum & Hle & _). simpl in *. lia.
  - cbn [Batch.fill_loop]. pose proof Hst as (Hnum & Hle & Hall).
    simpl in Hnum, Hle, Hall, Hfuel.
    destruct (Z.ltb_spec image_num count) as [Hgo|Hstop].
    + assert (Hs : exists sd, Py.assoc "selfie" Batch.SCENARIOS = Some sd
                              /\ In ("selfie", sd) Batch.SCENARIOS).
      { eexists. split; [reflexivity|]. do 3 right. left. reflexivity. }
      destruct Hs as (sd & -> & Hin). subst image_num.
      destruct (variation_at_value "selfie" sd (List.length vs) Hin) as (v & -> & Hv).
      apply IH.
      * apply numbered_snoc; assumption.
      * simpl. lia.
    + exists vs. split; [reflexivity|]. split; [lia | exact Hall].
Qed.

End Variations.

Lemma build_image_variations_spec (pid : string) (p : Batch.Persona) (count : Z) :
  (exists e sd,
     In sd (map snd Batch.SCENARIOS)
     /\ Batch.scenario_count (Batch.weight sd) Batch.total_weight count = Raise e
     /\ Batch.build_image_variations pid p count = Some (Raise e))
  \/ (exists vs outfits,
        Batch.build_image_variations pid p count = Some (Ok vs)
        /\ Batch.outfits_for (Batch.fashion_style p) = Ok outfits
        /\ List.length outfits = 8%nat
        /\ List.length vs = Z.to_nat count
        /\ forall i v, nth_error vs i = Some v -> variation_spec pid p outfits i v).
Proof.
  unfold Batch.build_image_variations.
  destruct (outfits_for_value (Batch.fashion_style p)) as (outfits & Ho & Hlen & _).
  rewrite Ho.
  assert (Hne : outfits <> []) by (destruct outfits; [discriminate | congruence]).
  assert (H0 : numbered pid p outfits count (0, [])).
  { unfold numbered. simpl. split; [reflexivity|]. split; [lia|].
    intros [|i] v H; discriminate. }
  destruct (scenarios_loop_numbered pid p outfits count Hne Batch.total_weight
              Batch.SCENARIOS (incl_refl _) (0, []) H0)
    as [(e & sd & Hin & He & ->) | (st & -> & Hst)].
  - left. exists e, sd. auto.
  - right.
    destruct (fill_loop_numbered pid p outfits count Hne (Batch.fill_fuel count) st Hst)
      as (vs & Hf & Hl & Hall).
    { destruct Hst as (Hnum & Hle & _). unfold Batch.fill_fuel. lia. }
    exists vs, outfits. auto.
Qed.

(** X8. [build_image_variations] returns exactly [count] variations (none
    for a negative count), numbered 0, 1, 2, ... in list order, each for
    the given persona, with outfit number [i mod 8] of the persona's style
    (of the casual style when the style is unknown), expression number
    [i mod 10] and a scenario of the table.  It raises only when the float
    arithmetic of a scenario quota does, which takes a count beyond the
    range of [float]. *)
Theorem variations_are_numbered (pid : string) (p : Batch.Persona) (count : Z) :
  (exists e sd,
     In sd (map snd Batch.SCENARIOS)
     /\ Batch.scenario_count (Batch.weight sd) Batch.total_weight count = Raise e
     /\ Batch.build_image_variations pid p count = Some (Raise e))
  \/ (exists vs outfits,
        Batch.build_image_variations pid p count = Some (Ok vs)
        /\ Batch.outfits_for (Batch.fashion_style p) = Ok outfits
        /\ List.length outfits = 8%nat
        /\ List.length vs = Z.to_nat count
        /\ forall i v,
             nth_error vs i = Some v ->
             Batch.persona_id v = pid
             /\ Batch.persona v = p
             /\ Batch.image_number v = Z.of_nat i
             /\ nth_error outfits (i mod 8) = Some (Batch.outfit v)
             /\ nth_error Batch.EXPRESSIONS (i mod 10) = Some (Batch.expression v)
             /\ In (Batch.scenario v, Batch.scenario_data v) Batch.SCENARIOS).
Proof.
  destruct (build_image_variations_spec pid p count)
    as [Hraise | (vs & outfits & Hb & Ho & Hlen & Hl & Hall)].
  - left. exact Hraise.
  - right. exists vs, outfits. repeat (split; [assumption|]).
    intros i v Hi. pose proof (Hall i v Hi) as Hv.
    unfold variation_spec in Hv. rewrite Hlen in Hv. exact Hv.
Qed.

(* ------------------------------------------------------------------ *)
(** ** The batch client: its prompts and the service's filter *)
(* ------------------------------------------------------------------ *)

Lemma decode_separator (x : string) :
  Text.decode (", " ++ x) = 44 :: 32 :: Text.decode x.
Proof.
  change (", " ++ x)%string with (String "," (String " " x)).
  rewrite !decode_cons_ascii by (vm_compute; reflexivity). reflexivity.
Qed.

Lemma closes_split (pre x : string) :
  closes_with_separator pre ->
  Text.decode (pre ++ x) = (Text.decode pre ++ Text.decode x)%list.
Proof.
  intros [-> | [r ->]]; [reflexivity|].
  rewrite append_assoc.
  change (r ++ ", " ++ x)%string with (r ++ String "," (" " ++ x))%string.
  change (r ++ ", ")%string with (r ++ String "," " ")%string.
  rewrite !decode_append_ascii by (vm_compute; reflexivity).
  change (String "," (" " ++ x)) with (", " ++ x)%string.
  change (String "," " ") with (", " ++ "")%string.
  rewrite !decode_separator, <- app_assoc. reflexivity.
Qed.

Lemma opens_split (x post : string) :
  opens_with_separator post ->
  Text.decode (x ++ post) = (Text.decode x ++ Text.decode post)%list.
Proof.
  intros [-> | [r ->]].
  - rewrite append_empty_r. cbn. rewrite app_nil_r. reflexivity.
  - change (x ++ ", " ++ r)%string with (x ++ String "," (" " ++ r))%string.
    apply decode_append_ascii. vm_compute. reflexivity.
Qed.

Lemma closes_ends (pre : string) :
  closes_with_separator pre -> ends_outside_word pre.
Proof.
  unfold ends_outside_word. intros [-> | [r ->]]; [reflexivity|].
  change (r ++ ", ")%string with (r ++ String "," " ")%string.
  rewrite decode_append_ascii by (vm_compute; reflexivity).
  rewrite last_char_app. reflexivity.
Qed.

Lemma opens_starts (post : string) :
  opens_with_separator post -> starts_outside_word post.
Proof.
  unfold starts_outside_word. intros [-> | [r ->]]; [reflexivity|].
  rewrite decode_separator. reflexivity.
Qed.

Lemma closes_append (x a : string) :
  closes_with_separator a -> closes_with_separator (x ++ ", " ++ a).
Proof.
  intros [-> | [r ->]]; right.
  - exists x. rewrite append_empty_r. reflexivity.
  - exists (x ++ ", " ++ r)%string. rewrite !append_assoc. reflexivity.
Qed.

Lemma opens_append (b rest : string) :
  opens_with_separator b -> opens_with_separator (b ++ ", " ++ rest).
Proof.
  intros [-> | [r ->]]; right; eexists; [reflexivity|].
  rewrite append_assoc. reflexivity.
Qed.

(** A rejected text stays rejected between separators. *)
Lemma rejected_between_separators (cfg : Config) (pre part post m : string) :
  closes_with_separator pre ->
  opens_with_separator post ->
  validate_prompt cfg part = Some (false, m) ->
  exists m', validate_prompt cfg (pre ++ part ++ post) = Some (false, m').
Proof.
  intros Hpre Hpost Hrej.
  apply (rejected_when_split cfg pre part post m);
    [|exact Hrej | apply closes_ends; exact Hpre | apply opens_starts; exact Hpost].
  rewrite (closes_split pre _ Hpre), (opens_split part post Hpost). reflexivity.
Qed.

(** Every element of a joined list sits between separators. *)
Lemma concat_split (k : string) (l : list string) :
  In k l ->
  exists a b,
    String.concat ", " l = (a ++ k ++ b)%string
    /\ closes_with_separator a /\ opens_with_separator b.
Proof.
  induction l as [|x xs IH]; [intros []|].
  destruct xs as [|y ys].
  - intros [-> | []]. exists "", "". simpl. rewrite append_empty_r.
    split; [reflexivity|]. split; left; reflexivity.
  - intros [-> | Hin].
    + exists "", (", " ++ String.concat ", " (y :: ys))%string.
      split; [reflexivity|]. split; [left; reflexivity | right; eexists; reflexivity].
    + destruct (IH Hin) as (a & b & E & Ha & Hb).
      exists (x ++ ", " ++ a)%string, b.
      split; [|split; [|exact Hb]].
      * change (String.concat ", " (x :: y :: ys))
          with (x ++ ", " ++ String.concat ", " (y :: ys))%string.
        rewrite E, !append_assoc. reflexivity.
      * apply closes_append. exact Ha.
Qed.

Lemma full_prompt_keeps_rejection (cfg : Config) (p : Batch.Persona)
  (sd : Batch.ScenarioData) (outfit expression part m : string) :
  In part (prompt_parts p sd outfit expression) ->
  validate_prompt cfg part = Some (false, m) ->
  exists m',
    validate_prompt cfg (Batch.full_prompt p sd outfit expression) = Some (false, m').
Proof.
  intros Hin Hrej. unfold prompt_parts in Hin. unfold Batch.full_prompt.
  set (tail := ", high quality, professional photo, detailed").
  assert (Htail : forall b, opens_with_separator b -> opens_with_separator (b ++ tail)).
  { intros b Hb. exact (opens_append b "high quality, professional photo, detailed" Hb). }
  destruct Hin as [<- | [<- | [<- | [<- | Hin]]]].
  - rewrite !append_assoc.
    apply (rejected_between_separators cfg "" (Batch.base_prompt p) _ m);
      [left; reflexivity | right; eexists; reflexivity | exact Hrej].
  - replace ((Batch.base_prompt p ++ ", " ++ outfit ++ ", " ++ expression ++ ", "
              ++ Batch.prompt_add sd) ++ ", "
             ++ String.concat ", " (Batch.style_keywords p) ++ tail)%string
      with ((Batch.base_prompt p ++ ", ") ++ outfit ++ ", " ++ expression ++ ", "
            ++ Batch.prompt_add sd ++ ", "
            ++ String.concat ", " (Batch.style_keywords p) ++ tail)%string
      by (rewrite !append_assoc; reflexivity).
    apply (rejected_between_separators cfg _ outfit _ m);
      [right; eexists; reflexivity | right; eexists; reflexivity | exact Hrej].
  - replace ((Batch.base_prompt p ++ ", " ++ outfit ++ ", " ++ expression ++ ", "
              ++ Batch.prompt_add sd) ++ ", "
             ++ String.concat ", " (Batch.style_keywords p) ++ tail)%string
      with (((Batch.base_prompt p ++ ", " ++ outfit) ++ ", ") ++ expression ++ ", "
            ++ Batch.prompt_add sd ++ ", "
            ++ String.concat ", " (Batch.style_keywords p) ++ tail)%string
      by (rewrite !append_assoc; reflexivity).
    apply (rejected_between_separators cfg _ expression _ m);
      [right; eexists; reflexivity | right; eexists; reflexivity | exact Hrej].
  - replace ((Batch.base_prompt p ++ ", " ++ outfit ++ ", " ++ expression ++ ", "
              ++ Batch.prompt_add sd) ++ ", "
             ++ String.concat ", " (Batch.style_keywords p) ++ tail)%string
      with (((Batch.base_prompt p ++ ", " ++ outfit ++ ", " ++ expression) ++ ", ")
            ++ Batch.prompt_add sd ++ ", "
            ++ String.concat ", " (Batch.style_keywords p) ++ tail)%string
      by (rewrite !append_assoc; reflexivity).
    apply (rejected_between_separators cfg _ (Batch.prompt_add sd) _ m);
      [right; eexists; reflexivity | right; eexists; reflexivity | exact Hrej].
  - destruct (concat_split part _ Hin) as (a & b & -> & Ha & Hb).
    replace ((Batch.base_prompt p ++ ", " ++ outfit ++ ", " ++ expression ++ ", "
              ++ Batch.prompt_add sd) ++ ", " ++ (a ++ part ++ b) ++ tail)%string
      with (((Batch.base_prompt p ++ ", " ++ outfit ++ ", " ++ expression ++ ", "
              ++ Batch.prompt_add sd) ++ ", " ++ a) ++ part ++ b ++ tail)%string
      by (rewrite !append_assoc; reflexivity).
    apply (rejected_between_separators cfg _ part _ m);
      [apply closes_append; exact Ha | apply Htail; exact Hb | exact Hrej].
Qed.

(** X9. The prompt the batch client builds keeps every rejection of its
    parts: if the service's filter rejects the persona's base prompt, the
    outfit, the expression, the scenario text or one style keyword taken
    alone, it rejects the whole prompt (possibly under an earlier
    category), since the parts are joined with [", "]. *)
Theorem script_prompt_keeps_rejection (cfg : Config) (p : Batch.Persona)
  (sd : Batch.ScenarioData) (outfit expression part m : string) :
  In part (prompt_parts p sd outfit expression) ->
  validate_prompt cfg part = Some (false, m) ->
  exists m',
    validate_prompt cfg (Batch.full_prompt p sd outfit expression) = Some (false, m').
Proof. exact (full_prompt_keeps_rejection cfg p sd outfit expression part m). Qed.

Lemma script_prompt_keeps_rejection_witness :
  exists m',
    validate_prompt default_config
      (Batch.full_prompt (persona_named "emma") (scenario_named "selfie")
         "wearing school-style outfit" "smiling warmly")
    = Some (false, m').
Proof.
  apply (script_prompt_keeps_rejection default_config (persona_named "emma")
           (scenario_named "selfie") "wearing school-style outfit" "smiling warmly"
           "wearing school-style outfit" "Prompt rejected: age_down content not allowed").
  - right. left. reflexivity.
  - vm_compute. reflexivity.
Defined.

Lemma mod_of_nat (i : nat) (k : nat) (r : Z) :
  Z.of_nat i mod Z.of_nat k = r -> Z.of_nat (i mod k) = r.
Proof. intros <-. apply Nat2Z.inj_mod. Qed.

(** X10. With the filter on, the service refuses one image in eight of a
    batch for a persona of style "cute" and of style "trendy": the
    variations numbered 5 mod 8 (resp. 7 mod 8) get the outfit "wearing
    school-style outfit" (resp. "wearing influencer style"), and a request
    carrying the prompt built for them is answered with HTTP 400, with no
    engine request made. *)
Theorem school_and_influencer_outfits_are_refused (cfg : Config) (pid : string)
  (p : Batch.Persona) (count : Z) (vs : list Batch.Variation) (v : Batch.Variation)
  (req : GenerateRequest) (env : Env) (w : World) :
  ENABLE_SAFETY cfg = true ->
  Batch.build_image_variations pid p count = Some (Ok vs) ->
  In v vs ->
  (Batch.fashion_style p = "cute" /\ Batch.image_number v mod 8 = 5
   \/ Batch.fashion_style p = "trendy" /\ Batch.image_number v mod 8 = 7) ->
  prompt req
  = Batch.full_prompt (Batch.persona v) (Batch.scenario_data v) (Batch.outfit v)
      (Batch.expression v) ->
  (Batch.outfit v = "wearing school-style outfit"
   \/ Batch.outfit v = "wearing influencer style")
  /\ exists m, generate_image cfg req env w = Some (Raise (HTTPException 400 m), w).
Proof.
  intros Hsafe Hb Hin Hstyle Hprompt.
  destruct (build_image_variations_spec pid p count)
    as [(e & sd & _ & _ & Hr) | (vs' & outfits & Hb' & Ho & _ & _ & Hall)];
    [congruence|].
  assert (vs' = vs) by congruence. subst vs'.
  destruct (In_nth_error _ _ Hin) as [i Hi].
  destruct (Hall i v Hi) as (_ & _ & Hn & Hout & _).
  assert (Hrej : (Batch.outfit v = "wearing school-style outfit"
                  \/ Batch.outfit v = "wearing influencer style")
                 /\ exists m, validate_prompt cfg (Batch.outfit v) = Some (false, m)).
  { unfold validate_prompt. rewrite Hsafe. cbn [negb].
    destruct Hstyle as [[Hs Hm] | [Hs Hm]];
      rewrite Hs in Ho; vm_compute in Ho; injection Ho as <-;
      rewrite Hn in Hm; apply (mod_of_nat i 8) in Hm;
      cbn [List.length] in Hout.
    - replace (i mod 8)%nat with 5%nat in Hout by lia. injection Hout as <-.
      split; [left; reflexivity|]. eexists. vm_compute. reflexivity.
    - replace (i mod 8)%nat with 7%nat in Hout by lia. injection Hout as <-.
      split; [right; reflexivity|]. eexists. vm_compute. reflexivity. }
  destruct Hrej as [Hwhich [m Hm]]. split; [exact Hwhich|].
  destruct (full_prompt_keeps_rejection cfg (Batch.persona v) (Batch.scenario_data v)
              (Batch.outfit v) (Batch.expression v) (Batch.outfit v) m)
    as [m' Hm']; [right; left; reflexivity | exact Hm |].
  exists m'. apply generate_image_rejected. rewrite Hprompt. exact Hm'.
Qed.

Lemma school_and_influencer_outfits_are_refused_witness :
  exists m,
    generate_image default_config
      (request_of_prompt
         (Batch.full_prompt (persona_named "emma") (scenario_named "morning")
            "wearing school-style outfit" "intense gaze"))
      Scenario.good_env initial_world
    = Some (Raise (HTTPException 400 m), initial_world).
Proof.
  pose (v := {| Batch.persona_id := "emma";
                Batch.persona := persona_named "emma";
                Batch.scenario := "morning";
                Batch.scenario_data := scenario_named "morning";
                Batch.outfit := "wearing school-style outfit";
                Batch.expression := "intense gaze";
                Batch.image_number := 5 |}).
  eassert (Eb : Batch.build_image_variations "emma" (persona_named "emma") 100
                = Some (Ok _)) by (vm_compute; reflexivity).
  refine (proj2 (school_and_influencer_outfits_are_refused default_config "emma"
                   (persona_named "emma") 100 _ v
                   (request_of_prompt
                      (Batch.full_prompt (persona_named "emma") (scenario_named "morning")
                         "wearing school-style outfit" "intense gaze"))
                   Scenario.good_env initial_world eq_refl Eb _
                   (or_introl (conj eq_refl eq_refl)) eq_refl)).
  do 5 right. left. reflexivity.
Defined.

(* ------------------------------------------------------------------ *)
(** ** The batch client: one call to the service *)
(* ------------------------------------------------------------------ *)

(** X11. [generate_image] of the batch client never raises: whatever the
    service does (answer, answer something that is not JSON or not an
    object, fail to answer), it makes exactly one request, the POST of
    its payload to [{SD_API_URL}/generate] with a timeout of 120 seconds,
    and returns a dictionary with the persona, the image number and a
    boolean ["success"], which is true exactly when the answer is a JSON
    object with a true ["success"] entry; otherwise the dictionary has an
    ["error"] entry. *)
Theorem batch_call_never_raises (url pid : string) (p : Batch.Persona) (sc : string)
  (sd : Batch.ScenarioData) (outfit expression : string) (n : Z) (env : Env) (w : World) :
  let rq := Batch.generate_request url (Batch.payload pid p sd outfit expression n) in
  exists fields,
    Batch.generate_image url pid p sc sd outfit expression n env w
    = Some (Ok (JObj fields), exchanged env rq w)
    /\ Py.assoc "persona_id" fields = Some (JStr pid)
    /\ Py.assoc "image_number" fields = Some (JInt n)
    /\ ((Py.assoc "success" fields = Some (JBool true)
         /\ reports_success env w rq)
        \/ (Py.assoc "success" fields = Some (JBool false)
            /\ ~ reports_success env w rq
            /\ exists err, Py.assoc "error" fields = Some err)).
Proof.
  intros rq. unfold Batch.generate_image, try_except, bind, send, exchanged, reports_success.
  fold rq.
  destruct (http env (w_steps w) rq) as [outcome dt] eqn:Eh. cbn [fst snd].
  destruct outcome as [r | cls msg].
  - unfold response_json. destruct (json_body r) as [j|] eqn:Ej.
    + destruct j as [ | b | z | q | s | l | body].
      all: try (eexists; split; [reflexivity|]; split; [reflexivity|];
                split; [reflexivity|]; right; split; [reflexivity|];
                split; [|eexists; reflexivity];
                intros (r0 & body0 & flag0 & Hr & Hj & _);
                injection Hr as <-; rewrite Ej in Hj; discriminate).
      cbn [Py.get lift ret].
      destruct (Py.assoc "success" body) as [flag|] eqn:Es.
      * destruct (Batch.truthy flag) eqn:Et.
        -- eexists. split; [reflexivity|]. split; [reflexivity|].
           split; [reflexivity|]. left. split; [reflexivity|].
           exists r, body, flag. auto.
        -- eexists. split; [reflexivity|]. split; [reflexivity|].
           split; [reflexivity|]. right. split; [reflexivity|].
           split; [|eexists; reflexivity].
           intros (r0 & body0 & flag0 & Hr & Hj & Hs & Ht).
           injection Hr as <-. rewrite Ej in Hj. injection Hj as <-.
           rewrite Es in Hs. injection Hs as <-. congruence.
      * eexists. split; [reflexivity|]. split; [reflexivity|].
        split; [reflexivity|]. right. split; [reflexivity|].
        split; [|eexists; reflexivity].
        intros (r0 & body0 & flag0 & Hr & Hj & Hs & Ht).
        injection Hr as <-. rewrite Ej in Hj. injection Hj as <-.
        rewrite Es in Hs. discriminate.
    + eexists. split; [reflexivity|]. split; [reflexivity|].
      split; [reflexivity|]. right. split; [reflexivity|].
      split; [|eexists; reflexivity].
      intros (r0 & body0 & flag0 & Hr & Hj & _).
      injection Hr as <-. rewrite Ej in Hj. discriminate.
  - eexists. split; [reflexivity|]. split; [reflexivity|].
    split; [reflexivity|]. right. split; [reflexivity|].
    split; [|eexists; reflexivity].
    intros (r0 & body0 & flag0 & Hr & _). discriminate.
Qed.

(** X12. The batch client never reads the status code.  When the service
    answers with a JSON object whose ["success"] entry is missing or
    false, the image is reported as failed with the ["error"] entry of
    the answer, and with "Unknown error" when there is none: the
    ["detail"] of an HTTP error answer is dropped. *)
Theorem error_detail_is_dropped (url pid : string) (p : Batch.Persona) (sc : string)
  (sd : Batch.ScenarioData) (outfit expression : string) (n : Z) (env : Env) (w : World)
  (r : Response) (body : list (string * json)) :
  let rq := Batch.generate_request url (Batch.payload pid p sd outfit expression n) in
  fst (http env (w_steps w) rq) = Replied r ->
  json_body r = Some (JObj body) ->
  match Py.assoc "success" body with
  | Some flag => Batch.truthy flag = false
  | None => True
  end ->
  Batch.generate_image url pid p sc sd outfit expression n env w
  = Some (Ok (failed_image pid n
                (match Py.assoc "error" body with
                 | Some e => e
                 | None => JStr "Unknown error"
                 end)),
          exchanged env rq w).
Proof.
  intros rq Hr Hj Hs.
  unfold Batch.generate_image, try_except, bind, send, exchanged. fold rq.
  destruct (http env (w_steps w) rq) as [outcome dt]. cbn [fst snd] in *. subst outcome.
  unfold response_json. rewrite Hj. cbn [Py.get lift ret].
  destruct (Py.assoc "success" body) as [flag|].
  - rewrite Hs. reflexivity.
  - reflexivity.
Qed.

Lemma error_detail_is_dropped_witness :
  Batch.generate_image "http://localhost:8000" "emma" (persona_named "emma") "morning"
    (scenario_named "morning") "wearing school-style outfit" "intense gaze" 5
    (answering 400 [("detail", JStr "Prompt rejected: age_down content not allowed")])
    initial_world
  = Some (Ok (failed_image "emma" 5 (JStr "Unknown error")),
          exchanged
            (answering 400 [("detail", JStr "Prompt rejected: age_down content not allowed")])
            (Batch.generate_request "http://localhost:8000"
               (Batch.payload "emma" (persona_named "emma") (scenario_named "morning")
                  "wearing school-style outfit" "intense gaze" 5))
            initial_world).
Proof.
  exact (error_detail_is_dropped "http://localhost:8000" "emma" (persona_named "emma")
           "morning" (scenario_named "morning") "wearing school-style outfit"
           "intense gaze" 5
           (answering 400 [("detail", JStr "Prompt rejected: age_down content not allowed")])
           initial_world
           {| status_code := 400; text := ""; content := [];
              json_body := Some (JObj [("detail",
                             JStr "Prompt rejected: age_down content not allowed")]) |}
           [("detail", JStr "Prompt rejected: age_down content not allowed")]
           eq_refl eq_refl I).
Defined.

(* ------------------------------------------------------------------ *)
(** ** The batch client: seeds *)
(* ------------------------------------------------------------------ *)

Lemma persona_seed_base (id : string) (p : Batch.Persona) :
  In (id, p) Batch.PERSONAS ->
  exists k : nat,
    (k < 13)%nat
    /\ Batch.seed_base p = 100000 * (Z.of_nat k + 1)
    /\ nth_error (map fst Batch.PERSONAS) k = Some id.
Proof.
  intros H. unfold Batch.PERSONAS in H. simpl in H.
  repeat (destruct H as [H|H];
          [injection H as <- <-;
           first [ exists 0%nat; split; [lia|]; split; reflexivity
                 | exists 1%nat; split; [lia|]; split; reflexivity
                 | exists 2%nat; split; [lia|]; split; reflexivity
                 | exists 3%nat; split; [lia|]; split; reflexivity
                 | exists 4%nat; split; [lia|]; split; reflexivity
                 | exists 5%nat; split; [lia|]; split; reflexivity
                 | exists 6%nat; split; [lia|]; split; reflexivity
                 | exists 7%nat; split; [lia|]; split; reflexivity
                 | exists 8%nat; split; [lia|]; split; reflexivity
                 | exists 9%nat; split; [lia|]; split; reflexivity
                 | exists 10%nat; split; [lia|]; split; reflexivity
                 | exists 11%nat; split; [lia|]; split; reflexivity
                 | exists 12%nat; split; [lia|]; split; reflexivity ]|]).
  contradiction.
Qed.

(** X13. Over the personas of the table and image numbers below 100000,
    the seed the batch client sends ([seed_base + image_number])
    identifies the persona and the image: two images share a seed only
    if they are the same image of the same persona.  Every such seed is
    positive, so the service generates with exactly that seed and draws
    no random one. *)
Theorem batch_seeds_identify_the_image (id1 id2 : string) (p1 p2 : Batch.Persona)
  (i j : Z) :
  In (id1, p1) Batch.PERSONAS ->
  In (id2, p2) Batch.PERSONAS ->
  0 <= i < 100000 ->
  0 <= j < 100000 ->
  (Batch.seed_base p1 + i = Batch.seed_base p2 + j -> id1 = id2 /\ i = j)
  /\ forall (req : GenerateRequest) (env : Env) (w : World),
       seed req = Some (Batch.seed_base p1 + i) ->
       resolve_seed req env w = Some (Ok (Batch.seed_base p1 + i), w).
Proof.
  intros H1 H2 Hi Hj.
  destruct (persona_seed_base id1 p1 H1) as (k1 & Hk1 & Hs1 & Hn1).
  destruct (persona_seed_base id2 p2 H2) as (k2 & Hk2 & Hs2 & Hn2).
  split.
  - intros E. rewrite Hs1, Hs2 in E.
    assert (k1 = k2) by lia. subst k2.
    split; [congruence | lia].
  - intros req env w Hseed. rewrite resolve_seed_value, Hseed.
    destruct (Z.ltb_spec 0 (Batch.seed_base p1 + i)); [reflexivity | lia].
Qed.

Lemma batch_seeds_identify_the_image_witness :
  (Batch.seed_base (persona_named "emma") + 99999
   = Batch.seed_base (persona_named "victoria") + 0 -> "emma" = "victoria" /\ 99999 = 0)
  /\ forall (req : GenerateRequest) (env : Env) (w : World),
       seed req = Some (Batch.seed_base (persona_named "emma") + 99999) ->
       resolve_seed req env w
       = Some (Ok (Batch.seed_base (persona_named "emma") + 99999), w).
Proof.
  apply (batch_seeds_identify_the_image "emma" "victoria" (persona_named "emma")
           (persona_named "victoria") 99999 0).
  - right. left. reflexivity.
  - do 2 right. left. reflexivity.
  - lia.
  - lia.
Defined.
